(** * gcm_pipeline/gcm_script.py: the GCM clustering pipeline

    A shallow embedding of [gcm_script.py] and the properties of its
    scratch-directory life cycle, its external-step invocation and its
    remapping of cluster assignments.

    Conventions of the model.
    - Text is ASCII: a Python [str] is a [string]; characters above 127 are
      neither white space nor digits.
    - The platform is POSIX: the path separator is "/", text files are
      written with "\n" and read with universal newlines.
    - Paths are compared as written (no symbolic links, no "." or ".."
      components, no doubled or trailing separators); a relative path is
      resolved against the current working directory.
    - Python exceptions are the constructors of [exn]; a computation is a
      function from the world to a result and a world.
    - The world carries a ghost [trace]: every modelled function logs its
      entry ([Call]), every [subprocess.run] its argument vector ([Spawn])
      and every [print] its text ([Print]). *)

From Stdlib Require Import ZArith Ascii String List Bool Lia.
From Stdlib Require Import DecimalString.
From stdpp Require Import base option gmap strings list fin_maps.

Local Open Scope Z_scope.
Local Open Scope string_scope.
Local Open Scope list_scope.

(** ** Python text primitives *)

Module Py.

(** [str.isspace] on one ASCII character: TAB, LF, VT, FF, CR, the four
    separators FS, GS, RS, US and the space. *)
Definition isspace (c : ascii) : bool :=
  let n := nat_of_ascii c in
  ((9 <=? n)%nat && (n <=? 13)%nat) || ((28 <=? n)%nat && (n <=? 32)%nat).

Definition isdigit (c : ascii) : bool :=
  let n := nat_of_ascii c in (48 <=? n)%nat && (n <=? 57)%nat.

Definition digit_val (c : ascii) : Z := Z.of_nat (nat_of_ascii c) - 48.

(** [str.lstrip()], [str.rstrip()] and [str.strip()] without argument. *)
Fixpoint lstrip (s : string) : string :=
  match s with
  | EmptyString => EmptyString
  | String c s' => if isspace c then lstrip s' else s
  end.

Fixpoint rstrip (s : string) : string :=
  match s with
  | EmptyString => EmptyString
  | String c s' =>
      match rstrip s' with
      | EmptyString => if isspace c then EmptyString else String c EmptyString
      | r => String c r
      end
  end.

Definition strip (s : string) : string := rstrip (lstrip s).

(** [str.split()] without argument: the maximal runs of characters that
    are not white space.  [cur] is the run being read, reversed. *)
Fixpoint split_aux (cur : list ascii) (s : string) : list string :=
  match s with
  | EmptyString =>
      match cur with
      | [] => []
      | _ => [string_of_list_ascii (rev cur)]
      end
  | String c s' =>
      if isspace c then
        match cur with
        | [] => split_aux [] s'
        | _ => string_of_list_ascii (rev cur) :: split_aux [] s'
        end
      else split_aux (c :: cur) s'
  end.

Definition split (s : string) : list string := split_aux [] s.

(** The digits of an integer literal as [int] reads them: a digit, then
    digits each optionally preceded by one underscore.  [prev] tells
    whether the previous character was a digit. *)
Fixpoint int_digits (acc : Z) (prev : bool) (s : string) : option Z :=
  match s with
  | EmptyString => if prev then Some acc else None
  | String c s' =>
      if isdigit c then int_digits (10 * acc + digit_val c) true s'
      else if (Ascii.eqb c "_") && prev then int_digits acc false s'
      else None
  end.

(** [int(s)] for a string in base 10: surrounding white space is dropped,
    one sign is allowed; [None] stands for [ValueError]. *)
Definition int (s : string) : option Z :=
  match strip s with
  | String "-" d => Z.opp <$> int_digits 0 false d
  | String "+" d => int_digits 0 false d
  | d => int_digits 0 false d
  end.

(** [str(n)] for an [int]. *)
Definition str (n : Z) : string := NilZero.string_of_int (Z.to_int n).

(** Reading in text mode translates "\r\n" and "\r" to "\n". *)
Fixpoint universal_newlines (s : string) : string :=
  match s with
  | EmptyString => EmptyString
  | String c s' =>
      if Ascii.eqb c "013" then
        match s' with
        | String c' s'' =>
            if Ascii.eqb c' "010" then String "010" (universal_newlines s'')
            else String "010" (universal_newlines s')
        | EmptyString => String "010" EmptyString
        end
      else String c (universal_newlines s')
  end.

(** Iterating over a text file: the lines, each with its terminator; a
    last line without terminator is a line too. *)
Fixpoint lines_aux (cur : list ascii) (s : string) : list string :=
  match s with
  | EmptyString =>
      match cur with
      | [] => []
      | _ => [string_of_list_ascii (rev cur)]
      end
  | String c s' =>
      if Ascii.eqb c "010" then
        string_of_list_ascii (rev (c :: cur)) :: lines_aux [] s'
      else lines_aux (c :: cur) s'
  end.

Definition lines (s : string) : list string := lines_aux [] s.

End Py.

(** ** Paths: [os.path] and [pathlib] on POSIX *)

Module Path.

(** [rsplit1 c s] cuts [s] around the last occurrence of [c]. *)
Fixpoint rsplit1 (c : ascii) (s : string) : option (string * string) :=
  match s with
  | EmptyString => None
  | String x s' =>
      match rsplit1 c s' with
      | Some (h, t) => Some (String x h, t)
      | None => if Ascii.eqb x c then Some (EmptyString, s') else None
      end
  end.

(** [c in s]. *)
Fixpoint has (c : ascii) (s : string) : bool :=
  match s with
  | EmptyString => false
  | String x s' => Ascii.eqb x c || has c s'
  end.

Fixpoint ends_with_slash (s : string) : bool :=
  match s with
  | EmptyString => false
  | String c EmptyString => Ascii.eqb c "/"
  | String _ s' => ends_with_slash s'
  end.

Definition is_abs (s : string) : bool :=
  match s with
  | String "/" _ => true
  | _ => false
  end.

(** [os.path.join(a, b)]. *)
Definition join (a b : string) : string :=
  if is_abs b then b
  else if String.eqb a "" || ends_with_slash a then a +:+ b
  else a +:+ "/" +:+ b.

(** [os.path.basename(p)]: what follows the last separator. *)
Definition basename (p : string) : string :=
  match rsplit1 "/" p with
  | Some (_, t) => t
  | None => p
  end.

Fixpoint all_slashes (s : string) : bool :=
  match s with
  | EmptyString => true
  | String c s' => Ascii.eqb c "/" && all_slashes s'
  end.

Fixpoint rstrip_slashes (s : string) : string :=
  match s with
  | EmptyString => EmptyString
  | String c s' =>
      match rstrip_slashes s' with
      | EmptyString => if Ascii.eqb c "/" then EmptyString else String c EmptyString
      | r => String c r
      end
  end.

(** [os.path.dirname(p)]: the head up to the last separator, without its
    trailing separators unless it consists of separators only. *)
Definition dirname (p : string) : string :=
  match rsplit1 "/" p with
  | Some (h, _) =>
      let head := h +:+ "/" in
      if all_slashes head then head else rstrip_slashes head
  | None => EmptyString
  end.

(** The proper ancestors of a path: the root and every prefix that ends
    before a separator. *)
Fixpoint ancestors_aux (cur : list ascii) (s : string) : list string :=
  match s with
  | EmptyString => []
  | String c s' =>
      if Ascii.eqb c "/" then
        match cur with
        | [] => "/" :: ancestors_aux [c] s'
        | _ => string_of_list_ascii (rev cur) :: ancestors_aux (c :: cur) s'
        end
      else ancestors_aux (c :: cur) s'
  end.

Definition ancestors (p : string) : list string := ancestors_aux [] p.

(** [under d p]: [p] lies strictly below the directory [d]. *)
Definition under (d p : string) : bool := String.prefix (d +:+ "/") p.

(** [PurePath.suffix] and [PurePath.stem] of a final component [name]:
    the last dot starts the suffix unless it is the first or the last
    character of the name. *)
Definition suffix (name : string) : string :=
  match rsplit1 "." name with
  | Some (String _ _, String c t) => String "." (String c t)
  | _ => EmptyString
  end.

Definition stem (name : string) : string :=
  match rsplit1 "." name with
  | Some (String c h, String _ _) => String c h
  | _ => name
  end.

(** [str(Path(p).with_stem(f(Path(p).stem)))] for a path written in
    normal form: the final component is renamed, the directory part is
    kept; [None] stands for the [ValueError] of an empty name, which is
    also the name of the path ".". *)
Definition with_stem (p : string) (f : string -> string) : option string :=
  let name := basename p in
  if String.eqb name "" || String.eqb name "." then None
  else
    let name' := f (stem name) +:+ suffix name in
    match rsplit1 "/" p with
    | Some (h, _) => Some (h +:+ "/" +:+ name')
    | None => Some name'
    end.

End Path.

(** ** Exceptions, results and the world *)

Inductive exn : Type :=
| FileNotFoundError
| FileExistsError
| IsADirectoryError
| NotADirectoryError
| PermissionError
| SameFileError
| ValueError
| KeyError (key : Z)
| CalledProcessError (returncode : Z)
| TimeoutExpired
| UnboundLocalError (name : string).

Inductive Result (A : Type) : Type :=
| Ok (a : A)
| Raise (e : exn).
Arguments Ok {A} a.
Arguments Raise {A} e.

Inductive event : Type :=
| Call (fn : string)
| Spawn (argv : list string) (check : bool)
| Print (msg : string).

#[global] Instance exn_eq_dec : EqDecision exn.
Proof. solve_decision. Defined.
#[global] Instance event_eq_dec : EqDecision event.
Proof. solve_decision. Defined.

(** The file system: the set of directories and the regular files with
    their contents, both keyed by absolute path. *)
Record FS : Type := mkFS {
  dirs : gset string;
  files : gmap string string
}.

(** The state a run of the script can observe or change: the file system,
    the process-wide working directory, the position in the stream of
    random draws, and the ghost trace in chronological order. *)
Record World : Type := mkWorld {
  fs : FS;
  cwd : string;
  rng_pos : nat;
  trace : list event
}.

Definition M (A : Type) : Type := World -> Result A * World.

Definition ret {A} (a : A) : M A := fun w => (Ok a, w).
Definition raise {A} (e : exn) : M A := fun w => (Raise e, w).
Definition bind {A B} (m : M A) (k : A -> M B) : M B :=
  fun w =>
    match m w with
    | (Ok a, w') => k a w'
    | (Raise e, w') => (Raise e, w')
    end.

Declare Scope py_scope.
Delimit Scope py_scope with py.
Notation "x <- m ;; k" := (bind m (fun x => k))
  (at level 100, m at next level, right associativity) : py_scope.
Notation "m ;;; k" := (bind m (fun _ => k))
  (at level 100, right associativity) : py_scope.

Definition lift {A} (r : Result A) : M A := fun w => (r, w).

Definition log (e : event) : M unit :=
  fun w => (Ok tt, mkWorld (fs w) (cwd w) (rng_pos w) (trace w ++ [e])).

Definition set_fs (f : FS) : M unit :=
  fun w => (Ok tt, mkWorld f (cwd w) (rng_pos w) (trace w)).

Definition set_cwd (d : string) : M unit :=
  fun w => (Ok tt, mkWorld (fs w) d (rng_pos w) (trace w)).

(** [print(msg)]. *)
Definition print (msg : string) : M unit := log (Print msg).

(** The outcome of [try: ... finally: ...]: [r] is how the [try] suite
    ended and [c] how the [finally] suite did; an exception of the
    [finally] suite replaces [r]. *)
Definition finish {A} (r : Result A) (c : Result unit * World) : Result A * World :=
  match c with
  | (Raise e, wf) => (Raise e, wf)
  | (Ok _, wf) => (r, wf)
  end.

Definition or_default (o : option string) (d : string) : string :=
  match o with None => d | Some x => x end.

(** The world [w] with the file system [f] and the events [evs] added to
    its trace. *)
Definition after (w : World) (f : FS) (evs : list event) : World :=
  mkWorld f (cwd w) (rng_pos w) (trace w ++ evs).

Definition cleanup_fn : string := "_exit_and_cleanup_scratch".

(** How often the function [fn] was entered in a trace. *)
Definition calls (fn : string) (tr : list event) : nat :=
  count_occ event_eq_dec tr (Call fn).

(** [emits P m]: whatever the world, [m] only appends events to the trace,
    and all of them satisfy [P]. *)
Definition emits {A} (P : event -> Prop) (m : M A) : Prop :=
  forall w, exists evs, trace (snd (m w)) = trace w ++ evs /\ Forall P evs.

Definition any_event (e : event) : Prop := True.

(** ** The operating-system calls the script makes *)

Module OS.

Definition is_dir (f : FS) (p : string) : bool := bool_decide (p ∈ dirs f).

(** A final component that can name a regular file: not empty, not "."
    and not "..". *)
Definition proper_name (n : string) : bool :=
  negb (String.eqb n "" || String.eqb n "." || String.eqb n "..").

Definition is_file (f : FS) (p : string) : bool :=
  bool_decide (is_Some (files f !! p)) && proper_name (Path.basename p).

Definition exists_ (f : FS) (p : string) : bool := is_dir f p || is_file f p.

(** Opening [p] for reading. *)
Definition read_file (f : FS) (p : string) : Result string :=
  if is_dir f p then Raise IsADirectoryError
  else if is_file f p then
    match files f !! p with
    | Some c => Ok c
    | None => Raise FileNotFoundError
    end
  else Raise FileNotFoundError.

(** Opening [p] for writing creates or truncates it: [p] must not be a
    directory and must exist already or lie in an existing directory. *)
Definition check_writable (f : FS) (p : string) : Result unit :=
  if is_dir f p then Raise IsADirectoryError
  else if is_file f p then Ok tt
  else if negb (proper_name (Path.basename p)) then Raise IsADirectoryError
  else if is_dir f (Path.dirname p) then Ok tt
  else if is_file f (Path.dirname p) then Raise NotADirectoryError
  else Raise FileNotFoundError.

Definition write_file (f : FS) (p : string) (c : string) : FS :=
  mkFS (dirs f) (<[p := c]> (files f)).

(** [os.getcwd()]. *)
Definition getcwd : M string :=
  fun w => if is_dir (fs w) (cwd w) then (Ok (cwd w), w)
           else (Raise FileNotFoundError, w).

Definition resolve (w : World) (p : string) : string := Path.join (cwd w) p.

(** [os.path.exists(p)]. *)
Definition path_exists (p : string) : M bool :=
  fun w => (Ok (exists_ (fs w) (resolve w p)), w).

(** [os.makedirs(d)] with [exist_ok=False]: the leaf must be new, the
    missing ancestors are created. *)
Definition makedirs (d : string) : M unit :=
  fun w =>
    let p := resolve w d in
    if exists_ (fs w) p then (Raise FileExistsError, w)
    else if existsb (is_file (fs w)) (Path.ancestors p)
    then (Raise NotADirectoryError, w)
    else set_fs (mkFS (dirs (fs w) ∪ list_to_set (Path.ancestors p) ∪ {[p]})
                      (files (fs w))) w.

(** [shutil.copy(src, dst)]: into [dst] when it is a directory, onto
    [dst] otherwise. *)
Definition copy (src dst : string) : M unit :=
  fun w =>
    let s := resolve w src in
    let d0 := resolve w dst in
    let d := if is_dir (fs w) d0 then Path.join d0 (Path.basename s) else d0 in
    if is_file (fs w) s && String.eqb s d then (Raise SameFileError, w)
    else
      match read_file (fs w) s with
      | Raise e => (Raise e, w)
      | Ok c =>
          match check_writable (fs w) d with
          | Raise e => (Raise e, w)
          | Ok _ => set_fs (write_file (fs w) d c) w
          end
      end.

(** [os.chdir(d)]. *)
Definition chdir (d : string) : M unit :=
  fun w =>
    let p := resolve w d in
    if is_dir (fs w) p then set_cwd p w
    else if is_file (fs w) p then (Raise NotADirectoryError, w)
    else (Raise FileNotFoundError, w).

(** [shutil.rmtree(d)]: the directory and all that lies below it. *)
Definition rmtree (d : string) : M unit :=
  fun w =>
    let p := resolve w d in
    if is_dir (fs w) p then
      set_fs (mkFS (filter (fun x => x <> p /\ Path.under p x = false) (dirs (fs w)))
                   (filter (fun kv => Path.under p (fst kv) = false) (files (fs w)))) w
    else if is_file (fs w) p then (Raise NotADirectoryError, w)
    else (Raise FileNotFoundError, w).

(** [with open(p, 'r') as f]: the text of the file as the body sees it. *)
Definition open_read (p : string) : M string :=
  fun w =>
    match read_file (fs w) (resolve w p) with
    | Ok c => (Ok (Py.universal_newlines c), w)
    | Raise e => (Raise e, w)
    end.

(** [with open(p, 'w') as f: body]: the file is truncated, [body] yields
    what it printed to [f] and how it ended, and the file is closed with
    that text whether or not the body raised. *)
Definition open_write {A} (p : string) (body : Result A * string) : M A :=
  fun w =>
    let q := resolve w p in
    match check_writable (fs w) q with
    | Raise e => (Raise e, w)
    | Ok _ =>
        match set_fs (write_file (fs w) q (snd body)) w with
        | (_, w') => (fst body, w')
        end
    end.

End OS.

(** ** gcm_script.py *)

Definition nl : string := String "010" EmptyString.

(** A Python [dict] from [int] to [int] whose iteration order matters:
    the items in insertion order; assigning to a present key keeps its
    place. *)
Fixpoint dict_set (k v : Z) (d : list (Z * Z)) : list (Z * Z) :=
  match d with
  | [] => [(k, v)]
  | (k', v') :: d' =>
      if Z.eqb k k' then (k, v) :: d' else (k', v') :: dict_set k v d'
  end.

(** How a child process ended, as [subprocess.run] sees it. *)
Inductive outcome : Type :=
| Exited (returncode : Z)
| NotFound
| Denied
| TimedOut.

Module Gcm.
Section Script.

(** The directory of the script, [Path(__file__).resolve().parent]. *)
Variable source_dir : string.

(** The external programs: from the argument vector, the working
    directory and the file system to the way the child ended and the file
    system it left.  A child changes neither the working directory of the
    script nor its trace. *)
Variable exec : list string -> string -> FS -> outcome * FS.

(** The index [random.choice] picks at its n-th call. *)
Variable draw : nat -> nat.

(** The type of [chi] and its rendering in an f-string. *)
Variable float : Type.
Variable str_float : float -> string.

(** The text of an exception in an f-string. *)
Variable str_exc : exn -> string.

Local Open Scope py_scope.

Definition ascii_letters : string :=
  "abcdefghijklmnopqrstuvwxyzABCDEFGHIJKLMNOPQRSTUVWXYZ".
Definition digits : string := "0123456789".

(** [random.choice(seq)] on a string. *)
Definition random_choice (seq : string) : M ascii :=
  fun w =>
    let i := (draw (rng_pos w) mod String.length seq)%nat in
    let w' := mkWorld (fs w) (cwd w) (S (rng_pos w)) (trace w) in
    match String.get i seq with
    | Some c => (Ok c, w')
    | None => (Raise ValueError, w')
    end.

Fixpoint random_chars (letters : string) (n : nat) : M string :=
  match n with
  | O => ret EmptyString
  | S n' =>
      c <- random_choice letters ;;
      s <- random_chars letters n' ;;
      ret (String c s)
  end.

Definition generate_random_string (length : nat) : M string :=
  let letters := ascii_letters +:+ digits in
  random_chars letters length.

(** [subprocess.run(argv, check=check)]: a child that could not be started
    leaves the file system as it was. *)
Definition subprocess_run (argv : list string) (check : bool) : M unit :=
  log (Spawn argv check) ;;;
  fun w =>
    match exec argv (cwd w) (fs w) with
    | (NotFound, _) => (Raise FileNotFoundError, w)
    | (Denied, _) => (Raise PermissionError, w)
    | (TimedOut, f) => (Raise TimeoutExpired, mkWorld f (cwd w) (rng_pos w) (trace w))
    | (Exited code, f) =>
        let w' := mkWorld f (cwd w) (rng_pos w) (trace w) in
        if check && negb (Z.eqb code 0) then (Raise (CalledProcessError code), w')
        else (Ok tt, w')
    end.

(** [with subprocess_context(): body]. *)
Definition subprocess_context (body : M unit) : M unit :=
  fun w =>
    match body w with
    | (Raise FileNotFoundError, w') =>
        print ("Process failed because the executable could not be found." +:+ nl
               +:+ str_exc FileNotFoundError) w'
    | (Raise (CalledProcessError code), w') =>
        print ("Process failed: did not return a successful code. Returned "
               +:+ Py.str code +:+ ": " +:+ str_exc (CalledProcessError code)) w'
    | (Raise TimeoutExpired, w') =>
        print ("Process timed out." +:+ nl +:+ str_exc TimeoutExpired) w'
    | r => r
    end.

(** The diagnostic [subprocess_context] prints for an exception it
    catches. *)
Definition diagnostic (e : exn) : string :=
  match e with
  | CalledProcessError code =>
      "Process failed: did not return a successful code. Returned "
      +:+ Py.str code +:+ ": " +:+ str_exc e
  | TimeoutExpired => "Process timed out." +:+ nl +:+ str_exc e
  | _ => "Process failed because the executable could not be found." +:+ nl
         +:+ str_exc e
  end.

(** The exception [subprocess.run] raises for an outcome that
    [subprocess_context] catches: executable not found, non-zero exit of a
    checked step, timeout. *)
Definition failure_kind (o : outcome) (check : bool) : option exn :=
  match o with
  | NotFound => Some FileNotFoundError
  | TimedOut => Some TimeoutExpired
  | Exited code =>
      if check && negb (Z.eqb code 0) then Some (CalledProcessError code) else None
  | Denied => None
  end.

Definition run_work_script (filename : string) : M unit :=
  log (Call "run_work_script") ;;;
  let path_to_exec := Path.join source_dir "work.sh" in
  subprocess_context (subprocess_run ["bash"; path_to_exec; filename] true).

(** The value [run_format_script] returns: the names of the formatted
    file and of the key file, [ValueError] for a path without a name. *)
Definition format_names (filename : string) : Result (string * string) :=
  match Path.with_stem filename (fun stem => stem +:+ "_formatted"),
        Path.with_stem filename (fun stem => stem +:+ "_key") with
  | Some formatted, Some key => Ok (formatted, key)
  | _, _ => Raise ValueError
  end.

Definition run_format_script (filename : string) (sep : option string)
  : M (string * string) :=
  log (Call "run_format_script") ;;;
  let sep := or_default sep "space" in
  let path_to_exec := Path.join source_dir "format_edgelist.py" in
  subprocess_context
    (subprocess_run ["python"; path_to_exec; filename; "--sep"; sep] false) ;;;
  lift (format_names filename).

(** The three loops of [remap_partition_results]. *)
Fixpoint load_partitions (ls : list string) (i : Z) (partitions : list (Z * Z))
  : Result (list (Z * Z)) :=
  match ls with
  | [] => Ok partitions
  | line :: ls' =>
      let i := i + 1 in
      match Py.int (Py.strip line) with
      | Some v => load_partitions ls' i (dict_set i v partitions)
      | None => Raise ValueError
      end
  end.

Fixpoint load_mappings (ls : list string) (mappings : gmap Z Z)
  : Result (gmap Z Z) :=
  match ls with
  | [] => Ok mappings
  | line :: ls' =>
      match Py.split line with
      | [a; b] =>
          match Py.int a, Py.int b with
          | Some a, Some b => load_mappings ls' (<[b := a]> mappings)
          | _, _ => Raise ValueError
          end
      | _ => Raise ValueError
      end
  end.

Fixpoint write_remapped (items : list (Z * Z)) (mappings : gmap Z Z) (out : string)
  : Result unit * string :=
  match items with
  | [] => (Ok tt, out)
  | (k, v) :: items' =>
      match mappings !! k with
      | Some a =>
          write_remapped items' mappings (out +:+ Py.str a +:+ " " +:+ Py.str v +:+ nl)
      | None => (Raise (KeyError k), out)
      end
  end.

Definition remap_partition_results (keyfile formatted_file : string) : M unit :=
  log (Call "remap_partition_results") ;;;
  let result_filename := "partition_" +:+ Path.basename formatted_file in
  f <- OS.open_read result_filename ;;
  partitions <- lift (load_partitions (Py.lines f) 0 []) ;;
  f <- OS.open_read keyfile ;;
  mappings <- lift (load_mappings (Py.lines f) ∅) ;;
  OS.open_write result_filename (write_remapped partitions mappings "").

Definition _setup_and_enter_scratch (initial_working_directory input_file : string)
  : M (string * string) :=
  log (Call "_setup_and_enter_scratch") ;;;
  suffix <- generate_random_string 4 ;;
  let scratch_directory :=
    Path.join initial_working_directory ("gcm_cache_" +:+ suffix) in
  OS.makedirs scratch_directory ;;;
  let scratch_file := Path.join scratch_directory (Path.basename input_file) in
  OS.copy input_file scratch_file ;;;
  OS.chdir scratch_directory ;;;
  ret (scratch_directory, scratch_file).

Definition _exit_and_cleanup_scratch
  (output_dir output_file initial_working_dir scratch_directory formatted_file : string)
  : M unit :=
  log (Call "_exit_and_cleanup_scratch") ;;;
  let result_filename := "partition_" +:+ Path.basename formatted_file in
  let output_filepath := Path.join output_dir output_file in
  let result_filepath := Path.join scratch_directory result_filename in
  found <- OS.path_exists result_filepath ;;
  (if found : bool then OS.copy result_filepath output_filepath
   else print "Error encountered, no result exists") ;;;
  OS.chdir initial_working_dir ;;;
  found <- OS.path_exists scratch_directory ;;
  if found : bool then OS.rmtree scratch_directory else ret tt.

Definition run_clustering (filename : string) (chi : float) (seed : Z) : M unit :=
  log (Call "run_clustering") ;;;
  subprocess_context
    (subprocess_run
       [source_dir +:+ "/a.out"; "2"; "5"; "2"; Py.str seed; str_float chi; filename]
       true).

(** The local names of [gcm] that its [try] block binds; [None] is a name
    not yet assigned. *)
Record Locals : Type := mkLocals {
  scratch_directory : option string;
  scratch_file : option string;
  formatted_file : option string;
  key_file : option string
}.

(** The [try] suite of [gcm]: how it ended, and the names it had bound by
    then. *)
Definition gcm_try (initial_working_directory input_file : string)
  (chi : float) (seed : Z) (sep : option string)
  : World -> Locals * Result unit * World :=
  fun w =>
    match _setup_and_enter_scratch initial_working_directory input_file w with
    | (Raise e, w1) => (mkLocals None None None None, Raise e, w1)
    | (Ok (sd, sf), w1) =>
        match run_format_script (Path.basename sf) sep w1 with
        | (Raise e, w2) => (mkLocals (Some sd) (Some sf) None None, Raise e, w2)
        | (Ok (ff, kf), w2) =>
            let l := mkLocals (Some sd) (Some sf) (Some ff) (Some kf) in
            match (run_work_script (Path.basename ff) ;;;
                   run_clustering (Path.basename ff) chi seed ;;;
                   remap_partition_results kf ff) w2 with
            | (r, w3) => (l, r, w3)
            end
        end
    end.

(** The [finally] suite of [gcm]: the arguments of the call are evaluated
    from left to right, and reading a name that was never assigned raises
    [UnboundLocalError] before the call is made. *)
Definition gcm_finally (output_dir output_file initial_working_directory : string)
  (l : Locals) : M unit :=
  match scratch_directory l with
  | None => raise (UnboundLocalError "scratch_directory")
  | Some sd =>
      match formatted_file l with
      | None => raise (UnboundLocalError "formatted_file")
      | Some ff =>
          _exit_and_cleanup_scratch output_dir output_file
            initial_working_directory sd ff
      end
  end.

(** [gcm]: an exception of the [finally] suite replaces the outcome of the
    [try] suite; otherwise that outcome is the outcome of [gcm]. *)
Definition gcm (input_file : string) (chi : float) (seed : Z)
  (output_dir output_file sep : option string) : M unit :=
  initial_working_directory <- OS.getcwd ;;
  let output_dir := or_default output_dir initial_working_directory in
  let output_file := or_default output_file "clustering_output.txt" in
  fun w =>
    match gcm_try initial_working_directory input_file chi seed sep w with
    | (l, r, w1) =>
        finish r (gcm_finally output_dir output_file initial_working_directory l w1)
    end.

(** The states of a run, after the stages of the [try] suite that have
    returned: [staged] after [_setup_and_enter_scratch], [formatted] after
    [run_format_script], [prepared] after [run_work_script], [clustered]
    after [run_clustering]. *)
Section Stages.
Variables (input_file : string) (chi : float) (seed : Z) (sep : option string).

Definition staged (w : World) (sd sf : string) (w1 : World) : Prop :=
  OS.is_dir (fs w) (cwd w) = true /\
  _setup_and_enter_scratch (cwd w) input_file w = (Ok (sd, sf), w1).

Definition formatted (w : World) (sd ff kf : string) (w2 : World) : Prop :=
  exists sf w1,
    staged w sd sf w1 /\
    run_format_script (Path.basename sf) sep w1 = (Ok (ff, kf), w2).

Definition prepared (w : World) (sd ff kf : string) (w3 : World) : Prop :=
  exists w2,
    formatted w sd ff kf w2 /\
    run_work_script (Path.basename ff) w2 = (Ok tt, w3).

Definition clustered (w : World) (sd ff kf : string) (w4 : World) : Prop :=
  exists w3,
    prepared w sd ff kf w3 /\
    run_clustering (Path.basename ff) chi seed w3 = (Ok tt, w4).

End Stages.

End Script.
End Gcm.


(** ** Vocabulary for the properties of the remap stage *)

(** The cluster labels [vs] are what the lines [ls] of an assignment file
    hold. *)
Definition labels_of (ls : list string) (vs : list Z) : Prop :=
  Forall2 (fun line v => Py.int (Py.strip line) = Some v) ls vs.

(** A line of the key file that [remap_partition_results] can read: two
    tokens, both integer literals. *)
Definition key_line_wf (line : string) : Prop :=
  exists a b za zb,
    Py.split line = [a; b] /\ Py.int a = Some za /\ Py.int b = Some zb.

(** The items of the dict [partitions] for the labels [vs], the first of
    them at key [i]. *)
Fixpoint numbered (i : Z) (vs : list Z) : list (Z * Z) :=
  match vs with
  | [] => []
  | v :: vs' => (i, v) :: numbered (i + 1) vs'
  end.

(** The line written for the label [a] and the cluster [v], and the text
    of the remapped file for the clusters [vs] of the Dense IDs [i],
    [i + 1], ... under the key store [m]. *)
Definition remapped_line (a v : Z) : string :=
  Py.str a +:+ " " +:+ Py.str v +:+ nl.

Fixpoint remapped_text (m : gmap Z Z) (i : Z) (vs : list Z) : string :=
  match vs with
  | [] => EmptyString
  | v :: vs' => remapped_line (default 0 (m !! i)) v +:+ remapped_text m (i + 1) vs'
  end.

(** The record a line of the key file holds, label first and Dense ID
    second, when the line is two integer tokens. *)
Definition key_record (line : string) : option (Z * Z) :=
  match Py.split line with
  | [a; b] =>
      match Py.int a, Py.int b with
      | Some a, Some b => Some (a, b)
      | _, _ => None
      end
  | _ => None
  end.

(** The label on the last of the lines [ls] that carries the Dense ID
    [b]. *)
Fixpoint last_label (ls : list string) (b : Z) : option Z :=
  match ls with
  | [] => None
  | line :: ls' =>
      match last_label ls' b with
      | Some a => Some a
      | None =>
          match key_record line with
          | Some (a, b') => if Z.eqb b' b then Some a else None
          | None => None
          end
      end
  end.

(** Strings all of whose characters satisfy [p]; strings without white
    space; strings without a line terminator. *)
Fixpoint all_chars (p : ascii -> bool) (s : string) : bool :=
  match s with
  | EmptyString => true
  | String c s' => p c && all_chars p s'
  end.

Definition solid (s : string) : bool :=
  all_chars (fun c => negb (Py.isspace c)) s.

Definition inline (s : string) : bool :=
  all_chars (fun c => negb (Ascii.eqb c "010") && negb (Ascii.eqb c "013")) s.

(** Events that are not the entry of a function, and the functions
    entered in a list of events, in order. *)
Definition noncall (e : event) : Prop :=
  match e with
  | Call _ => False
  | _ => True
  end.

Definition called (evs : list event) : list string :=
  omap (fun e => match e with Call fn => Some fn | _ => None end) evs.

(** The stages of the [try] suite of [gcm], in the order of the source. *)
Definition stages : list string :=
  ["_setup_and_enter_scratch"; "run_format_script"; "run_work_script";
   "run_clustering"; "remap_partition_results"].

(** The kinds of exception that [subprocess_context] names in its
    [except] clauses. *)
Definition named_kind (e : exn) : bool :=
  match e with
  | FileNotFoundError | CalledProcessError _ | TimeoutExpired => true
  | _ => false
  end.
(** ** A concrete environment for running the model *)

Module Demo.

Definition fs0 : FS :=
  mkFS {[ "/"; "/home"; "/home/u"; "/out" ]}
       {[ "/home/u/graph.txt" := "10 20" +:+ nl +:+ "20 30" +:+ nl ]}.

Definition w0 : World := mkWorld fs0 "/home/u" 0 [].

(** A stand-in for the three external programs: the formatter writes the
    formatted edge list and the key file [key], the work script does
    nothing, and the clustering binary writes [partition] (when given) and
    exits with [code]. *)
Definition exec (key : string) (partition : option string) (code : Z)
  (argv : list string) (cwd : string) (f : FS) : outcome * FS :=
  match argv with
  | "python" :: _ =>
      (Exited 0,
       OS.write_file
         (OS.write_file f (Path.join cwd "graph_formatted.txt")
            ("1 2" +:+ nl +:+ "2 3" +:+ nl))
         (Path.join cwd "graph_key.txt") key)
  | "bash" :: _ => (Exited 0, f)
  | _ =>
      (Exited code,
       match partition with
       | Some c => OS.write_file f (Path.join cwd "partition_graph_formatted.txt") c
       | None => f
       end)
  end.

Definition draw (n : nat) : nat := 0%nat.
Definition str_float (chi : Z) : string := Py.str chi +:+ ".0".
Definition str_exc (e : exn) : string := "exc".

Definition key3 : string := "10 1" +:+ nl +:+ "20 2" +:+ nl +:+ "30 3" +:+ nl.
Definition part3 : string := "0" +:+ nl +:+ "1" +:+ nl +:+ "0" +:+ nl.

Definition keyABC : string := "A 1" +:+ nl +:+ "B 2" +:+ nl +:+ "C 3" +:+ nl.
Definition part4 : string := "0" +:+ nl +:+ "1" +:+ nl +:+ "0" +:+ nl +:+ "1" +:+ nl.

(** Every external program is missing. *)
Definition exec_missing (argv : list string) (cwd : string) (f : FS) : outcome * FS :=
  (NotFound, f).

(** The names of a run on "graph.txt" from "/home/u". *)
Definition sd : string := "/home/u/gcm_cache_aaaa".
Definition sf : string := "/home/u/gcm_cache_aaaa/graph.txt".
Definition ff : string := "graph_formatted.txt".
Definition kf : string := "graph_key.txt".

(** The worlds after each stage of such a run. *)
Section Stages.
Variable ex : list string -> string -> FS -> outcome * FS.

Definition w1 : World :=
  snd (Gcm._setup_and_enter_scratch draw "/home/u" "graph.txt" w0).
Definition w2 : World :=
  snd (Gcm.run_format_script "/opt/gcm" ex str_exc "graph.txt" None w1).
Definition w3 : World :=
  snd (Gcm.run_work_script "/opt/gcm" ex str_exc ff w2).
Definition w4 : World :=
  snd (Gcm.run_clustering "/opt/gcm" ex Z str_float str_exc ff 0 12345 w3).
Definition w5 : World :=
  snd (Gcm.remap_partition_results kf ff w4).

Definition gcm (input_file : string) (output_dir : option string)
  : Result unit * World :=
  Gcm.gcm "/opt/gcm" ex draw Z str_float str_exc
      input_file 0 12345 output_dir None None w0.

End Stages.

(** The programs of a complete run, of a run whose key file is
    malformed, and of a run whose clustering fails; the key store of the
    first; the path of the assignment file. *)
Definition good : list string -> string -> FS -> outcome * FS :=
  exec key3 (Some part3) 0.
Definition bad_key : list string -> string -> FS -> outcome * FS :=
  exec "onlyonefield" (Some part3) 0.
Definition failing : list string -> string -> FS -> outcome * FS :=
  exec key3 None 1.
Definition letters : list string -> string -> FS -> outcome * FS :=
  exec keyABC (Some part3) 0.

Definition m3 : gmap Z Z := <[3 := 30]> (<[2 := 20]> (<[1 := 10]> ∅)).

Definition result_path : string :=
  "/home/u/gcm_cache_aaaa/partition_graph_formatted.txt".

End Demo.

(** ** Further concrete environments *)

Module Cases.

(** The start of a run in which the scratch path of the first random
    suffix is taken already. *)
Definition w_taken : World :=
  mkWorld (mkFS (dirs Demo.fs0 ∪ {[ Demo.sd ]}) (files Demo.fs0)) "/home/u" 0 [].

(** Programs: a formatter that may not be executed; a formatter that
    writes its files and exits with status 3; a clustering that writes a
    line that is no integer. *)
Definition denied (argv : list string) (cwd : string) (f : FS) : outcome * FS :=
  match argv with
  | "python" :: _ => (Denied, f)
  | _ => Demo.good argv cwd f
  end.

Definition sloppy (argv : list string) (cwd : string) (f : FS) : outcome * FS :=
  match argv with
  | "python" :: _ => (Exited 3, snd (Demo.good argv cwd f))
  | _ => Demo.good argv cwd f
  end.

Definition garbled : list string -> string -> FS -> outcome * FS :=
  Demo.exec Demo.key3 (Some ("0" +:+ nl +:+ "x" +:+ nl)) 0.

(** A key file that names Dense ID 1 twice. *)
Definition key_twice : list string := ["10 1" +:+ nl; "99 1" +:+ nl].

End Cases.

(** * Properties *)

(** ** Paths *)

Module PathFacts.
Import Path.

Lemma rsplit1_None c s : rsplit1 c s = None <-> has c s = false.
Proof.
  induction s as [|x s IH]; simpl; [tauto|].
  destruct (rsplit1 c s) as [[h t]|].
  - split; [discriminate|]. intros H. apply orb_false_elim in H as [_ H].
    apply IH in H. discriminate.
  - destruct (Ascii.eqb x c); simpl; [split; discriminate|]. tauto.
Qed.

Lemma has_app c a b : has c (a +:+ b) = has c a || has c b.
Proof.
  induction a as [|x a IH]; simpl; [reflexivity|].
  rewrite IH. apply orb_assoc.
Qed.

Lemma rsplit1_parts c d s h t :
  rsplit1 c s = Some (h, t) -> has d s = has d h || Ascii.eqb c d || has d t.
Proof.
  revert h t. induction s as [|x s IH]; simpl; [discriminate|].
  intros h t. destruct (rsplit1 c s) as [[h' t']|] eqn:E.
  - intros [= <- <-]. simpl. rewrite (IH _ _ eq_refl).
    rewrite !orb_assoc. reflexivity.
  - destruct (Ascii.eqb x c) eqn:Ex; [|discriminate].
    intros [= <- <-]. simpl. apply Ascii.eqb_eq in Ex. subst x. reflexivity.
Qed.

Lemma rsplit1_tail c s h t : rsplit1 c s = Some (h, t) -> has c t = false.
Proof.
  revert h t. induction s as [|x s IH]; simpl; [discriminate|].
  intros h t. destruct (rsplit1 c s) as [[h' t']|] eqn:E.
  - intros [= <- <-]. eapply IH. reflexivity.
  - destruct (Ascii.eqb x c); [|discriminate].
    intros [= <- <-]. apply rsplit1_None, E.
Qed.

(** Cutting [a +:+ b] when the separator occurs in [b], and when it does
    not. *)
Lemma rsplit1_app_r c a b h t :
  rsplit1 c b = Some (h, t) -> rsplit1 c (a +:+ b) = Some (a +:+ h, t).
Proof.
  intros H. induction a as [|x a IH]; simpl; [exact H|].
  rewrite IH. reflexivity.
Qed.

Lemma rsplit1_app_l c a b :
  rsplit1 c b = None ->
  rsplit1 c (a +:+ b) =
    match rsplit1 c a with
    | Some (h, t) => Some (h, t +:+ b)
    | None => None
    end.
Proof.
  intros H. induction a as [|x a IH]; simpl; [exact H|].
  rewrite IH. destruct (rsplit1 c a) as [[h t]|]; [reflexivity|].
  destruct (Ascii.eqb x c); reflexivity.
Qed.

Lemma basename_noslash p : has "/" (basename p) = false.
Proof.
  unfold basename. destruct (rsplit1 "/" p) as [[h t]|] eqn:E.
  - eapply rsplit1_tail, E.
  - apply rsplit1_None, E.
Qed.

Lemma basename_id s : has "/" s = false -> basename s = s.
Proof. intros H. unfold basename. apply rsplit1_None in H. rewrite H. reflexivity. Qed.

Lemma ends_with_slash_basename a : ends_with_slash a = true -> basename a = "".
Proof.
  unfold basename. induction a as [|x a IH]; [discriminate|].
  cbn [ends_with_slash rsplit1]. destruct a as [|y a].
  - intros H. cbn. rewrite H. reflexivity.
  - intros H. specialize (IH H).
    destruct (rsplit1 "/" (String y a)) as [[h t]|] eqn:E; [exact IH|].
    subst. discriminate.
Qed.

Lemma basename_app_slash a b : basename (a +:+ "/" +:+ b) = basename b.
Proof.
  unfold basename. destruct (rsplit1 "/" b) as [[h t]|] eqn:E.
  - rewrite (rsplit1_app_r _ a ("/" +:+ b) ("/" +:+ h) t); [reflexivity|].
    change ("/" +:+ b) with (String "/" b). cbn [rsplit1]. rewrite E. reflexivity.
  - rewrite (rsplit1_app_r _ a ("/" +:+ b) "" b); [reflexivity|].
    change ("/" +:+ b) with (String "/" b). cbn [rsplit1]. rewrite E. reflexivity.
Qed.

(** [os.path.basename(os.path.join(a, b)) == os.path.basename(b)]. *)
Lemma basename_join a b : basename (join a b) = basename b.
Proof.
  unfold join. destruct (is_abs b); [reflexivity|].
  destruct (String.eqb a "") eqn:Ea.
  - apply String.eqb_eq in Ea. subst a. reflexivity.
  - cbn [orb]. destruct (ends_with_slash a) eqn:Es.
    + unfold basename at 1 2. destruct (rsplit1 "/" b) as [[h t]|] eqn:E.
      * rewrite (rsplit1_app_r _ a b h t E). reflexivity.
      * rewrite (rsplit1_app_l _ a b E).
        pose proof (ends_with_slash_basename a Es) as Hb. unfold basename in Hb.
        destruct (rsplit1 "/" a) as [[h t]|]; [subst t; reflexivity|].
        subst a. discriminate.
    + apply basename_app_slash.
Qed.

Lemma stem_has d name : has d (stem name) = true -> has d name = true.
Proof.
  unfold stem. destruct (rsplit1 "." name) as [[h t]|] eqn:E; [|tauto].
  destruct h as [|c h]; [tauto|]. destruct t as [|c' t]; [tauto|].
  intros H. rewrite (rsplit1_parts _ d _ _ _ E), H. reflexivity.
Qed.

Lemma suffix_has name : has "/" (suffix name) = true -> has "/" name = true.
Proof.
  unfold suffix. destruct (rsplit1 "." name) as [[h t]|] eqn:E; [|discriminate].
  destruct h as [|c h]; [discriminate|]. destruct t as [|c' t]; [discriminate|].
  intros H. rewrite (rsplit1_parts _ "/" _ _ _ E).
  cbn in H. cbn [has]. rewrite H. rewrite orb_true_r. reflexivity.
Qed.

(** Renaming the stem of a bare, non-empty file name gives a bare file
    name. *)
Lemma with_stem_bare name tag :
  has "/" name = false -> name <> "" -> name <> "." -> has "/" tag = false ->
  exists r, with_stem name (fun s => s +:+ tag) = Some r /\
            r = (stem name +:+ tag) +:+ suffix name /\ basename r = r.
Proof.
  intros Hn Hne Hnd Ht. unfold with_stem. rewrite (basename_id _ Hn).
  destruct (String.eqb name "") eqn:E; [apply String.eqb_eq in E; contradiction|].
  destruct (String.eqb name ".") eqn:E'; [apply String.eqb_eq in E'; contradiction|].
  cbn [orb].
  apply rsplit1_None in Hn as Hr. rewrite Hr.
  eexists. split; [reflexivity|]. split; [reflexivity|].
  apply basename_id. rewrite !has_app, Ht.
  destruct (has "/" (stem name)) eqn:E1; [apply stem_has in E1; congruence|].
  destruct (has "/" (suffix name)) eqn:E2; [apply suffix_has in E2; congruence|].
  reflexivity.
Qed.

End PathFacts.

(** ** The monad and the trace *)

Lemma bind_ok {A B} (m : M A) (k : A -> M B) w a w' :
  m w = (Ok a, w') -> bind m k w = k a w'.
Proof. intros H. unfold bind. rewrite H. reflexivity. Qed.

Lemma bind_raise {A B} (m : M A) (k : A -> M B) w e w' :
  m w = (Raise e, w') -> bind m k w = (Raise e, w').
Proof. intros H. unfold bind. rewrite H. reflexivity. Qed.

Lemma bind_assoc {A B C} (m : M A) (k : A -> M B) (h : B -> M C) w :
  bind (bind m k) h w = bind m (fun a => bind (k a) h) w.
Proof. unfold bind. destruct (m w) as [[a|e] w1]; reflexivity. Qed.

Lemma calls_app fn l1 l2 : calls fn (l1 ++ l2) = (calls fn l1 + calls fn l2)%nat.
Proof. apply count_occ_app. Qed.

Lemma calls_none fn evs : Forall (fun e => e <> Call fn) evs -> calls fn evs = 0%nat.
Proof.
  intros H. unfold calls. apply count_occ_not_In. intros Hin.
  rewrite Forall_forall in H. apply list_elem_of_In in Hin.
  apply (H _ Hin). reflexivity.
Qed.

Section Emits.
Context (P : event -> Prop).

Lemma emits_silent {A} (m : M A) :
  (forall w, trace (snd (m w)) = trace w) -> emits P m.
Proof.
  intros H w. exists []. rewrite H, app_nil_r. split; [reflexivity|constructor].
Qed.

Lemma emits_ret {A} (a : A) : emits P (ret a).
Proof. apply emits_silent. reflexivity. Qed.

Lemma emits_raise {A} e : emits P (@raise A e).
Proof. apply emits_silent. reflexivity. Qed.

Lemma emits_lift {A} (r : Result A) : emits P (lift r).
Proof. apply emits_silent. reflexivity. Qed.

Lemma emits_log e : P e -> emits P (log e).
Proof.
  intros H w. exists [e]. split; [reflexivity|]. constructor; [exact H|constructor].
Qed.

Lemma emits_bind {A B} (m : M A) (k : A -> M B) :
  emits P m -> (forall a, emits P (k a)) -> emits P (bind m k).
Proof.
  intros Hm Hk w. unfold bind. destruct (Hm w) as (e1 & E1 & F1).
  destruct (m w) as [[a|e] w1]; simpl in E1.
  - destruct (Hk a w1) as (e2 & E2 & F2). exists (e1 ++ e2).
    rewrite E2, E1, app_assoc. split; [reflexivity|]. apply Forall_app; tauto.
  - exists e1. simpl. tauto.
Qed.

Lemma emits_if {A} (b : bool) (m1 m2 : M A) :
  emits P m1 -> emits P m2 -> emits P (if b then m1 else m2).
Proof. destruct b; tauto. Qed.

End Emits.

Lemma emits_weaken {A} (P Q : event -> Prop) (m : M A) :
  (forall e, P e -> Q e) -> emits P m -> emits Q m.
Proof.
  intros H Hm w. destruct (Hm w) as (evs & E & F). exists evs. split; [exact E|].
  eapply Forall_impl; [exact F|]. exact H.
Qed.

(** A computation that never logs an entry of [fn] leaves the number of
    its calls as it was. *)
Lemma emits_calls {A} fn (m : M A) w :
  emits (fun e => e <> Call fn) m -> calls fn (trace (snd (m w))) = calls fn (trace w).
Proof.
  intros H. destruct (H w) as (evs & E & F).
  rewrite E, calls_app, (calls_none _ _ F). lia.
Qed.

Lemma silent_bind {A B} (m : M A) (k : A -> M B) :
  (forall w, trace (snd (m w)) = trace w) ->
  (forall a w, trace (snd (k a w)) = trace w) ->
  forall w, trace (snd (bind m k w)) = trace w.
Proof.
  intros Hm Hk w. unfold bind. specialize (Hm w).
  destruct (m w) as [[a|e] w1]; cbn [snd] in *; [rewrite Hk|]; exact Hm.
Qed.

(** ** The operating-system calls leave the trace alone *)

Module OSFacts.
Import OS.

Ltac silent :=
  intros; cbv beta zeta delta [getcwd path_exists makedirs copy chdir rmtree open_read
                          open_write set_fs set_cwd];
  repeat case_match; reflexivity.

Lemma getcwd_trace w : trace (snd (getcwd w)) = trace w.
Proof. silent. Qed.
Lemma path_exists_trace p w : trace (snd (path_exists p w)) = trace w.
Proof. silent. Qed.
Lemma makedirs_trace d w : trace (snd (makedirs d w)) = trace w.
Proof. silent. Qed.
Lemma copy_trace s d w : trace (snd (copy s d w)) = trace w.
Proof. silent. Qed.
Lemma chdir_trace d w : trace (snd (chdir d w)) = trace w.
Proof. silent. Qed.
Lemma rmtree_trace d w : trace (snd (rmtree d w)) = trace w.
Proof. silent. Qed.
Lemma open_read_trace p w : trace (snd (open_read p w)) = trace w.
Proof. silent. Qed.
Lemma open_write_trace {A} p (body : Result A * string) w :
  trace (snd (open_write p body w)) = trace w.
Proof. silent. Qed.

End OSFacts.

Create HintDb emits.
#[local] Hint Resolve emits_ret emits_raise emits_lift emits_if : emits.
#[local] Hint Extern 1 (emits _ (log _)) => apply emits_log; (discriminate || exact I) : emits.
#[local] Hint Extern 1 (emits _ (print _)) => apply emits_log; (discriminate || exact I) : emits.
#[local] Hint Extern 1 (emits _ (bind _ _)) => apply emits_bind; [|intros] : emits.
#[local] Hint Extern 1 (emits _ (OS.getcwd)) =>
  apply emits_silent, OSFacts.getcwd_trace : emits.
#[local] Hint Extern 1 (emits _ (OS.path_exists _)) =>
  apply emits_silent, OSFacts.path_exists_trace : emits.
#[local] Hint Extern 1 (emits _ (OS.makedirs _)) =>
  apply emits_silent, OSFacts.makedirs_trace : emits.
#[local] Hint Extern 1 (emits _ (OS.copy _ _)) =>
  apply emits_silent, OSFacts.copy_trace : emits.
#[local] Hint Extern 1 (emits _ (OS.chdir _)) =>
  apply emits_silent, OSFacts.chdir_trace : emits.
#[local] Hint Extern 1 (emits _ (OS.rmtree _)) =>
  apply emits_silent, OSFacts.rmtree_trace : emits.
#[local] Hint Extern 1 (emits _ (OS.open_read _)) =>
  apply emits_silent, OSFacts.open_read_trace : emits.
#[local] Hint Extern 1 (emits _ (OS.open_write _ _)) =>
  apply emits_silent, OSFacts.open_write_trace : emits.

(** ** The functions of the script *)

Section ScriptFacts.

Variable source_dir : string.
Variable exec : list string -> string -> FS -> outcome * FS.
Variable draw : nat -> nat.
Variable float : Type.
Variable str_float : float -> string.
Variable str_exc : exn -> string.

Local Abbreviation subprocess_run := (Gcm.subprocess_run exec).
Local Abbreviation subprocess_context := (Gcm.subprocess_context str_exc).
Local Abbreviation run_work_script := (Gcm.run_work_script source_dir exec str_exc).
Local Abbreviation run_format_script := (Gcm.run_format_script source_dir exec str_exc).
Local Abbreviation run_clustering :=
  (Gcm.run_clustering source_dir exec float str_float str_exc).
Local Abbreviation _setup_and_enter_scratch := (Gcm._setup_and_enter_scratch draw).
Local Abbreviation gcm_try := (Gcm.gcm_try source_dir exec draw float str_float str_exc).
Local Abbreviation gcm := (Gcm.gcm source_dir exec draw float str_float str_exc).
Local Abbreviation staged := (Gcm.staged draw).
Local Abbreviation formatted := (Gcm.formatted source_dir exec draw str_exc).
Local Abbreviation prepared := (Gcm.prepared source_dir exec draw str_exc).
Local Abbreviation clustered :=
  (Gcm.clustered source_dir exec draw float str_float str_exc).
Local Abbreviation diagnostic := (Gcm.diagnostic str_exc).

(** What one guarded invocation does, by the way the child ended. *)
Lemma invoke_spec argv check w :
  subprocess_context (subprocess_run argv check) w =
    match exec argv (cwd w) (fs w) with
    | (NotFound, _) =>
        (Ok tt, after w (fs w) [Spawn argv check; Print (diagnostic FileNotFoundError)])
    | (Denied, _) => (Raise PermissionError, after w (fs w) [Spawn argv check])
    | (TimedOut, f) =>
        (Ok tt, after w f [Spawn argv check; Print (diagnostic TimeoutExpired)])
    | (Exited code, f) =>
        if check && negb (Z.eqb code 0)
        then (Ok tt, after w f [Spawn argv check;
                                Print (diagnostic (CalledProcessError code))])
        else (Ok tt, after w f [Spawn argv check])
    end.
Proof.
  unfold Gcm.subprocess_context, Gcm.subprocess_run, bind, log, print, log, after.
  cbn [fs cwd rng_pos trace].
  destruct (exec argv (cwd w) (fs w)) as [[code| | |] f]; cbn [fs cwd rng_pos trace];
    [destruct (check && negb (Z.eqb code 0))|..];
    cbn [fs cwd rng_pos trace]; rewrite <- ?app_assoc; reflexivity.
Qed.

Lemma emits_invoke (P : event -> Prop) argv check :
  (forall a c, P (Spawn a c)) -> (forall m, P (Print m)) ->
  emits P (subprocess_context (subprocess_run argv check)).
Proof.
  intros HS HP w. rewrite invoke_spec.
  destruct (exec argv (cwd w) (fs w)) as [[code| | |] f];
    [destruct (check && negb (Z.eqb code 0))|..];
    eexists; (split; [reflexivity|]); repeat constructor; auto.
Qed.

Lemma random_chars_frame letters n w r w' :
  Gcm.random_chars draw letters n w = (r, w') ->
  fs w' = fs w /\ cwd w' = cwd w /\ trace w' = trace w.
Proof.
  revert w r w'. induction n as [|n IH]; intros w r w'; cbn [Gcm.random_chars].
  - unfold ret. intros [= <- <-]. auto.
  - unfold bind, Gcm.random_choice.
    destruct (String.get _ letters) as [c|]; [|intros [= <- <-]; auto].
    destruct (Gcm.random_chars draw letters n _) as [[s|e] w2] eqn:E;
      apply IH in E; cbn in E; unfold ret; intros [= <- <-]; exact E.
Qed.

Lemma generate_random_string_frame n w r w' :
  Gcm.generate_random_string draw n w = (r, w') ->
  fs w' = fs w /\ cwd w' = cwd w /\ trace w' = trace w.
Proof. apply random_chars_frame. Qed.

Section EmitsStages.
Context (P : event -> Prop).
Hypothesis P_spawn : forall a c, P (Spawn a c).
Hypothesis P_print : forall m, P (Print m).

Lemma emits_generate_random_string n : emits P (Gcm.generate_random_string draw n).
Proof.
  apply emits_silent. intros w.
  destruct (Gcm.generate_random_string draw n w) as [r w'] eqn:E.
  apply generate_random_string_frame in E. tauto.
Qed.

Lemma emits_setup iwd input :
  P (Call "_setup_and_enter_scratch") -> emits P (_setup_and_enter_scratch iwd input).
Proof.
  intros HC. unfold Gcm._setup_and_enter_scratch.
  apply emits_bind; [apply emits_log, HC|intros _].
  apply emits_bind; [apply emits_generate_random_string|intros sfx].
  repeat (apply emits_bind; [|intros]); auto with emits.
Qed.

Lemma emits_format name sep :
  P (Call "run_format_script") -> emits P (run_format_script name sep).
Proof.
  intros HC. unfold Gcm.run_format_script.
  apply emits_bind; [apply emits_log, HC|intros _].
  apply emits_bind; [apply emits_invoke; assumption|intros _].
  auto with emits.
Qed.

Lemma emits_work name : P (Call "run_work_script") -> emits P (run_work_script name).
Proof.
  intros HC. unfold Gcm.run_work_script.
  apply emits_bind; [apply emits_log, HC|intros _].
  apply emits_invoke; assumption.
Qed.

Lemma emits_clustering name chi seed :
  P (Call "run_clustering") -> emits P (run_clustering name chi seed).
Proof.
  intros HC. unfold Gcm.run_clustering.
  apply emits_bind; [apply emits_log, HC|intros _].
  apply emits_invoke; assumption.
Qed.

Lemma emits_remap kf ff :
  P (Call "remap_partition_results") -> emits P (Gcm.remap_partition_results kf ff).
Proof.
  intros HC. unfold Gcm.remap_partition_results.
  apply emits_bind; [apply emits_log, HC|intros _].
  repeat (apply emits_bind; [|intros]); auto with emits.
Qed.

Lemma emits_cleanup odir ofile iwd sd ff :
  P (Call cleanup_fn) -> emits P (Gcm._exit_and_cleanup_scratch odir ofile iwd sd ff).
Proof.
  intros HC. unfold Gcm._exit_and_cleanup_scratch.
  apply emits_bind; [apply emits_log, HC|intros _].
  apply emits_bind; [auto with emits|intros found].
  apply emits_bind; [destruct found; [auto with emits|apply emits_log, P_print]|intros _].
  apply emits_bind; [auto with emits|intros _].
  apply emits_bind; [auto with emits|intros found'].
  destruct found'; auto with emits.
Qed.

End EmitsStages.

(** *** The pipeline once [formatted_file] is bound *)

Lemma gcm_formatted input chi seed odir ofile sep w sd ff kf w2 :
  formatted input sep w sd ff kf w2 ->
  gcm input chi seed odir ofile sep w =
    let '(r, w3) := bind (run_work_script (Path.basename ff))
                      (fun _ => bind (run_clustering (Path.basename ff) chi seed)
                         (fun _ => Gcm.remap_partition_results kf ff)) w2 in
    finish r (Gcm._exit_and_cleanup_scratch (or_default odir (cwd w))
                (or_default ofile "clustering_output.txt") (cwd w) sd ff w3).
Proof.
  intros (sf & w1 & [Hd Hs] & Hf).
  unfold Gcm.gcm, bind at 1, OS.getcwd. rewrite Hd.
  unfold Gcm.gcm_try. rewrite Hs, Hf.
  destruct (bind _ _ w2) as [r w3]. reflexivity.
Qed.

Lemma snd_finish {A} (r : Result A) c : snd (finish r c) = snd c.
Proof. destruct c as [[|] ?]; reflexivity. Qed.

Lemma cleanup_calls odir ofile iwd sd ff w :
  calls cleanup_fn (trace (snd (Gcm._exit_and_cleanup_scratch odir ofile iwd sd ff w)))
  = S (calls cleanup_fn (trace w)).
Proof.
  unfold Gcm._exit_and_cleanup_scratch, bind at 1, log at 1. cbv beta iota.
  lazymatch goal with
  | |- calls _ (trace (snd (?m ?w1))) = _ => rewrite (emits_calls cleanup_fn m w1)
  end.
  - cbn [trace]. rewrite calls_app. unfold calls at 2.
    rewrite count_occ_cons_eq by reflexivity. cbn [count_occ]. lia.
  - apply emits_bind; [auto with emits|intros found].
    apply emits_bind; [destruct found; auto with emits|intros _].
    apply emits_bind; [auto with emits|intros _].
    apply emits_bind; [auto with emits|intros found'].
    destruct found'; auto with emits.
Qed.

Lemma formatted_calls input sep w sd ff kf w2 :
  formatted input sep w sd ff kf w2 ->
  calls cleanup_fn (trace w2) = calls cleanup_fn (trace w).
Proof.
  intros (sf & w1 & [Hd Hs] & Hf).
  pose proof (emits_calls cleanup_fn (_setup_and_enter_scratch (cwd w) input) w) as H1.
  pose proof (emits_calls cleanup_fn (run_format_script (Path.basename sf) sep) w1) as H2.
  rewrite Hs in H1. rewrite Hf in H2. cbn [snd] in *.
  rewrite H2, H1; [reflexivity| |].
  - apply emits_setup; discriminate.
  - apply emits_format; discriminate.
Qed.

(** Once the formatting call has returned, the cleanup step is entered
    exactly once before [gcm] returns, however the later stages end. *)
Lemma gcm_formatted_cleanup_once input chi seed odir ofile sep w sd ff kf w2 :
  formatted input sep w sd ff kf w2 ->
  calls cleanup_fn (trace (snd (gcm input chi seed odir ofile sep w)))
  = S (calls cleanup_fn (trace w)).
Proof.
  intros H. rewrite (gcm_formatted _ _ _ _ _ _ _ _ _ _ _ H).
  destruct (bind _ _ w2) as [r w3] eqn:E.
  rewrite snd_finish, cleanup_calls. f_equal.
  rewrite <- (formatted_calls _ _ _ _ _ _ _ H).
  change w3 with (snd (r, w3)). rewrite <- E. apply emits_calls.
  apply emits_bind; [apply emits_work; discriminate|intros _].
  apply emits_bind; [apply emits_clustering; discriminate|intros _].
  apply emits_remap; discriminate.
Qed.


(** *** Staging *)

Lemma setup_trace iwd input w :
  trace (snd (_setup_and_enter_scratch iwd input w))
  = trace w ++ [Call "_setup_and_enter_scratch"].
Proof.
  unfold Gcm._setup_and_enter_scratch, bind at 1, log at 1. cbv beta iota.
  lazymatch goal with
  | |- trace (snd (?m ?w1)) = _ => change (trace w ++ _) with (trace w1)
  end.
  apply silent_bind.
  - intros w1. destruct (Gcm.generate_random_string draw 4 w1) as [r w'] eqn:E.
    apply generate_random_string_frame in E. tauto.
  - intros sfx. apply silent_bind; [apply OSFacts.makedirs_trace|intros _].
    apply silent_bind; [apply OSFacts.copy_trace|intros _].
    apply silent_bind; [apply OSFacts.chdir_trace|intros _]. reflexivity.
Qed.

Lemma copy_ok_is_file src dst w w' :
  OS.copy src dst w = (Ok tt, w') -> OS.is_file (fs w) (OS.resolve w src) = true.
Proof.
  unfold OS.copy, OS.read_file.
  destruct (OS.is_file (fs w) (OS.resolve w src)) eqn:E; [reflexivity|].
  cbn [andb]. destruct (OS.is_dir (fs w) (OS.resolve w src)); discriminate.
Qed.

Lemma is_file_basename f p :
  OS.is_file f p = true -> Path.basename p <> "" /\ Path.basename p <> ".".
Proof.
  unfold OS.is_file, OS.proper_name. intros H. apply andb_true_iff in H as [_ H].
  apply negb_true_iff in H. apply orb_false_elim in H as [H _].
  apply orb_false_elim in H as [H1 H2].
  apply String.eqb_neq in H1, H2. auto.
Qed.

(** A staged file keeps the name of the input file, which is not empty. *)
Lemma setup_ok iwd input w sd sf w1 :
  _setup_and_enter_scratch iwd input w = (Ok (sd, sf), w1) ->
  Path.basename sf = Path.basename input
  /\ Path.basename input <> "" /\ Path.basename input <> ".".
Proof.
  unfold Gcm._setup_and_enter_scratch, bind at 1, log at 1. cbv beta iota.
  unfold bind at 1.
  destruct (Gcm.generate_random_string draw 4 _) as [[sfx|e] wa] eqn:Eg; [|discriminate].
  unfold bind at 1. destruct (OS.makedirs _ wa) as [[[]|e] wb]; [|discriminate].
  unfold bind at 1. destruct (OS.copy _ _ wb) as [[[]|e] wc] eqn:Ec; [|discriminate].
  unfold bind at 1. destruct (OS.chdir _ wc) as [[[]|e] wd]; [|discriminate].
  unfold ret. intros [= <- <- <-].
  rewrite PathFacts.basename_join, (PathFacts.basename_id _ (PathFacts.basename_noslash _)).
  split; [reflexivity|].
  apply copy_ok_is_file, is_file_basename in Ec.
  unfold OS.resolve in Ec. rewrite PathFacts.basename_join in Ec. exact Ec.
Qed.

(** *** Formatting *)

Lemma with_stem_bare_inv name tag r :
  Path.has "/" name = false -> Path.has "/" tag = false ->
  Path.with_stem name (fun s => s +:+ tag) = Some r -> Path.basename r = r.
Proof.
  intros Hn Ht H.
  destruct (String.eqb name "") eqn:E.
  - apply String.eqb_eq in E. subst name. discriminate.
  - destruct (String.eqb name ".") eqn:E'.
    + apply String.eqb_eq in E'. subst name. discriminate.
    + apply String.eqb_neq in E, E'.
      destruct (PathFacts.with_stem_bare name tag Hn E E' Ht) as (r' & H1 & _ & H3).
      congruence.
Qed.

Lemma format_names_ok name :
  Path.has "/" name = false -> name <> "" -> name <> "." ->
  exists ff kf, Gcm.format_names name = Ok (ff, kf).
Proof.
  intros Hn Hne Hnd. unfold Gcm.format_names.
  destruct (PathFacts.with_stem_bare name "_formatted" Hn Hne Hnd eq_refl) as (r1 & -> & _).
  destruct (PathFacts.with_stem_bare name "_key" Hn Hne Hnd eq_refl) as (r2 & -> & _).
  eauto.
Qed.

Lemma run_format_script_inv name sep w ff kf w2 :
  run_format_script name sep w = (Ok (ff, kf), w2) ->
  Gcm.format_names name = Ok (ff, kf).
Proof.
  unfold Gcm.run_format_script, bind at 1, log at 1. cbv beta iota.
  unfold bind, lift.
  destruct (subprocess_context _ _) as [[[]|e] w']; [|discriminate].
  intros [= H _]. exact H.
Qed.

(** The formatted file of a run is a bare file name, derived from the
    name of the input file. *)
Lemma formatted_name input sep w sd ff kf w2 :
  formatted input sep w sd ff kf w2 ->
  Gcm.format_names (Path.basename input) = Ok (ff, kf) /\ Path.basename ff = ff.
Proof.
  intros (sf & w1 & [_ Hs] & Hf).
  apply setup_ok in Hs as (Hb & _ & _). apply run_format_script_inv in Hf.
  rewrite Hb in Hf. split; [exact Hf|].
  unfold Gcm.format_names in Hf.
  destruct (Path.with_stem _ (fun s => s +:+ "_formatted")) as [r|] eqn:E; [|discriminate].
  destruct (Path.with_stem _ (fun s => s +:+ "_key")); [|discriminate].
  injection Hf as <- _.
  eapply with_stem_bare_inv; [apply PathFacts.basename_noslash| |exact E]. reflexivity.
Qed.

(** *** The claims on the pipeline controller *)


Lemma extends_cleanup odir ofile iwd sd ff w :
  exists evs,
    trace (snd (Gcm._exit_and_cleanup_scratch odir ofile iwd sd ff w))
    = trace w ++ Call cleanup_fn :: evs.
Proof.
  unfold Gcm._exit_and_cleanup_scratch, bind at 1, log at 1. cbv beta iota.
  lazymatch goal with
  | |- exists evs, trace (snd (?m ?w1)) = _ =>
      assert (emits any_event m) as H
  end.
  { apply emits_bind; [auto with emits|intros found].
    apply emits_bind; [destruct found; auto with emits|intros _].
    apply emits_bind; [auto with emits|intros _].
    apply emits_bind; [auto with emits|intros found'].
    destruct found'; auto with emits. }
  destruct (H (mkWorld (fs w) (cwd w) (rng_pos w) (trace w ++ [Call cleanup_fn])))
    as (evs & E & _).
  exists evs. refine (eq_trans E _). cbn [trace]. rewrite <- app_assoc. reflexivity.
Qed.

Lemma remap_trace kf ff w :
  trace (snd (Gcm.remap_partition_results kf ff w))
  = trace w ++ [Call "remap_partition_results"].
Proof.
  unfold Gcm.remap_partition_results, bind at 1, log at 1. cbv beta iota.
  lazymatch goal with
  | |- trace (snd (?m ?w1)) = _ => change (trace w ++ _) with (trace w1)
  end.
  apply silent_bind; [apply OSFacts.open_read_trace|intros f].
  apply silent_bind; [reflexivity|intros partitions].
  apply silent_bind; [apply OSFacts.open_read_trace|intros f'].
  apply silent_bind; [reflexivity|intros mappings].
  apply OSFacts.open_write_trace.
Qed.

(** The argument vector of the clustering binary. *)
Local Abbreviation clustering_argv chi seed filename :=
  [source_dir +:+ "/a.out"; "2"; "5"; "2"; Py.str seed; str_float chi; filename].



(** C6.  When [_setup_and_enter_scratch] raises, whatever the exception,
    the [finally] suite of [gcm] reads the unassigned name
    [scratch_directory]: [gcm] raises [UnboundLocalError] in place of the
    staging failure, and the world is the one the failed staging left, its
    trace showing the entry of the staging function and nothing after it:
    no publish and no cleanup took place. *)
Theorem gcm_staging_failure_unbound input chi seed odir ofile sep w e w1 :
  OS.is_dir (fs w) (cwd w) = true ->
  _setup_and_enter_scratch (cwd w) input w = (Raise e, w1) ->
  gcm input chi seed odir ofile sep w
    = (Raise (UnboundLocalError "scratch_directory"), w1)
  /\ trace w1 = trace w ++ [Call "_setup_and_enter_scratch"]
  /\ calls cleanup_fn (trace w1) = calls cleanup_fn (trace w).
Proof.
  intros Hd Hs. split; [|split].
  - unfold Gcm.gcm, bind at 1, OS.getcwd. rewrite Hd.
    unfold Gcm.gcm_try. rewrite Hs. reflexivity.
  - rewrite <- (setup_trace (cwd w) input w), Hs. reflexivity.
  - pose proof (setup_trace (cwd w) input w) as H. rewrite Hs in H. cbn [snd] in H.
    rewrite H, calls_app. unfold calls at 2.
    rewrite count_occ_cons_neq by discriminate. cbn [count_occ]. lia.
Qed.


(** What the guarded invocation does with a failure that
    [subprocess_context] catches. *)
Lemma invoke_caught argv check w e :
  Gcm.failure_kind (fst (exec argv (cwd w) (fs w))) check = Some e ->
  exists f,
    subprocess_context (subprocess_run argv check) w
    = (Ok tt, after w f [Spawn argv check; Print (diagnostic e)]).
Proof.
  rewrite invoke_spec. destruct (exec argv (cwd w) (fs w)) as [[code| | |] f]; cbn [fst].
  - cbn [Gcm.failure_kind]. destruct (check && negb (Z.eqb code 0)); [|discriminate].
    intros [= <-]. eauto.
  - intros [= <-]. eauto.
  - discriminate.
  - intros [= <-]. eauto.
Qed.

Lemma invoker_caught fn argv check w e :
  Gcm.failure_kind (fst (exec argv (cwd w) (fs w))) check = Some e ->
  exists f,
    bind (log (Call fn)) (fun _ => subprocess_context (subprocess_run argv check)) w
    = (Ok tt, after w f [Call fn; Spawn argv check; Print (diagnostic e)]).
Proof.
  intros H. unfold bind at 1, log at 1. cbv beta iota.
  destruct (invoke_caught argv check
              (mkWorld (fs w) (cwd w) (rng_pos w) (trace w ++ [Call fn])) e H) as (f & ->).
  exists f. unfold after. cbn [fs cwd rng_pos trace]. rewrite <- app_assoc. reflexivity.
Qed.

Lemma staged_formatted input sep w sd sf w1 :
  staged input w sd sf w1 ->
  (forall argv c f, fst (exec argv c f) <> Denied) ->
  exists ff kf w2, formatted input sep w sd ff kf w2.
Proof.
  intros Hst Hnd. pose proof Hst as [_ Hs]. apply setup_ok in Hs as (Hb & Hne & Hnp).
  destruct (format_names_ok (Path.basename sf)) as (ff & kf & Hn).
  { apply PathFacts.basename_noslash. }
  { congruence. }
  { congruence. }
  exists ff, kf.
  assert (exists w2, run_format_script (Path.basename sf) sep w1 = (Ok (ff, kf), w2))
    as (w2 & Hf).
  { unfold Gcm.run_format_script, bind at 1, log at 1. cbv beta iota.
    unfold bind at 1. rewrite invoke_spec. cbn [fs cwd].
    lazymatch goal with
    | |- context [exec ?a ?c ?f] =>
        pose proof (Hnd a c f) as Hd; destruct (exec a c f) as [[code| | |] f']
    end; cbn [fst] in Hd; try congruence; cbn [andb]; unfold lift; rewrite Hn;
      eexists; reflexivity. }
  exists w2, sf, w1. split; [exact Hst|exact Hf].
Qed.

(** C7, as the code has it.  The clustering binary is started with
    [check=True]; when it exits with a non-zero status the exception is
    caught inside [run_clustering], which prints the diagnostic and
    returns normally; the next stage, [remap_partition_results], is then
    entered, and the cleanup step after it. *)
Theorem nonzero_clustering_exit_continues
  input chi seed odir ofile sep w sd ff kf w3 code f :
  prepared input sep w sd ff kf w3 ->
  exec (clustering_argv chi seed ff) (cwd w3) (fs w3) = (Exited code, f) ->
  code <> 0 ->
  let w4 := after w3 f [Call "run_clustering";
                        Spawn (clustering_argv chi seed ff) true;
                        Print (diagnostic (CalledProcessError code))] in
  run_clustering (Path.basename ff) chi seed w3 = (Ok tt, w4)
  /\ exists post,
       trace (snd (gcm input chi seed odir ofile sep w))
       = trace w4 ++ Call "remap_partition_results" :: Call cleanup_fn :: post.
Proof.
  intros (w2 & Hf & Hw) He Hc w4.
  destruct (formatted_name _ _ _ _ _ _ _ Hf) as [_ Hb].
  assert (run_clustering (Path.basename ff) chi seed w3 = (Ok tt, w4)) as Hr.
  { rewrite Hb.
    destruct (invoker_caught "run_clustering" (clustering_argv chi seed ff) true w3
                (CalledProcessError code)) as (f' & Hf').
    - rewrite He. cbn. apply Z.eqb_neq in Hc. rewrite Hc. reflexivity.
    - unfold Gcm.run_clustering. rewrite Hf'. f_equal.
      revert Hf'. unfold bind at 1, log at 1. cbv beta iota. rewrite invoke_spec.
      cbn [fs cwd]. rewrite He. apply Z.eqb_neq in Hc. cbn [andb]. rewrite Hc. cbn [negb].
      intros [= <- _]. reflexivity. }
  split; [exact Hr|].
  rewrite (gcm_formatted _ _ _ _ _ _ _ _ _ _ _ Hf).
  rewrite (bind_ok _ _ _ _ _ Hw), (bind_ok _ _ _ _ _ Hr).
  pose proof (remap_trace kf ff w4) as H1.
  destruct (Gcm.remap_partition_results kf ff w4) as [r w5]. cbn [snd] in H1.
  rewrite snd_finish.
  destruct (extends_cleanup (or_default odir (cwd w))
              (or_default ofile "clustering_output.txt") (cwd w) sd ff w5) as (e2 & H2).
  rewrite H2, H1. exists e2. rewrite <- app_assoc. reflexivity.
Qed.

(** C5, as the code has it.  The remap stage is inside the [try] suite:
    when it raises, the cleanup step is still entered, once, on the world
    the failed remap left; the error of the remap stage then leaves [gcm]
    uncaught, unless the cleanup step raises itself, in which case its
    exception does. *)
Theorem remap_failure_still_cleans_up
  input chi seed odir ofile sep w sd ff kf w4 e w5 :
  clustered input chi seed sep w sd ff kf w4 ->
  Gcm.remap_partition_results kf ff w4 = (Raise e, w5) ->
  gcm input chi seed odir ofile sep w
    = finish (Raise e)
        (Gcm._exit_and_cleanup_scratch (or_default odir (cwd w))
           (or_default ofile "clustering_output.txt") (cwd w) sd ff w5)
  /\ calls cleanup_fn (trace (snd (gcm input chi seed odir ofile sep w)))
     = S (calls cleanup_fn (trace w))
  /\ exists post,
       trace (snd (gcm input chi seed odir ofile sep w))
       = trace w5 ++ Call cleanup_fn :: post.
Proof.
  intros (w3 & (w2 & Hf & Hw) & Hc) Hr.
  assert (gcm input chi seed odir ofile sep w
          = finish (Raise e)
              (Gcm._exit_and_cleanup_scratch (or_default odir (cwd w))
                 (or_default ofile "clustering_output.txt") (cwd w) sd ff w5)) as Hg.
  { rewrite (gcm_formatted _ _ _ _ _ _ _ _ _ _ _ Hf).
    rewrite (bind_ok _ _ _ _ _ Hw), (bind_ok _ _ _ _ _ Hc), Hr. reflexivity. }
  split; [exact Hg|]. split.
  - eapply gcm_formatted_cleanup_once, Hf.
  - rewrite Hg, snd_finish. apply extends_cleanup.
Qed.

(** *** The cleanup and publish step *)

Lemma rmtree_ok d w :
  OS.is_dir (fs w) (OS.resolve w d) = true ->
  exists f,
    OS.rmtree d w = (Ok tt, mkWorld f (cwd w) (rng_pos w) (trace w))
    /\ OS.is_dir f (OS.resolve w d) = false
    /\ (forall x, Path.under (OS.resolve w d) x = true ->
                  OS.is_dir f x = false /\ files f !! x = None)
    /\ (forall x, Path.under (OS.resolve w d) x = false -> files f !! x = files (fs w) !! x).
Proof.
  intros Hd. unfold OS.rmtree. rewrite Hd. eexists. split; [reflexivity|].
  cbn [dirs files]. split; [|split].
  - unfold OS.is_dir. apply bool_decide_eq_false. cbn [dirs].
    rewrite elem_of_filter. tauto.
  - intros x Hx. split.
    + unfold OS.is_dir. apply bool_decide_eq_false. cbn [dirs].
      rewrite elem_of_filter. intros [[_ H] _]. congruence.
    + apply map_lookup_filter_None_2. right. intros c _. cbn [fst]. congruence.
  - intros x Hx. destruct (files (fs w) !! x) as [c|] eqn:E.
    + apply map_lookup_filter_Some_2; [exact E|exact Hx].
    + apply map_lookup_filter_None_2. left. exact E.
Qed.

Lemma is_file_write_other f p c x :
  x <> p -> OS.is_file (OS.write_file f p c) x = OS.is_file f x.
Proof.
  intros H. unfold OS.is_file, OS.write_file. cbn [files].
  rewrite lookup_insert_ne by congruence. reflexivity.
Qed.

Lemma path_exists_eq p w :
  OS.path_exists p w = (Ok (OS.exists_ (fs w) (Path.join (cwd w) p)), w).
Proof. reflexivity. Qed.

Lemma chdir_ok d w :
  OS.is_dir (fs w) (Path.join (cwd w) d) = true ->
  OS.chdir d w = (Ok tt, mkWorld (fs w) (Path.join (cwd w) d) (rng_pos w) (trace w)).
Proof. intros H. unfold OS.chdir, OS.resolve. rewrite H. reflexivity. Qed.

Lemma is_file_lookup f p : OS.is_file f p = true -> exists c, files f !! p = Some c.
Proof.
  unfold OS.is_file. intros H. apply andb_true_iff in H as [H _].
  apply bool_decide_eq_true in H. exact H.
Qed.

Lemma copy_ok src dst w :
  let s := Path.join (cwd w) src in
  let d := Path.join (cwd w) dst in
  OS.is_file (fs w) s = true -> OS.is_dir (fs w) s = false ->
  OS.is_dir (fs w) d = false -> OS.check_writable (fs w) d = Ok tt -> d <> s ->
  exists c,
    files (fs w) !! s = Some c /\
    OS.copy src dst w
    = (Ok tt, mkWorld (OS.write_file (fs w) d c) (cwd w) (rng_pos w) (trace w)).
Proof.
  intros s d Hf Hs Hd Hw Hne.
  destruct (is_file_lookup _ _ Hf) as (c & Hc). exists c. split; [exact Hc|].
  unfold OS.copy, OS.resolve. fold s d. rewrite Hd, Hf. cbn [andb].
  destruct (String.eqb s d) eqn:E; [apply String.eqb_eq in E; congruence|].
  unfold OS.read_file. rewrite Hs, Hf, Hc, Hw. reflexivity.
Qed.

(** C9.  The publish step looks for "partition_" followed by the base
    name of the formatted file inside the scratch directory.  When that
    file is there it is copied onto <output_dir>/<output_file>; when it is
    not, the step prints "Error encountered, no result exists" and
    publishes nothing.  In both cases it returns normally with the working
    directory restored and the scratch directory, with all below it,
    removed.  The original working directory is assumed to exist, the
    scratch path to be a directory if it is anything, the result path not
    to be a directory, and, when there is a result, the output path to
    accept it and to lie outside the scratch directory. *)
Theorem exit_and_cleanup_publishes odir ofile iwd sd ff w :
  let rp := Path.join (cwd w) (Path.join sd ("partition_" +:+ Path.basename ff)) in
  let op := Path.join (cwd w) (Path.join odir ofile) in
  let home := Path.join (cwd w) iwd in
  let sp := Path.join home sd in
  OS.is_dir (fs w) home = true ->
  (OS.is_file (fs w) sp = true -> OS.is_dir (fs w) sp = true) ->
  OS.is_dir (fs w) rp = false ->
  (OS.is_file (fs w) rp = true ->
   OS.is_dir (fs w) op = false /\ OS.check_writable (fs w) op = Ok tt /\
   op <> rp /\ op <> sp /\ Path.under sp op = false) ->
  exists w',
    Gcm._exit_and_cleanup_scratch odir ofile iwd sd ff w = (Ok tt, w')
    /\ cwd w' = home
    /\ OS.is_dir (fs w') sp = false
    /\ (OS.is_dir (fs w) sp = true ->
        forall x, Path.under sp x = true ->
                  OS.is_dir (fs w') x = false /\ files (fs w') !! x = None)
    /\ if OS.is_file (fs w) rp
       then trace w' = trace w ++ [Call cleanup_fn]
            /\ files (fs w') !! op = files (fs w) !! rp
       else trace w' = trace w ++ [Call cleanup_fn;
                                   Print "Error encountered, no result exists"]
            /\ forall x, Path.under sp x = false ->
                         files (fs w') !! x = files (fs w) !! x.
Proof.
  intros rp op home sp Hhome Hsd Hrp Hout.
  unfold Gcm._exit_and_cleanup_scratch, bind at 1, log at 1. cbv beta iota.
  rewrite (bind_ok _ _ _ _ _ (path_exists_eq _ _)). cbn [fs cwd].
  fold rp. unfold OS.exists_ at 1. rewrite Hrp. cbn [orb].
  destruct (OS.is_file (fs w) rp) eqn:Hf.
  - destruct (Hout eq_refl) as (Ho1 & Ho2 & Ho3 & Ho4 & Ho5).
    destruct (copy_ok (Path.join sd ("partition_" +:+ Path.basename ff))
                (Path.join odir ofile)
                (mkWorld (fs w) (cwd w) (rng_pos w) (trace w ++ [Call cleanup_fn])))
      as (c & Hc & Hcp); try assumption.
    cbn [fs cwd] in Hc. fold rp in Hc.
    rewrite (bind_ok _ _ _ _ _ Hcp). cbn [fs cwd rng_pos trace]. fold op.
    erewrite bind_ok by (apply chdir_ok; exact Hhome). cbn [fs cwd rng_pos trace]. fold home.
    rewrite (bind_ok _ _ _ _ _ (path_exists_eq _ _)). cbn [fs cwd]. fold sp.
    unfold OS.exists_.
    change (OS.is_dir (OS.write_file (fs w) op c) sp) with (OS.is_dir (fs w) sp).
    rewrite (is_file_write_other _ _ _ _ (not_eq_sym Ho4)).
    destruct (OS.is_dir (fs w) sp) eqn:Hd.
    + cbn [orb].
      destruct (rmtree_ok sd (mkWorld (OS.write_file (fs w) op c) home (rng_pos w)
                                (trace w ++ [Call cleanup_fn]))) as (f & Hr & H1 & H2 & H3).
      { exact Hd. }
      unfold OS.resolve in H1, H2, H3; cbn [cwd fs] in H1, H2, H3. fold sp in H1, H2, H3.
      eexists. split; [exact Hr|]. cbn [fs cwd trace].
      split; [reflexivity|]. split; [exact H1|]. split; [intros _; exact H2|].
      split; [reflexivity|].
      rewrite (H3 _ Ho5). cbn [OS.write_file files]. rewrite lookup_insert_eq.
      symmetry. exact Hc.
    + destruct (OS.is_file (fs w) sp) eqn:Hfs; [specialize (Hsd eq_refl); discriminate|].
      cbn [orb]. unfold ret. eexists. split; [reflexivity|]. cbn [fs cwd trace].
      split; [reflexivity|]. split; [exact Hd|]. split; [discriminate|].
      split; [reflexivity|].
      cbn [OS.write_file files]. rewrite lookup_insert_eq. symmetry. exact Hc.
  - unfold bind at 1, print, log at 1. cbv beta iota.
    erewrite bind_ok by (apply chdir_ok; exact Hhome). cbn [fs cwd rng_pos trace]. fold home.
    rewrite (bind_ok _ _ _ _ _ (path_exists_eq _ _)). cbn [fs cwd]. fold sp.
    unfold OS.exists_.
    destruct (OS.is_dir (fs w) sp) eqn:Hd.
    + cbn [orb].
      destruct (rmtree_ok sd (mkWorld (fs w) home (rng_pos w)
                  ((trace w ++ [Call cleanup_fn])
                   ++ [Print "Error encountered, no result exists"])))
        as (f & Hr & H1 & H2 & H3).
      { exact Hd. }
      unfold OS.resolve in H1, H2, H3; cbn [cwd fs] in H1, H2, H3. fold sp in H1, H2, H3.
      eexists. split; [exact Hr|]. cbn [fs cwd trace].
      split; [reflexivity|]. split; [exact H1|]. split; [intros _; exact H2|].
      split; [rewrite <- app_assoc; reflexivity|exact H3].
    + destruct (OS.is_file (fs w) sp) eqn:Hfs; [specialize (Hsd eq_refl); discriminate|].
      cbn [orb]. unfold ret. eexists. split; [reflexivity|]. cbn [fs cwd trace].
      split; [reflexivity|]. split; [exact Hd|]. split; [discriminate|].
      split; [rewrite <- app_assoc; reflexivity|reflexivity].
Qed.

(** *** The remap stage *)

Lemma append_assoc (a b c : string) : (a +:+ b) +:+ c = a +:+ (b +:+ c).
Proof.
  induction a as [|x a IH]; [reflexivity|].
  change (String x ((a +:+ b) +:+ c) = String x (a +:+ (b +:+ c))). rewrite IH. reflexivity.
Qed.

Lemma append_empty_r (a : string) : a +:+ "" = a.
Proof.
  induction a as [|x a IH]; [reflexivity|].
  change (String x (a +:+ "") = String x a). rewrite IH. reflexivity.
Qed.

Lemma dict_set_fresh k v d :
  (forall kv, kv ∈ d -> fst kv <> k) -> dict_set k v d = d ++ [(k, v)].
Proof.
  induction d as [|[k' v'] d IH]; intros H; cbn [dict_set app]; [reflexivity|].
  destruct (Z.eqb k k') eqn:E.
  - apply Z.eqb_eq in E. exfalso. apply (H (k', v')); [left|symmetry; exact E].
  - rewrite IH; [reflexivity|]. intros kv Hkv. apply H. right. exact Hkv.
Qed.

(** The first loop: the labels are stored under the keys 1, 2, ... in
    this order. *)
Lemma load_partitions_ok ls vs i d :
  labels_of ls vs -> (forall kv, kv ∈ d -> fst kv <= i) ->
  Gcm.load_partitions ls i d = Ok (d ++ numbered (i + 1) vs).
Proof.
  intros H. revert i d. induction H as [|line v ls vs Hl _ IH]; intros i d Hd.
  - cbn. rewrite app_nil_r. reflexivity.
  - cbn [Gcm.load_partitions numbered]. rewrite Hl.
    rewrite dict_set_fresh.
    + rewrite IH.
      * rewrite <- app_assoc. reflexivity.
      * intros kv Hkv. apply elem_of_app in Hkv as [Hkv|Hkv].
        -- specialize (Hd kv Hkv). lia.
        -- apply list_elem_of_singleton in Hkv. subst kv. cbn. lia.
    + intros kv Hkv. specialize (Hd kv Hkv). lia.
Qed.

Lemma load_partitions_error ls i d e :
  Gcm.load_partitions ls i d = Raise e -> e = ValueError.
Proof.
  revert i d. induction ls as [|line ls IH]; intros i d; cbn [Gcm.load_partitions].
  - discriminate.
  - destruct (Py.int (Py.strip line)); [apply IH|congruence].
Qed.

(** The second loop fails exactly on a line that is not two integer
    tokens, and only with [ValueError]. *)
Lemma key_line_wf_dec line :
  {p : Z * Z | exists a b, Py.split line = [a; b] /\ Py.int a = Some (fst p)
                           /\ Py.int b = Some (snd p)}
  + {~ key_line_wf line}.
Proof.
  destruct (Py.split line) as [|a [|b [|c l]]] eqn:E;
    try (right; intros (a' & b' & za & zb & H & _); congruence).
  destruct (Py.int a) as [za|] eqn:Ea.
  - destruct (Py.int b) as [zb|] eqn:Eb.
    + left. exists (za, zb). exists a, b. auto.
    + right. intros (a' & b' & za' & zb' & H & _ & H2). congruence.
  - right. intros (a' & b' & za' & zb' & H & H1 & _). congruence.
Qed.

Lemma load_mappings_cons_wf line ls m :
  key_line_wf line ->
  exists a b, Gcm.load_mappings (line :: ls) m = Gcm.load_mappings ls (<[b := a]> m).
Proof.
  intros (a & b & za & zb & Hs & Ha & Hb). exists za, zb.
  cbn [Gcm.load_mappings]. rewrite Hs, Ha, Hb. reflexivity.
Qed.

Lemma load_mappings_cons_bad line ls m :
  ~ key_line_wf line -> Gcm.load_mappings (line :: ls) m = Raise ValueError.
Proof.
  intros H. cbn [Gcm.load_mappings].
  destruct (Py.split line) as [|a [|b [|c l]]] eqn:E; try reflexivity.
  destruct (Py.int a) as [za|] eqn:Ea; [|reflexivity].
  destruct (Py.int b) as [zb|] eqn:Eb; [|reflexivity].
  exfalso. apply H. exists a, b, za, zb. auto.
Qed.

Lemma load_mappings_fails_iff ls m :
  Exists (fun line => ~ key_line_wf line) ls <-> Gcm.load_mappings ls m = Raise ValueError.
Proof.
  revert m. induction ls as [|line ls IH]; intros m.
  - split; [intros H; inversion H|discriminate].
  - destruct (key_line_wf_dec line) as [[p Hp]|Hbad].
    + assert (key_line_wf line) as Hwf.
      { destruct Hp as (a & b & H1 & H2 & H3). exists a, b, (fst p), (snd p). auto. }
      destruct (load_mappings_cons_wf line ls m Hwf) as (a & b & ->).
      rewrite <- IH. split.
      * intros H. inversion H; subst; [contradiction|assumption].
      * intros H. right. exact H.
    + rewrite (load_mappings_cons_bad _ _ _ Hbad). split; [reflexivity|].
      intros _. left. exact Hbad.
Qed.

Lemma load_mappings_error ls m e :
  Gcm.load_mappings ls m = Raise e -> e = ValueError.
Proof.
  revert m. induction ls as [|line ls IH]; intros m.
  - discriminate.
  - destruct (key_line_wf_dec line) as [[p Hp]|Hbad].
    + assert (key_line_wf line) as Hwf.
      { destruct Hp as (a & b & H1 & H2 & H3). exists a, b, (fst p), (snd p). auto. }
      destruct (load_mappings_cons_wf line ls m Hwf) as (a & b & ->). apply IH.
    + rewrite (load_mappings_cons_bad _ _ _ Hbad). congruence.
Qed.

Lemma load_mappings_succeeds_iff ls m :
  Forall key_line_wf ls <-> exists m', Gcm.load_mappings ls m = Ok m'.
Proof.
  revert m. induction ls as [|line ls IH]; intros m.
  - split; [intros _; exists m; reflexivity|constructor].
  - destruct (key_line_wf_dec line) as [[p Hp]|Hbad].
    + assert (key_line_wf line) as Hwf.
      { destruct Hp as (a & b & H1 & H2 & H3). exists a, b, (fst p), (snd p). auto. }
      destruct (load_mappings_cons_wf line ls m Hwf) as (a & b & ->).
      rewrite <- IH. split.
      * intros H. inversion H; assumption.
      * intros H. constructor; assumption.
    + rewrite (load_mappings_cons_bad _ _ _ Hbad). split.
      * intros H. inversion H; contradiction.
      * intros (m' & H). discriminate.
Qed.

(** The third loop. *)
Lemma write_remapped_ok m vs : forall i out,
  (forall j, i <= j < i + Z.of_nat (length vs) -> is_Some (m !! j)) ->
  Gcm.write_remapped (numbered i vs) m out = (Ok tt, out +:+ remapped_text m i vs).
Proof.
  induction vs as [|v vs IH]; intros i out H; cbn [numbered Gcm.write_remapped remapped_text].
  - rewrite append_empty_r. reflexivity.
  - destruct (H i) as [a Ha]; [cbn [length]; lia|]. rewrite Ha. cbn [default].
    rewrite IH.
    + unfold remapped_line. rewrite !append_assoc. reflexivity.
    + intros j Hj. apply H. cbn [length]. lia.
Qed.

Lemma write_remapped_missing m vs : forall i out k,
  i <= k < i + Z.of_nat (length vs) -> m !! k = None ->
  (forall j, i <= j < k -> is_Some (m !! j)) ->
  Gcm.write_remapped (numbered i vs) m out
  = (Raise (KeyError k), out +:+ remapped_text m i (take (Z.to_nat (k - i)) vs)).
Proof.
  induction vs as [|v vs IH]; intros i out k Hk Hn Hlt;
    cbn [numbered Gcm.write_remapped]; [cbn [length] in Hk; lia|].
  destruct (decide (k = i)) as [->|Hne].
  - rewrite Hn, Z.sub_diag. cbn [Z.to_nat take remapped_text].
    rewrite append_empty_r. reflexivity.
  - destruct (Hlt i) as [a Ha]; [lia|]. rewrite Ha.
    rewrite (IH (i + 1) _ k); [|cbn [length] in Hk; lia|exact Hn|intros j Hj; apply Hlt; lia].
    replace (Z.to_nat (k - i)) with (S (Z.to_nat (k - (i + 1)))) by lia.
    cbn [take remapped_text]. rewrite Ha. cbn [default].
    unfold remapped_line. rewrite !append_assoc. reflexivity.
Qed.

Lemma first_missing (m : gmap Z Z) n : forall i,
  (exists k, i <= k < i + Z.of_nat n /\ m !! k = None) ->
  exists k, i <= k < i + Z.of_nat n /\ m !! k = None
            /\ forall j, i <= j < k -> is_Some (m !! j).
Proof.
  induction n as [|n IH]; intros i (k & Hk & Hn); [lia|].
  destruct (m !! i) as [a|] eqn:E.
  - destruct (IH (i + 1)) as (k' & Hk' & Hn' & Hlt).
    + exists k. split; [|exact Hn]. destruct (decide (k = i)) as [->|]; [congruence|lia].
    + exists k'. split; [lia|]. split; [exact Hn'|].
      intros j Hj. destruct (decide (j = i)) as [->|]; [rewrite E; eauto|apply Hlt; lia].
  - exists i. split; [lia|]. split; [exact E|]. intros j Hj. lia.
Qed.

Lemma read_file_ok f p c :
  OS.read_file f p = Ok c ->
  OS.is_dir f p = false /\ OS.is_file f p = true /\ files f !! p = Some c.
Proof.
  unfold OS.read_file. destruct (OS.is_dir f p); [discriminate|].
  destruct (OS.is_file f p); [|discriminate].
  destruct (files f !! p); [|discriminate]. intros [= ->]. auto.
Qed.

Lemma open_read_ok p w c :
  OS.read_file (fs w) (Path.join (cwd w) p) = Ok c ->
  OS.open_read p w = (Ok (Py.universal_newlines c), w).
Proof. intros H. unfold OS.open_read, OS.resolve. rewrite H. reflexivity. Qed.

Lemma open_write_ok {A} p (body : Result A * string) w c :
  OS.read_file (fs w) (Path.join (cwd w) p) = Ok c ->
  OS.open_write p body w
  = (fst body, mkWorld (OS.write_file (fs w) (Path.join (cwd w) p) (snd body))
                 (cwd w) (rng_pos w) (trace w)).
Proof.
  intros H. apply read_file_ok in H as (Hd & Hf & _).
  unfold OS.open_write, OS.resolve, OS.check_writable. rewrite Hd, Hf. reflexivity.
Qed.

(** [remap_partition_results] when both files can be read. *)
Lemma remap_eq kf ff w ptext ktext :
  let rp := Path.join (cwd w) ("partition_" +:+ Path.basename ff) in
  OS.read_file (fs w) rp = Ok ptext ->
  OS.read_file (fs w) (Path.join (cwd w) kf) = Ok ktext ->
  Gcm.remap_partition_results kf ff w =
    match Gcm.load_partitions (Py.lines (Py.universal_newlines ptext)) 0 [] with
    | Raise e => (Raise e, after w (fs w) [Call "remap_partition_results"])
    | Ok partitions =>
        match Gcm.load_mappings (Py.lines (Py.universal_newlines ktext)) ∅ with
        | Raise e => (Raise e, after w (fs w) [Call "remap_partition_results"])
        | Ok mappings =>
            let body := Gcm.write_remapped partitions mappings "" in
            (fst body, after w (OS.write_file (fs w) rp (snd body))
                         [Call "remap_partition_results"])
        end
    end.
Proof.
  intros rp Hp Hk.
  unfold Gcm.remap_partition_results, bind at 1, log at 1. cbv beta iota.
  erewrite bind_ok by (apply open_read_ok; exact Hp).
  unfold bind at 1, lift at 1.
  destruct (Gcm.load_partitions _ 0 []) as [partitions|e]; [|reflexivity].
  erewrite bind_ok by (apply open_read_ok; exact Hk).
  unfold bind at 1, lift at 1.
  destruct (Gcm.load_mappings _ ∅) as [mappings|e]; [|reflexivity].
  erewrite open_write_ok by exact Hp. reflexivity.
Qed.

Lemma remap_all_known kf ff w ptext ktext vs m :
  let rp := Path.join (cwd w) ("partition_" +:+ Path.basename ff) in
  OS.read_file (fs w) rp = Ok ptext ->
  labels_of (Py.lines (Py.universal_newlines ptext)) vs ->
  OS.read_file (fs w) (Path.join (cwd w) kf) = Ok ktext ->
  Gcm.load_mappings (Py.lines (Py.universal_newlines ktext)) ∅ = Ok m ->
  (forall i, 1 <= i <= Z.of_nat (length vs) -> is_Some (m !! i)) ->
  Gcm.remap_partition_results kf ff w
  = (Ok tt, after w (OS.write_file (fs w) rp (remapped_text m 1 vs))
              [Call "remap_partition_results"]).
Proof.
  intros rp Hp Hl Hk Hm Hall.
  rewrite (remap_eq kf ff w ptext ktext Hp Hk).
  rewrite (load_partitions_ok _ vs 0 []); [|exact Hl|intros kv H; inversion H].
  rewrite Hm. cbn [app]. change (0 + 1) with 1. cbv zeta.
  rewrite write_remapped_ok; [reflexivity|]. intros j Hj. apply Hall. lia.
Qed.

(** C2, as the code has it.  For an assignment file of N lines that each
    hold an integer, and a key file that loads (every line two integer
    tokens, label first, Dense ID second) into a key store with an entry
    for each Dense ID 1..N, the remap takes line i for Dense ID i and
    rewrites the assignment file in place: line i becomes the label of
    Dense ID i, a space and the cluster label of line i, both written as
    decimal integers, in the order of the Dense IDs 1..N.  Nothing else in
    the world changes. *)
Theorem remap_rewrites_in_dense_id_order kf ff w ptext ktext vs m :
  let rp := Path.join (cwd w) ("partition_" +:+ Path.basename ff) in
  OS.read_file (fs w) rp = Ok ptext ->
  labels_of (Py.lines (Py.universal_newlines ptext)) vs ->
  OS.read_file (fs w) (Path.join (cwd w) kf) = Ok ktext ->
  Gcm.load_mappings (Py.lines (Py.universal_newlines ktext)) ∅ = Ok m ->
  (forall i, 1 <= i <= Z.of_nat (length vs) -> is_Some (m !! i)) ->
  Gcm.remap_partition_results kf ff w
  = (Ok tt, after w (OS.write_file (fs w) rp (remapped_text m 1 vs))
              [Call "remap_partition_results"]).
Proof. apply remap_all_known. Qed.

(** C3, as the code has it.  Loading the key store fails, with
    [ValueError], exactly when some line of the key file is not two
    white-space separated tokens or one of its two tokens (the label as
    well as the Dense ID) is not an integer literal; it succeeds exactly
    when every line is two integer tokens.  A malformed line is not
    skipped: the remap raises and leaves the file system as it was. *)
Theorem key_store_load_fails_iff kf ff w ptext ktext vs :
  let rp := Path.join (cwd w) ("partition_" +:+ Path.basename ff) in
  let ls := Py.lines (Py.universal_newlines ktext) in
  OS.read_file (fs w) rp = Ok ptext ->
  labels_of (Py.lines (Py.universal_newlines ptext)) vs ->
  OS.read_file (fs w) (Path.join (cwd w) kf) = Ok ktext ->
  (Exists (fun line => ~ key_line_wf line) ls
   <-> Gcm.load_mappings ls ∅ = Raise ValueError)
  /\ (forall e, Gcm.load_mappings ls ∅ = Raise e -> e = ValueError)
  /\ (Forall key_line_wf ls <-> exists m, Gcm.load_mappings ls ∅ = Ok m)
  /\ (Exists (fun line => ~ key_line_wf line) ls ->
      Gcm.remap_partition_results kf ff w
      = (Raise ValueError, after w (fs w) [Call "remap_partition_results"])).
Proof.
  intros rp ls Hp Hl Hk. split; [apply load_mappings_fails_iff|].
  split; [intros e; apply load_mappings_error|].
  split; [apply load_mappings_succeeds_iff|].
  intros Hbad. apply (load_mappings_fails_iff ls ∅) in Hbad.
  rewrite (remap_eq kf ff w ptext ktext Hp Hk).
  rewrite (load_partitions_ok _ vs 0 []); [|exact Hl|intros kv H; inversion H].
  fold ls. rewrite Hbad. reflexivity.
Qed.

(** C4.  With an assignment file of N integer lines and a key store that
    loaded: if some Dense ID among 1..N has no entry, the remap raises
    [KeyError] for the first such Dense ID k, having written the lines of
    the Dense IDs before k; if every Dense ID 1..N has an entry, the remap
    returns normally. *)
Theorem remap_unknown_dense_id kf ff w ptext ktext vs m :
  let rp := Path.join (cwd w) ("partition_" +:+ Path.basename ff) in
  let n := Z.of_nat (length vs) in
  OS.read_file (fs w) rp = Ok ptext ->
  labels_of (Py.lines (Py.universal_newlines ptext)) vs ->
  OS.read_file (fs w) (Path.join (cwd w) kf) = Ok ktext ->
  Gcm.load_mappings (Py.lines (Py.universal_newlines ktext)) ∅ = Ok m ->
  ((exists k, 1 <= k <= n /\ m !! k = None) ->
   exists k, 1 <= k <= n /\ m !! k = None
             /\ (forall j, 1 <= j < k -> is_Some (m !! j))
             /\ Gcm.remap_partition_results kf ff w
                = (Raise (KeyError k),
                   after w (OS.write_file (fs w) rp
                              (remapped_text m 1 (take (Z.to_nat (k - 1)) vs)))
                     [Call "remap_partition_results"]))
  /\ ((forall k, 1 <= k <= n -> is_Some (m !! k)) ->
      fst (Gcm.remap_partition_results kf ff w) = Ok tt).
Proof.
  intros rp n Hp Hl Hk Hm. split.
  - intros (k0 & Hk0 & Hn0).
    destruct (first_missing m (length vs) 1) as (k & Hr & Hn & Hlt).
    { exists k0. split; [fold n; lia|exact Hn0]. }
    fold n in Hr. exists k. split; [lia|]. split; [exact Hn|]. split; [exact Hlt|].
    rewrite (remap_eq kf ff w ptext ktext Hp Hk).
    rewrite (load_partitions_ok _ vs 0 []); [|exact Hl|intros kv H; inversion H].
    rewrite Hm. cbn [app]. change (0 + 1) with 1. cbv zeta.
    rewrite (write_remapped_missing m vs 1 "" k); [reflexivity|fold n; lia|exact Hn|exact Hlt].
  - intros Hall.
    rewrite (remap_all_known kf ff w ptext ktext vs m Hp Hl Hk Hm);
      [reflexivity|exact Hall].
Qed.

(** *** More on staging *)

Lemma get_has i s c : String.get i s = Some c -> Path.has c s = true.
Proof.
  revert i. induction s as [|x s IH]; intros i; [discriminate|].
  destruct i as [|i]; cbn [String.get Path.has].
  - intros [= ->]. rewrite Ascii.eqb_refl. reflexivity.
  - intros H. rewrite (IH _ H). apply orb_true_r.
Qed.

Lemma get_lt i s : (i < String.length s)%nat -> exists c, String.get i s = Some c.
Proof.
  revert i. induction s as [|x s IH]; intros i; cbn [String.length]; [lia|].
  destruct i as [|i]; cbn [String.get]; [eauto|]. intros H. apply IH. lia.
Qed.

Lemma random_chars_spec letters n : forall w,
  letters <> "" ->
  exists s,
    Gcm.random_chars draw letters n w
    = (Ok s, mkWorld (fs w) (cwd w) (rng_pos w + n) (trace w))
    /\ String.length s = n
    /\ Forall (fun c => Path.has c letters = true) (list_ascii_of_string s).
Proof.
  induction n as [|n IH]; intros w Hne; cbn [Gcm.random_chars].
  - exists "". unfold ret. rewrite Nat.add_0_r. destruct w. repeat split. constructor.
  - unfold bind at 1, Gcm.random_choice at 1.
    destruct (get_lt (draw (rng_pos w) mod String.length letters) letters) as (c & Hc).
    { apply Nat.mod_upper_bound. destruct letters; [contradiction|cbn; lia]. }
    rewrite Hc.
    destruct (IH (mkWorld (fs w) (cwd w) (S (rng_pos w)) (trace w)) Hne) as (s & Hs & Hl & Hf).
    unfold bind. rewrite Hs. cbn [fs cwd rng_pos trace]. unfold ret.
    exists (String c s). split; [|split].
    + do 2 f_equal. lia.
    + cbn [String.length]. rewrite Hl. reflexivity.
    + cbn [list_ascii_of_string]. constructor; [eapply get_has, Hc|exact Hf].
Qed.

(** X1.  [generate_random_string(length)] never raises: it returns a
    string of exactly [length] characters, each one of the 62 ASCII
    letters and digits, after [length] random draws, and changes nothing
    else. *)
Theorem generate_random_string_alphanumeric n w :
  exists s,
    Gcm.generate_random_string draw n w
    = (Ok s, mkWorld (fs w) (cwd w) (rng_pos w + n) (trace w))
    /\ String.length s = n
    /\ Forall (fun c => Path.has c (Gcm.ascii_letters +:+ Gcm.digits) = true)
         (list_ascii_of_string s).
Proof. apply random_chars_spec. discriminate. Qed.

Lemma length_append a b :
  String.length (a +:+ b) = (String.length a + String.length b)%nat.
Proof.
  induction a as [|x a IH]; [reflexivity|].
  change (String x a +:+ b) with (String x (a +:+ b)). cbn [String.length].
  rewrite IH. reflexivity.
Qed.

Lemma length_string_of_list l :
  String.length (string_of_list_ascii l) = length l.
Proof. induction l as [|x l IH]; cbn; [reflexivity|]. rewrite IH. reflexivity. Qed.

(** Every proper ancestor of a path is at most as long as the path. *)
Lemma ancestors_aux_length s : forall cur x,
  x ∈ Path.ancestors_aux cur s ->
  (String.length x <= length cur + String.length s)%nat.
Proof.
  induction s as [|c s IH]; intros cur x; cbn [Path.ancestors_aux String.length].
  - intros H. inversion H.
  - destruct (Ascii.eqb c "/").
    + destruct cur as [|c' cur].
      * intros H. apply elem_of_cons in H as [->|H]; [cbn; lia|].
        apply IH in H. cbn [length] in *. lia.
      * intros H. apply elem_of_cons in H as [->|H].
        -- rewrite length_string_of_list, length_rev. lia.
        -- apply IH in H. cbn [length] in *. lia.
    + intros H. apply IH in H. cbn [length] in H. lia.
Qed.

Lemma ancestors_length p x :
  x ∈ Path.ancestors p -> (String.length x <= String.length p)%nat.
Proof. intros H. apply ancestors_aux_length in H. cbn [length] in H. lia. Qed.

(** What [os.path.join] puts before a relative second argument. *)
Lemma join_rel a b :
  Path.is_abs b = false ->
  Path.join a b
  = (if String.eqb a "" || Path.ends_with_slash a then a else a +:+ "/") +:+ b.
Proof.
  intros H. unfold Path.join. rewrite H.
  destruct (String.eqb a "" || Path.ends_with_slash a); [reflexivity|].
  rewrite append_assoc. reflexivity.
Qed.

Lemma is_abs_app a b : a <> "" -> Path.is_abs (a +:+ b) = Path.is_abs a.
Proof. destruct a; [contradiction|reflexivity]. Qed.

Lemma is_abs_join b c :
  b <> "" -> Path.is_abs c = false -> Path.is_abs (Path.join b c) = Path.is_abs b.
Proof.
  intros Hb Hc. rewrite (join_rel _ _ Hc).
  destruct (String.eqb b "" || Path.ends_with_slash b).
  - apply is_abs_app, Hb.
  - rewrite append_assoc. apply is_abs_app, Hb.
Qed.

Lemma is_abs_has s : Path.is_abs s = true -> Path.has "/" s = true.
Proof.
  destruct s as [|c s]; [discriminate|]. cbn [Path.is_abs Path.has].
  destruct (Ascii.eqb c "/") eqn:E; [reflexivity|].
  intros H. exfalso. apply Ascii.eqb_neq in E. apply E.
  destruct c as [[] [] [] [] [] [] [] []]; try discriminate H. reflexivity.
Qed.

Lemma join_length_grows a b c :
  b <> "" -> c <> "" -> Path.is_abs c = false ->
  (String.length (Path.join a b) < String.length (Path.join a (Path.join b c)))%nat.
Proof.
  intros Hb Hc Hrel.
  assert (String.length b < String.length (Path.join b c))%nat as Hlen.
  { rewrite (join_rel _ _ Hrel), length_append.
    destruct c; [contradiction|]. cbn [String.length].
    destruct (String.eqb b "" || Path.ends_with_slash b); [lia|].
    rewrite length_append. lia. }
  destruct (Path.is_abs b) eqn:E.
  - unfold Path.join at 1 2. rewrite E. rewrite (is_abs_join _ _ Hb Hrel), E. exact Hlen.
  - rewrite (join_rel a b E), (join_rel a (Path.join b c)).
    + rewrite !length_append. lia.
    + rewrite (is_abs_join _ _ Hb Hrel). exact E.
Qed.

(** The three calls of the staging function, when they return. *)
Lemma makedirs_inv d w w' :
  OS.makedirs d w = (Ok tt, w') ->
  OS.exists_ (fs w) (Path.join (cwd w) d) = false
  /\ w' = mkWorld (mkFS (dirs (fs w) ∪ list_to_set (Path.ancestors (Path.join (cwd w) d))
                          ∪ {[Path.join (cwd w) d]})
                        (files (fs w)))
                  (cwd w) (rng_pos w) (trace w).
Proof.
  unfold OS.makedirs, OS.resolve.
  destruct (OS.exists_ _ _); [discriminate|].
  destruct (existsb _ _); [discriminate|].
  unfold set_fs. intros [= <-]. auto.
Qed.

Lemma copy_inv src dst w w' :
  OS.copy src dst w = (Ok tt, w') ->
  let s := Path.join (cwd w) src in
  let d0 := Path.join (cwd w) dst in
  let d := if OS.is_dir (fs w) d0 then Path.join d0 (Path.basename s) else d0 in
  exists c,
    OS.is_file (fs w) s = true /\ files (fs w) !! s = Some c
    /\ w' = mkWorld (OS.write_file (fs w) d c) (cwd w) (rng_pos w) (trace w).
Proof.
  unfold OS.copy, OS.resolve. cbv zeta.
  destruct (_ && _); [discriminate|].
  destruct (OS.read_file _ _) as [c|e] eqn:Er; [|discriminate].
  destruct (OS.check_writable _ _) as [[]|e]; [|discriminate].
  unfold set_fs. intros [= <-].
  apply read_file_ok in Er as (_ & Hf & Hc). exists c. auto.
Qed.

Lemma chdir_inv d w w' :
  OS.chdir d w = (Ok tt, w') ->
  OS.is_dir (fs w) (Path.join (cwd w) d) = true
  /\ w' = mkWorld (fs w) (Path.join (cwd w) d) (rng_pos w) (trace w).
Proof.
  unfold OS.chdir, OS.resolve.
  destruct (OS.is_dir _ _); [|destruct (OS.is_file _ _); discriminate].
  unfold set_cwd. intros [= <-]. auto.
Qed.

Lemma setup_steps iwd input w sd sf w1 :
  _setup_and_enter_scratch iwd input w = (Ok (sd, sf), w1) ->
  exists sfx wa wb wc,
    Gcm.generate_random_string draw 4
      (mkWorld (fs w) (cwd w) (rng_pos w) (trace w ++ [Call "_setup_and_enter_scratch"]))
    = (Ok sfx, wa)
    /\ sd = Path.join iwd ("gcm_cache_" +:+ sfx)
    /\ sf = Path.join sd (Path.basename input)
    /\ OS.makedirs sd wa = (Ok tt, wb)
    /\ OS.copy input sf wb = (Ok tt, wc)
    /\ OS.chdir sd wc = (Ok tt, w1).
Proof.
  unfold Gcm._setup_and_enter_scratch, bind at 1, log at 1. cbv beta iota.
  unfold bind at 1.
  destruct (Gcm.generate_random_string draw 4 _) as [[sfx|e] wa] eqn:Eg; [|discriminate].
  unfold bind at 1. destruct (OS.makedirs _ wa) as [[[]|e] wb] eqn:Em; [|discriminate].
  unfold bind at 1. destruct (OS.copy _ _ wb) as [[[]|e] wc] eqn:Ec; [|discriminate].
  unfold bind at 1. destruct (OS.chdir _ wc) as [[[]|e] wd] eqn:Ed; [|discriminate].
  unfold ret. intros [= <- <- <-]. exists sfx, wa, wb, wc. auto 10.
Qed.

(** X2.  When staging returns, the scratch directory is
    <initial directory>/gcm_cache_<4 characters>; it did not exist before
    and is a directory now, and the working directory is inside it; the
    staged file is <scratch>/<base name of the input> and holds the text
    of the input file; no other file has changed and no directory was
    removed.  The path of the staged file is assumed not to be a
    directory beforehand (nothing lies below a path that does not
    exist). *)
Theorem setup_postconditions iwd input w sd sf w1 :
  _setup_and_enter_scratch iwd input w = (Ok (sd, sf), w1) ->
  OS.is_dir (fs w) (Path.join (cwd w) sf) = false ->
  exists sfx c,
    String.length sfx = 4%nat
    /\ sd = Path.join iwd ("gcm_cache_" +:+ sfx)
    /\ sf = Path.join sd (Path.basename input)
    /\ OS.exists_ (fs w) (Path.join (cwd w) sd) = false
    /\ OS.is_dir (fs w1) (Path.join (cwd w) sd) = true
    /\ cwd w1 = Path.join (cwd w) sd
    /\ files (fs w) !! Path.join (cwd w) input = Some c
    /\ files (fs w1) !! Path.join (cwd w) sf = Some c
    /\ (forall x, x <> Path.join (cwd w) sf -> files (fs w1) !! x = files (fs w) !! x)
    /\ (forall x, OS.is_dir (fs w) x = true -> OS.is_dir (fs w1) x = true)
    /\ trace w1 = trace w ++ [Call "_setup_and_enter_scratch"].
Proof.
  intros Hs Hnd.
  pose proof (setup_ok _ _ _ _ _ _ Hs) as (_ & Hne & _).
  destruct (setup_steps _ _ _ _ _ _ Hs) as (sfx & wa & wb & wc & Hg & Hsd & Hsf & Hm & Hc & Hd).
  destruct (random_chars_spec (Gcm.ascii_letters +:+ Gcm.digits) 4
              (mkWorld (fs w) (cwd w) (rng_pos w)
                 (trace w ++ [Call "_setup_and_enter_scratch"])))
    as (sfx' & Hg' & Hlen & _); [discriminate|].
  unfold Gcm.generate_random_string in Hg. rewrite Hg' in Hg.
  injection Hg as <- <-. cbn [fs cwd rng_pos trace] in *.
  apply makedirs_inv in Hm as [Hnew ->]. cbn [fs cwd rng_pos trace] in *.
  apply copy_inv in Hc. cbn [fs cwd rng_pos trace dirs files] in Hc.
  destruct Hc as (c & Hfile & Hcont & ->).
  apply chdir_inv in Hd as [Hdir ->]. cbn [fs cwd rng_pos trace] in *.
  assert (OS.is_dir
            (mkFS (dirs (fs w) ∪ list_to_set (Path.ancestors (Path.join (cwd w) sd))
                   ∪ {[Path.join (cwd w) sd]}) (files (fs w)))
            (Path.join (cwd w) sf) = false) as Hnd'.
  { unfold OS.is_dir in *. apply bool_decide_eq_false. cbn [dirs].
    apply bool_decide_eq_false in Hnd.
    assert (String.length (Path.join (cwd w) sd) < String.length (Path.join (cwd w) sf))%nat
      as Hlt.
    { rewrite Hsf. apply join_length_grows.
      - rewrite Hsd. intros E. apply (f_equal String.length) in E.
        destruct (Path.is_abs ("gcm_cache_" +:+ sfx')) eqn:Ea; [discriminate Ea|].
        rewrite (join_rel _ _ Ea), !length_append in E. cbn in E. lia.
      - exact Hne.
      - destruct (Path.is_abs (Path.basename input)) eqn:Ea; [|reflexivity].
        apply is_abs_has in Ea. rewrite PathFacts.basename_noslash in Ea. discriminate Ea. }
    rewrite !elem_of_union, elem_of_list_to_set, elem_of_singleton.
    intros [[H|H]|H]; [contradiction| |].
    - apply ancestors_length in H. lia.
    - rewrite H in Hlt. lia. }
  rewrite Hnd' in *.
  exists sfx', c. cbn [fs cwd trace files OS.write_file].
  split; [exact Hlen|]. split; [exact Hsd|]. split; [exact Hsf|].
  split; [exact Hnew|]. split; [exact Hdir|]. split; [reflexivity|].
  split; [exact Hcont|]. split; [apply lookup_insert_eq|].
  split; [intros x Hx; apply lookup_insert_ne; congruence|].
  split; [|reflexivity].
  intros x Hx. unfold OS.is_dir in *. apply bool_decide_eq_true in Hx.
  apply bool_decide_eq_true. cbn [dirs]. set_solver.
Qed.

Lemma setup_unfold iwd input w sfx wa :
  Gcm.generate_random_string draw 4 (after w (fs w) [Call "_setup_and_enter_scratch"])
  = (Ok sfx, wa) ->
  _setup_and_enter_scratch iwd input w =
    bind (OS.makedirs (Path.join iwd ("gcm_cache_" +:+ sfx)))
      (fun _ =>
         bind (OS.copy input (Path.join (Path.join iwd ("gcm_cache_" +:+ sfx))
                                (Path.basename input)))
           (fun _ => bind (OS.chdir (Path.join iwd ("gcm_cache_" +:+ sfx)))
              (fun _ => ret (Path.join iwd ("gcm_cache_" +:+ sfx),
                             Path.join (Path.join iwd ("gcm_cache_" +:+ sfx))
                               (Path.basename input))))) wa.
Proof.
  intros Hg. unfold Gcm._setup_and_enter_scratch, bind at 1, log at 1. cbv beta iota.
  unfold after in Hg. rewrite (bind_ok _ _ _ _ _ Hg). reflexivity.
Qed.

Lemma generate_frame sfx w wa :
  Gcm.generate_random_string draw 4 w = (Ok sfx, wa) ->
  wa = mkWorld (fs w) (cwd w) (rng_pos w + 4) (trace w).
Proof.
  intros H.
  destruct (random_chars_spec (Gcm.ascii_letters +:+ Gcm.digits) 4 w) as (s & Hs & _);
    [discriminate|].
  unfold Gcm.generate_random_string in H. rewrite Hs in H. congruence.
Qed.

Lemma gcm_setup_raises input chi seed odir ofile sep w e w1 :
  OS.is_dir (fs w) (cwd w) = true ->
  _setup_and_enter_scratch (cwd w) input w = (Raise e, w1) ->
  gcm input chi seed odir ofile sep w
  = (Raise (UnboundLocalError "scratch_directory"), w1).
Proof.
  intros Hd Hs. unfold Gcm.gcm, bind at 1, OS.getcwd. rewrite Hd.
  unfold Gcm.gcm_try. rewrite Hs. reflexivity.
Qed.

(** X3.  A name collision is not retried: when the scratch path that the
    random suffix gives already exists, [os.makedirs] raises, [gcm] ends
    with [UnboundLocalError], no external step has been started, and the
    file system and the working directory are as before. *)
Theorem gcm_scratch_collision input chi seed odir ofile sep w sfx wa :
  OS.is_dir (fs w) (cwd w) = true ->
  Gcm.generate_random_string draw 4 (after w (fs w) [Call "_setup_and_enter_scratch"])
  = (Ok sfx, wa) ->
  OS.exists_ (fs w) (Path.join (cwd w) (Path.join (cwd w) ("gcm_cache_" +:+ sfx))) = true ->
  _setup_and_enter_scratch (cwd w) input w = (Raise FileExistsError, wa)
  /\ gcm input chi seed odir ofile sep w
     = (Raise (UnboundLocalError "scratch_directory"), wa)
  /\ fs wa = fs w /\ cwd wa = cwd w
  /\ trace wa = trace w ++ [Call "_setup_and_enter_scratch"].
Proof.
  intros Hd Hg Hex.
  pose proof (generate_frame _ _ _ Hg) as Hwa. cbn [after fs cwd rng_pos trace] in Hwa.
  assert (_setup_and_enter_scratch (cwd w) input w = (Raise FileExistsError, wa)) as Hs.
  { rewrite (setup_unfold _ _ _ _ _ Hg). unfold bind at 1, OS.makedirs, OS.resolve.
    subst wa. cbn [fs cwd]. rewrite Hex. reflexivity. }
  split; [exact Hs|]. split; [eapply gcm_setup_raises; eassumption|].
  subst wa. auto.
Qed.

(** X4.  An input path that is not a regular file makes staging fail
    after the scratch directory has been made: [gcm] ends with
    [UnboundLocalError], and the new, empty scratch directory stays on
    disk; no file has changed and the working directory is as before. *)
Theorem gcm_missing_input_leaves_scratch input chi seed odir ofile sep w sfx wa :
  let p := Path.join (cwd w) (Path.join (cwd w) ("gcm_cache_" +:+ sfx)) in
  OS.is_dir (fs w) (cwd w) = true ->
  Gcm.generate_random_string draw 4 (after w (fs w) [Call "_setup_and_enter_scratch"])
  = (Ok sfx, wa) ->
  OS.exists_ (fs w) p = false ->
  existsb (OS.is_file (fs w)) (Path.ancestors p) = false ->
  OS.is_file (fs w) (Path.join (cwd w) input) = false ->
  exists w',
    gcm input chi seed odir ofile sep w
    = (Raise (UnboundLocalError "scratch_directory"), w')
    /\ OS.is_dir (fs w') p = true
    /\ files (fs w') = files (fs w)
    /\ cwd w' = cwd w
    /\ trace w' = trace w ++ [Call "_setup_and_enter_scratch"].
Proof.
  intros p Hd Hg Hex Hanc Hin.
  pose proof (generate_frame _ _ _ Hg) as Hwa. cbn [after fs cwd rng_pos trace] in Hwa.
  set (wb := mkWorld (mkFS (dirs (fs w) ∪ list_to_set (Path.ancestors p) ∪ {[p]})
                        (files (fs w)))
                (cwd w) (rng_pos w + 4) (trace w ++ [Call "_setup_and_enter_scratch"])).
  assert (exists e, _setup_and_enter_scratch (cwd w) input w = (Raise e, wb)) as (e & Hs).
  { rewrite (setup_unfold _ _ _ _ _ Hg). unfold bind at 1, OS.makedirs, OS.resolve.
    subst wa. cbn [fs cwd]. fold p. rewrite Hex, Hanc. unfold set_fs.
    cbn [fs cwd rng_pos trace]. fold wb.
    unfold bind at 1, OS.copy, OS.resolve.
    change (OS.is_file (fs wb) (Path.join (cwd wb) input))
      with (OS.is_file (fs w) (Path.join (cwd w) input)).
    rewrite Hin. cbn [andb]. unfold OS.read_file.
    change (OS.is_file (fs wb) (Path.join (cwd wb) input))
      with (OS.is_file (fs w) (Path.join (cwd w) input)).
    rewrite Hin. destruct (OS.is_dir (fs wb) _); eexists; reflexivity. }
  exists wb. split; [eapply gcm_setup_raises; eassumption|].
  subst wb. cbn [fs cwd trace files dirs]. repeat split.
  unfold OS.is_dir. apply bool_decide_eq_true. cbn [dirs]. set_solver.
Qed.

(** X5.  When staging has succeeded and the formatter cannot be started
    for a reason other than a missing executable ([PermissionError]), the
    exception leaves [run_format_script], [formatted_file] is never
    assigned, and [gcm] ends with [UnboundLocalError] without entering the
    cleanup step: the world is the staged one, with the scratch directory
    and the staged copy still on disk and the working directory still
    inside the scratch directory. *)
Theorem gcm_formatter_denied_skips_cleanup input chi seed odir ofile sep w sd sf w1 :
  let argv := ["python"; Path.join source_dir "format_edgelist.py"; Path.basename sf;
               "--sep"; or_default sep "space"] in
  staged input w sd sf w1 ->
  fst (exec argv (cwd w1) (fs w1)) = Denied ->
  gcm input chi seed odir ofile sep w
  = (Raise (UnboundLocalError "formatted_file"),
     after w1 (fs w1) [Call "run_format_script"; Spawn argv false])
  /\ calls cleanup_fn (trace (snd (gcm input chi seed odir ofile sep w)))
     = calls cleanup_fn (trace w).
Proof.
  intros argv [Hd Hs] Hden.
  assert (run_format_script (Path.basename sf) sep w1
          = (Raise PermissionError,
             after w1 (fs w1) [Call "run_format_script"; Spawn argv false])) as Hf.
  { unfold Gcm.run_format_script, bind at 1, log at 1. cbv beta iota.
    unfold bind at 1. rewrite invoke_spec. cbn [fs cwd]. fold argv.
    destruct (exec argv (cwd w1) (fs w1)) as [o f]. cbn [fst] in Hden. subst o.
    unfold after. cbn [fs cwd rng_pos trace]. rewrite <- app_assoc. reflexivity. }
  assert (gcm input chi seed odir ofile sep w
          = (Raise (UnboundLocalError "formatted_file"),
             after w1 (fs w1) [Call "run_format_script"; Spawn argv false])) as Hg.
  { unfold Gcm.gcm, bind at 1, OS.getcwd. rewrite Hd.
    unfold Gcm.gcm_try. rewrite Hs, Hf. reflexivity. }
  split; [exact Hg|].
  - rewrite Hg. cbn [snd after trace].
    pose proof (setup_trace (cwd w) input w) as Ht. rewrite Hs in Ht. cbn [snd] in Ht.
    rewrite Ht, !calls_app. unfold calls.
    repeat (rewrite count_occ_cons_neq by discriminate). cbn [count_occ]. lia.
Qed.

(** *** More on the remap stage *)

Lemma load_partitions_bad ls : forall i d,
  Exists (fun line => Py.int (Py.strip line) = None) ls ->
  Gcm.load_partitions ls i d = Raise ValueError.
Proof.
  induction ls as [|line ls IH]; intros i d H; [inversion H|].
  cbn [Gcm.load_partitions]. destruct (Py.int (Py.strip line)) as [v|] eqn:E; [|reflexivity].
  apply IH. inversion H; subst; [congruence|assumption].
Qed.

Lemma remap_unparsable kf ff w ptext :
  OS.read_file (fs w) (Path.join (cwd w) ("partition_" +:+ Path.basename ff)) = Ok ptext ->
  Exists (fun line => Py.int (Py.strip line) = None)
    (Py.lines (Py.universal_newlines ptext)) ->
  Gcm.remap_partition_results kf ff w
  = (Raise ValueError, after w (fs w) [Call "remap_partition_results"]).
Proof.
  intros Hp Hbad.
  unfold Gcm.remap_partition_results, bind at 1, log at 1. cbv beta iota.
  erewrite bind_ok by (apply open_read_ok; exact Hp).
  unfold bind at 1, lift at 1. rewrite (load_partitions_bad _ _ _ Hbad). reflexivity.
Qed.

Lemma read_file_missing f p : OS.exists_ f p = false -> OS.read_file f p = Raise FileNotFoundError.
Proof.
  unfold OS.exists_, OS.read_file. intros H. apply orb_false_elim in H as [-> ->].
  reflexivity.
Qed.

(** X6.  A missing file makes the remap raise [FileNotFoundError] with
    nothing written: the assignment file when it is missing (what a
    clustering that produced no result leaves), and otherwise the key
    file when it is missing and the assignment file holds integers. *)
Theorem remap_missing_file kf ff w :
  let rp := Path.join (cwd w) ("partition_" +:+ Path.basename ff) in
  OS.exists_ (fs w) rp = false
  \/ (exists ptext vs,
        OS.read_file (fs w) rp = Ok ptext
        /\ labels_of (Py.lines (Py.universal_newlines ptext)) vs
        /\ OS.exists_ (fs w) (Path.join (cwd w) kf) = false) ->
  Gcm.remap_partition_results kf ff w
  = (Raise FileNotFoundError, after w (fs w) [Call "remap_partition_results"]).
Proof.
  intros rp [H|(ptext & vs & Hp & Hl & Hk)];
    unfold Gcm.remap_partition_results, bind at 1, log at 1; cbv beta iota.
  - unfold bind at 1, OS.open_read, OS.resolve. cbn [fs cwd]. fold rp.
    rewrite (read_file_missing _ _ H). reflexivity.
  - erewrite bind_ok by (apply open_read_ok; exact Hp).
    unfold bind at 1, lift at 1.
    rewrite (load_partitions_ok _ vs 0 []); [|exact Hl|intros kv H; inversion H].
    unfold bind at 1, OS.open_read, OS.resolve. cbn [fs cwd].
    rewrite (read_file_missing _ _ Hk). reflexivity.
Qed.

(** X7.  A line of the assignment file that is not an integer makes the
    remap raise [ValueError] before the key file is opened: whatever the
    key file is, nothing is written. *)
Theorem remap_bad_assignment_line kf ff w ptext :
  OS.read_file (fs w) (Path.join (cwd w) ("partition_" +:+ Path.basename ff)) = Ok ptext ->
  Exists (fun line => Py.int (Py.strip line) = None)
    (Py.lines (Py.universal_newlines ptext)) ->
  Gcm.remap_partition_results kf ff w
  = (Raise ValueError, after w (fs w) [Call "remap_partition_results"]).
Proof. apply remap_unparsable. Qed.

(** The key store: later lines override earlier ones. *)
Lemma key_record_load line ls m :
  Gcm.load_mappings (line :: ls) m =
    match key_record line with
    | Some (a, b) => Gcm.load_mappings ls (<[b := a]> m)
    | None => Raise ValueError
    end.
Proof.
  cbn [Gcm.load_mappings]. unfold key_record.
  destruct (Py.split line) as [|a [|b [|c l]]]; try reflexivity.
  destruct (Py.int a); [|reflexivity]. destruct (Py.int b); reflexivity.
Qed.

Lemma load_mappings_lookup ls : forall m0 m b,
  Gcm.load_mappings ls m0 = Ok m ->
  m !! b = match last_label ls b with Some a => Some a | None => m0 !! b end.
Proof.
  induction ls as [|line ls IH]; intros m0 m b.
  - cbn. intros [= ->]. reflexivity.
  - rewrite key_record_load. cbn [last_label].
    destruct (key_record line) as [[a b']|]; [|discriminate].
    intros H. rewrite (IH _ _ b H).
    destruct (last_label ls b); [reflexivity|].
    destruct (Z.eqb b' b) eqn:E.
    + apply Z.eqb_eq in E. subst. apply lookup_insert_eq.
    + apply Z.eqb_neq in E. apply lookup_insert_ne. exact E.
Qed.

(** X8.  A key store that loads maps every Dense ID to the label on the
    last line of the key file that carries this Dense ID, and has no
    entry for a Dense ID that no line carries: a repeated Dense ID
    silently overrides the earlier line. *)
Theorem key_store_last_line_wins ls m b :
  Gcm.load_mappings ls ∅ = Ok m -> m !! b = last_label ls b.
Proof.
  intros H. rewrite (load_mappings_lookup ls ∅ m b H).
  destruct (last_label ls b); [reflexivity|apply lookup_empty].
Qed.

Lemma remap_cases kf ff w :
  exists r f,
    Gcm.remap_partition_results kf ff w = (r, after w f [Call "remap_partition_results"])
    /\ (f = fs w
        \/ exists c,
             f = OS.write_file (fs w)
                   (Path.join (cwd w) ("partition_" +:+ Path.basename ff)) c).
Proof.
  unfold Gcm.remap_partition_results, bind at 1, log at 1. cbv beta iota zeta.
  unfold bind at 1, OS.open_read at 1.
  destruct (OS.read_file _ _) as [c|e]; [|eexists _, _; split; [reflexivity|auto]].
  unfold bind at 1, lift at 1.
  destruct (Gcm.load_partitions _ _ _) as [partitions|e];
    [|eexists _, _; split; [reflexivity|auto]].
  unfold bind at 1, OS.open_read at 1.
  destruct (OS.read_file _ _) as [c'|e]; [|eexists _, _; split; [reflexivity|auto]].
  unfold bind at 1, lift at 1.
  destruct (Gcm.load_mappings _ _) as [mappings|e];
    [|eexists _, _; split; [reflexivity|auto]].
  unfold OS.open_write, OS.resolve. cbn [fs cwd].
  destruct (OS.check_writable _ _) as [[]|e]; [|eexists _, _; split; [reflexivity|auto]].
  eexists _, _. split; [reflexivity|]. right. eexists. reflexivity.
Qed.

(** X9.  Whatever its outcome, the remap changes no file other than the
    assignment file, creates and removes no directory, and leaves the
    working directory alone; in particular it never modifies the key
    file. *)
Theorem remap_frame kf ff w :
  let w' := snd (Gcm.remap_partition_results kf ff w) in
  cwd w' = cwd w
  /\ dirs (fs w') = dirs (fs w)
  /\ forall x, x <> Path.join (cwd w) ("partition_" +:+ Path.basename ff) ->
               files (fs w') !! x = files (fs w) !! x.
Proof.
  destruct (remap_cases kf ff w) as (r & f & -> & [->|[c ->]]); cbn.
  - auto.
  - split; [reflexivity|]. split; [reflexivity|].
    intros x Hx. apply lookup_insert_ne. congruence.
Qed.

(** *** The remapped file cannot be remapped again *)

Lemma all_chars_app p a b : all_chars p (a +:+ b) = all_chars p a && all_chars p b.
Proof.
  induction a as [|x a IH]; [reflexivity|].
  change (String x a +:+ b) with (String x (a +:+ b)). cbn [all_chars].
  rewrite IH. apply andb_assoc.
Qed.

Lemma all_chars_impl (p q : ascii -> bool) s :
  (forall c, p c = true -> q c = true) -> all_chars p s = true -> all_chars q s = true.
Proof.
  intros H. induction s as [|x s IH]; [reflexivity|]. cbn [all_chars].
  intros E. apply andb_true_iff in E as [E1 E2]. rewrite (H _ E1), (IH E2). reflexivity.
Qed.

Lemma solid_inline s : solid s = true -> inline s = true.
Proof.
  apply all_chars_impl. intros c H.
  destruct (Ascii.eqb c "010") eqn:E1; [apply Ascii.eqb_eq in E1; subst; discriminate H|].
  destruct (Ascii.eqb c "013") eqn:E2; [apply Ascii.eqb_eq in E2; subst; discriminate H|].
  reflexivity.
Qed.

Lemma solid_uint d : solid (NilEmpty.string_of_uint d) = true.
Proof. induction d; cbn; auto. Qed.

Lemma solid_str n : solid (Py.str n) = true /\ Py.str n <> "".
Proof.
  unfold Py.str, NilZero.string_of_int.
  assert (forall d, solid (NilZero.string_of_uint d) = true
                    /\ NilZero.string_of_uint d <> "") as H.
  { intros d. destruct d; cbn; (split; [|discriminate]); try reflexivity; apply solid_uint. }
  destruct (Z.to_int n) as [d|d].
  - apply H.
  - split; [|discriminate]. cbn. apply H.
Qed.

Lemma lstrip_solid s t : solid s = true -> s <> "" -> Py.lstrip (s +:+ t) = s +:+ t.
Proof.
  destruct s as [|c s]; [contradiction|]. intros H _.
  change (String c s +:+ t) with (String c (s +:+ t)). cbn [Py.lstrip].
  cbn in H. apply andb_true_iff in H as [H _]. apply negb_true_iff in H.
  rewrite H. reflexivity.
Qed.

Lemma rstrip_solid v : solid v = true -> Py.rstrip v = v.
Proof.
  induction v as [|c v IH]; [reflexivity|]. cbn. intros H.
  apply andb_true_iff in H as [H1 H2]. apply negb_true_iff in H1.
  fold (solid v) in H2. rewrite (IH H2). destruct v; [rewrite H1|]; reflexivity.
Qed.

Lemma rstrip_app_solid x v :
  solid v = true -> v <> "" -> Py.rstrip (x +:+ v) = x +:+ v.
Proof.
  intros Hs Hne. induction x as [|c x IH]; [apply rstrip_solid, Hs|].
  change (String c x +:+ v) with (String c (x +:+ v)). cbn [Py.rstrip]. rewrite IH.
  destruct (x +:+ v) eqn:E; [|reflexivity].
  exfalso. destruct x; [cbn in E; contradiction|discriminate E].
Qed.

Lemma rstrip_app_nl x : Py.rstrip (x +:+ nl) = Py.rstrip x.
Proof.
  induction x as [|c x IH]; [reflexivity|].
  change (String c x +:+ nl) with (String c (x +:+ nl)). cbn [Py.rstrip].
  rewrite IH. reflexivity.
Qed.

Lemma has_space_not_digit c :
  Ascii.eqb c " " = true -> Py.isdigit c = false /\ Ascii.eqb c "_" = false.
Proof. intros H. apply Ascii.eqb_eq in H. subst. split; reflexivity. Qed.

Lemma int_digits_space s : forall acc prev,
  Path.has " " s = true -> Py.int_digits acc prev s = None.
Proof.
  induction s as [|c s IH]; intros acc prev; [discriminate|].
  cbn [Path.has Py.int_digits]. destruct (Ascii.eqb c " ") eqn:E.
  - intros _. destruct (has_space_not_digit c E) as [-> ->]. reflexivity.
  - cbn [orb]. intros H. destruct (Py.isdigit c); [apply IH, H|].
    destruct (Ascii.eqb c "_" && prev); [apply IH, H|reflexivity].
Qed.

Lemma int_inner_space c0 r :
  Path.has " " r = true ->
  match String c0 r with
  | String "-" d => Z.opp <$> Py.int_digits 0 false d
  | String "+" d => Py.int_digits 0 false d
  | d => Py.int_digits 0 false d
  end = None.
Proof.
  intros H.
  assert (Py.int_digits 0 false (String c0 r) = None) as H2.
  { apply int_digits_space. cbn [Path.has]. rewrite H. apply orb_true_r. }
  pose proof (int_digits_space r 0 false H) as H1.
  destruct c0 as [[] [] [] [] [] [] [] []]; cbv beta iota;
    rewrite ?H1, ?H2; reflexivity.
Qed.

(** A written line "<label> <cluster>" is not an integer. *)
Lemma int_remapped_line a v : Py.int (Py.strip (remapped_line a v)) = None.
Proof.
  destruct (solid_str a) as [Ha Hane]. destruct (solid_str v) as [Hv Hvne].
  unfold remapped_line, Py.strip.
  rewrite (lstrip_solid _ _ Ha Hane).
  replace (Py.str a +:+ " " +:+ Py.str v +:+ nl)
    with ((Py.str a +:+ " " +:+ Py.str v) +:+ nl) by (rewrite !append_assoc; reflexivity).
  rewrite rstrip_app_nl.
  replace (Py.str a +:+ " " +:+ Py.str v)
    with ((Py.str a +:+ " ") +:+ Py.str v) by (rewrite !append_assoc; reflexivity).
  rewrite (rstrip_app_solid _ _ Hv Hvne). rewrite append_assoc.
  unfold Py.int. destruct (Py.str a) as [|c0 r] eqn:E; [contradiction|].
  change (String c0 r +:+ " " +:+ Py.str v) with (String c0 (r +:+ " " +:+ Py.str v)).
  assert (Py.strip (String c0 (r +:+ " " +:+ Py.str v)) = String c0 (r +:+ " " +:+ Py.str v))
    as ->.
  { unfold Py.strip.
    change (String c0 (r +:+ " " +:+ Py.str v)) with (String c0 r +:+ " " +:+ Py.str v).
    rewrite (lstrip_solid _ _ Ha ltac:(discriminate)).
    replace (String c0 r +:+ " " +:+ Py.str v)
      with ((String c0 r +:+ " ") +:+ Py.str v) by (rewrite !append_assoc; reflexivity).
    apply rstrip_app_solid; assumption. }
  apply int_inner_space. rewrite PathFacts.has_app.
  change (" " +:+ Py.str v) with (String " " (Py.str v)). cbn [Path.has].
  rewrite Ascii.eqb_refl. apply orb_true_r.
Qed.

Lemma universal_newlines_inline s t :
  inline s = true ->
  Py.universal_newlines (s +:+ t) = s +:+ Py.universal_newlines t.
Proof.
  induction s as [|c s IH]; [reflexivity|]. intros H.
  cbn in H. apply andb_true_iff in H as [H1 H2]. fold (inline s) in H2.
  apply andb_true_iff in H1 as [_ H1]. apply negb_true_iff in H1.
  change (String c s +:+ t) with (String c (s +:+ t)).
  change (String c s +:+ Py.universal_newlines t)
    with (String c (s +:+ Py.universal_newlines t)).
  cbn [Py.universal_newlines]. rewrite H1, (IH H2). reflexivity.
Qed.

Lemma string_of_list_app l1 l2 :
  string_of_list_ascii (l1 ++ l2) = string_of_list_ascii l1 +:+ string_of_list_ascii l2.
Proof. induction l1 as [|x l1 IH]; [reflexivity|]. cbn. rewrite IH. reflexivity. Qed.

Lemma lines_aux_inline s : forall cur r,
  inline s = true ->
  Py.lines_aux cur (s +:+ String "010" r)
  = (string_of_list_ascii (rev cur) +:+ s +:+ nl) :: Py.lines_aux [] r.
Proof.
  induction s as [|c s IH]; intros cur r H.
  - change ("" +:+ String "010" r) with (String "010" r). cbn [Py.lines_aux Ascii.eqb].
    cbn [Ascii.eqb Bool.eqb]. cbn [rev]. rewrite string_of_list_app. reflexivity.
  - cbn in H. apply andb_true_iff in H as [H1 H2]. fold (inline s) in H2.
    apply andb_true_iff in H1 as [H1 _]. apply negb_true_iff in H1.
    change (String c s +:+ String "010" r) with (String c (s +:+ String "010" r)).
    cbn [Py.lines_aux]. rewrite H1, (IH _ _ H2). cbn [rev].
    rewrite string_of_list_app. cbn [string_of_list_ascii].
    rewrite !append_assoc. reflexivity.
Qed.

(** The first line of a remapped file. *)
Lemma lines_remapped_text m i v vs :
  exists rest,
    Py.lines (Py.universal_newlines (remapped_text m i (v :: vs)))
    = remapped_line (default 0 (m !! i)) v :: rest.
Proof.
  cbn [remapped_text]. set (a := default 0 (m !! i)).
  destruct (solid_str a) as [Ha _]. destruct (solid_str v) as [Hv _].
  assert (inline (Py.str a +:+ " " +:+ Py.str v) = true) as Hin.
  { unfold inline. rewrite !all_chars_app.
    fold (inline (Py.str a)) (inline (Py.str v)).
    rewrite (solid_inline _ Ha), (solid_inline _ Hv). reflexivity. }
  unfold remapped_line.
  replace ((Py.str a +:+ " " +:+ Py.str v +:+ nl) +:+ remapped_text m (i + 1) vs)
    with ((Py.str a +:+ " " +:+ Py.str v) +:+ String "010" (remapped_text m (i + 1) vs))
    by (rewrite !append_assoc; reflexivity).
  rewrite (universal_newlines_inline _ _ Hin).
  cbn [Py.universal_newlines]. cbn [Ascii.eqb Bool.eqb].
  unfold Py.lines. rewrite (lines_aux_inline _ _ _ Hin). cbn [rev string_of_list_ascii].
  eexists. f_equal. rewrite !append_assoc. reflexivity.
Qed.

(** X10.  The remap is not idempotent: after a successful remap of a
    non-empty assignment file, every line of the file is "<label>
    <cluster>", which [int] rejects; a second remap of the same file
    raises [ValueError] and leaves it as the first remap wrote it. *)
Theorem remap_twice_fails kf ff w ptext ktext vs m :
  let rp := Path.join (cwd w) ("partition_" +:+ Path.basename ff) in
  let w1 := after w (OS.write_file (fs w) rp (remapped_text m 1 vs))
              [Call "remap_partition_results"] in
  OS.read_file (fs w) rp = Ok ptext ->
  labels_of (Py.lines (Py.universal_newlines ptext)) vs ->
  OS.read_file (fs w) (Path.join (cwd w) kf) = Ok ktext ->
  Gcm.load_mappings (Py.lines (Py.universal_newlines ktext)) ∅ = Ok m ->
  (forall i, 1 <= i <= Z.of_nat (length vs) -> is_Some (m !! i)) ->
  vs <> [] ->
  Gcm.remap_partition_results kf ff w = (Ok tt, w1)
  /\ Gcm.remap_partition_results kf ff w1
     = (Raise ValueError, after w1 (fs w1) [Call "remap_partition_results"]).
Proof.
  intros rp w1 Hp Hl Hk Hm Hall Hne.
  split; [apply (remap_all_known kf ff w ptext ktext vs m Hp Hl Hk Hm Hall)|].
  apply (remap_unparsable kf ff w1 (remapped_text m 1 vs)).
  - apply read_file_ok in Hp as (Hd & Hf & _).
    subst w1. cbn [after fs cwd]. fold rp. unfold OS.read_file.
    change (OS.is_dir (OS.write_file (fs w) rp (remapped_text m 1 vs)) rp)
      with (OS.is_dir (fs w) rp). rewrite Hd.
    unfold OS.is_file in *. cbn [OS.write_file files]. rewrite lookup_insert_eq.
    apply andb_true_iff in Hf as [_ ->].
    rewrite bool_decide_eq_true_2 by eauto. reflexivity.
  - destruct vs as [|v vs]; [contradiction|].
    destruct (lines_remapped_text m 1 v vs) as (rest & ->).
    left. apply int_remapped_line.
Qed.

(** *** More on the external steps *)

(** X11.  The formatter runs unchecked: whatever status it exits with,
    [run_format_script] prints no diagnostic and returns the two file
    names, with the file system as the formatter left it. *)
Theorem formatter_exit_status_ignored name sep w code f :
  let argv := ["python"; Path.join source_dir "format_edgelist.py"; name;
               "--sep"; or_default sep "space"] in
  exec argv (cwd w) (fs w) = (Exited code, f) ->
  run_format_script name sep w
  = (Gcm.format_names name, after w f [Call "run_format_script"; Spawn argv false]).
Proof.
  intros argv H. unfold Gcm.run_format_script, bind at 1, log at 1. cbv beta iota.
  unfold bind at 1. rewrite invoke_spec. cbn [fs cwd]. fold argv. rewrite H.
  cbn [andb]. unfold lift, after. cbn [fs cwd rng_pos trace].
  rewrite <- app_assoc. reflexivity.
Qed.

Lemma context_raises (body : M unit) w e :
  fst (subprocess_context body w) = Raise e ->
  named_kind e = false /\ subprocess_context body w = body w.
Proof.
  unfold Gcm.subprocess_context.
  destruct (body w) as [[[]|e'] w']; [discriminate|].
  destruct e'; cbn [fst print log]; intros H; try discriminate H;
    injection H as <-; split; reflexivity.
Qed.

Lemma invoker_raises fn (body : M unit) w e :
  fst (bind (log (Call fn)) (fun _ => subprocess_context body) w) = Raise e ->
  named_kind e = false.
Proof.
  unfold bind at 1, log at 1. cbv beta iota. intros H.
  apply context_raises in H as [H _]. exact H.
Qed.

(** X12.  No exception of the kinds [subprocess_context] names
    ([FileNotFoundError], [CalledProcessError], [TimeoutExpired]) ever
    leaves it, whatever its body: when it raises, the exception is of
    another kind and the context manager has changed nothing of what its
    body did.  Hence none of the three invokers, [run_work_script],
    [run_clustering] and [run_format_script], ever raises one of these
    kinds either. *)
Theorem named_failures_never_escape :
  (forall (body : M unit) w e,
     fst (subprocess_context body w) = Raise e ->
     named_kind e = false /\ subprocess_context body w = body w)
  /\ (forall name w e, fst (run_work_script name w) = Raise e -> named_kind e = false)
  /\ (forall name chi seed w e,
        fst (run_clustering name chi seed w) = Raise e -> named_kind e = false)
  /\ (forall name sep w e,
        fst (run_format_script name sep w) = Raise e -> named_kind e = false).
Proof.
  split; [|split; [|split]].
  - intros body w e. apply context_raises.
  - intros name w e. apply invoker_raises.
  - intros name chi seed w e. apply invoker_raises.
  - intros name sep w e. unfold Gcm.run_format_script.
    rewrite <- (bind_assoc (log (Call "run_format_script")) _
                  (fun _ => lift (Gcm.format_names name)) w).
    unfold bind at 1.
    destruct (bind (log (Call "run_format_script")) _ w) as [[[]|e'] w'] eqn:E.
    + unfold lift. cbn [fst]. unfold Gcm.format_names.
      repeat case_match; intros [= <-]; reflexivity.
    + cbn [fst]. intros [= <-].
      eapply (invoker_raises "run_format_script"). rewrite E. reflexivity.
Qed.

(** *** The names of the files of a run *)

Lemma rsplit1_join c s h t : Path.rsplit1 c s = Some (h, t) -> s = h +:+ String c t.
Proof.
  revert h t. induction s as [|x s IH]; intros h t; cbn [Path.rsplit1]; [discriminate|].
  destruct (Path.rsplit1 c s) as [[h' t']|].
  - intros [= <- <-]. rewrite (IH h' t' eq_refl) at 1. reflexivity.
  - destruct (Ascii.eqb x c) eqn:E; [|discriminate].
    apply Ascii.eqb_eq in E. subst. intros [= <- <-]. reflexivity.
Qed.

Lemma stem_suffix name : Path.stem name +:+ Path.suffix name = name.
Proof.
  unfold Path.stem, Path.suffix.
  destruct (Path.rsplit1 "." name) as [[h t]|] eqn:E; [|apply append_empty_r].
  destruct h as [|c h]; [apply append_empty_r|].
  destruct t as [|c' t]; [apply append_empty_r|].
  symmetry. apply (rsplit1_join _ _ _ _ E).
Qed.

Lemma with_stem_length name tag r :
  Path.has "/" name = false ->
  Path.with_stem name (fun s => s +:+ tag) = Some r ->
  String.length r = (String.length name + String.length tag)%nat.
Proof.
  intros Hn. unfold Path.with_stem. rewrite (PathFacts.basename_id _ Hn).
  destruct (_ || _); [discriminate|].
  apply PathFacts.rsplit1_None in Hn. rewrite Hn. intros [= <-].
  rewrite !length_append. rewrite <- (stem_suffix name) at 3. rewrite length_append. lia.
Qed.

(** X13.  For a staged file name (no separator in it), the formatted
    file, the key file and the assignment file get names of three
    different lengths, all longer than the name of the staged file: none
    of the four files of a run can overwrite another. *)
Theorem run_file_names_distinct name ff kf :
  Path.has "/" name = false ->
  Gcm.format_names name = Ok (ff, kf) ->
  let result := "partition_" +:+ Path.basename ff in
  String.length ff = (String.length name + 10)%nat
  /\ String.length kf = (String.length name + 4)%nat
  /\ String.length result = (String.length name + 20)%nat
  /\ ff <> name /\ kf <> name /\ result <> name
  /\ ff <> kf /\ result <> ff /\ result <> kf.
Proof.
  intros Hn H. unfold Gcm.format_names in H.
  destruct (Path.with_stem name (fun s => s +:+ "_formatted")) as [r1|] eqn:E1;
    [|discriminate].
  destruct (Path.with_stem name (fun s => s +:+ "_key")) as [r2|] eqn:E2; [|discriminate].
  injection H as <- <-.
  pose proof (with_stem_length _ _ _ Hn E1) as L1.
  pose proof (with_stem_length _ _ _ Hn E2) as L2.
  pose proof (with_stem_bare_inv name "_formatted" r1 Hn eq_refl E1) as Hb.
  cbv zeta. rewrite Hb.
  assert (String.length ("partition_" +:+ r1) = (String.length name + 20)%nat) as L3.
  { rewrite length_append, L1. cbn. lia. }
  cbn [String.length] in L1, L2.
  repeat split; try assumption; intros E; apply (f_equal String.length) in E; lia.
Qed.

(** *** More on the cleanup step *)

Lemma copy_cases src dst w :
  let s := Path.join (cwd w) src in
  let d0 := Path.join (cwd w) dst in
  exists r f,
    OS.copy src dst w = (r, mkWorld f (cwd w) (rng_pos w) (trace w))
    /\ (f = fs w
        \/ exists c d, f = OS.write_file (fs w) d c
                       /\ (d = d0 \/ d = Path.join d0 (Path.basename s))).
Proof.
  intros s d0. unfold OS.copy, OS.resolve. fold s d0. cbv zeta.
  destruct (_ && _); [exists (Raise SameFileError), (fs w); destruct w; auto|].
  destruct (OS.read_file _ _) as [c|e]; [|exists (Raise e), (fs w); destruct w; auto].
  destruct (OS.check_writable _ _) as [[]|e]; [|exists (Raise e), (fs w); destruct w; auto].
  unfold set_fs. eexists _, _. split; [reflexivity|]. right. eexists c, _.
  split; [reflexivity|]. destruct (OS.is_dir (fs w) d0); auto.
Qed.

Lemma restore_cases iwd sd w :
  let sp := Path.join (Path.join (cwd w) iwd) sd in
  exists r f c,
    bind (OS.chdir iwd)
      (fun _ => bind (OS.path_exists sd)
         (fun found => if found : bool then OS.rmtree sd else ret tt)) w
    = (r, mkWorld f c (rng_pos w) (trace w))
    /\ (f = fs w
        \/ f = mkFS (filter (fun x => x <> sp /\ Path.under sp x = false) (dirs (fs w)))
                    (filter (fun kv => Path.under sp (fst kv) = false) (files (fs w)))).
Proof.
  intros sp. unfold bind at 1, OS.chdir, OS.resolve.
  destruct (OS.is_dir (fs w) (Path.join (cwd w) iwd)).
  - unfold set_cwd. rewrite (bind_ok _ _ _ _ _ (path_exists_eq _ _)). cbn [fs cwd]. fold sp.
    destruct (OS.exists_ (fs w) sp).
    + unfold OS.rmtree, OS.resolve. cbn [fs cwd]. fold sp.
      destruct (OS.is_dir (fs w) sp).
      * unfold set_fs. cbn [fs cwd rng_pos trace]. eexists _, _, _. split; [reflexivity|auto].
      * destruct (OS.is_file (fs w) sp); eexists _, _, _; split; try reflexivity; auto.
    + unfold ret. eexists _, _, _. split; [reflexivity|auto].
  - destruct w as [f0 c0 n0 t0]. cbn [fs cwd rng_pos trace].
    destruct (OS.is_file _ _); eexists _, f0, c0; (split; [reflexivity|auto]).
Qed.

(** X14.  Whatever its outcome, the cleanup step changes no file outside
    the scratch directory other than the file it publishes (the output
    path, or the result's name inside the output path when that is a
    directory); it creates no directory and removes no directory other
    than the scratch directory and those below it. *)
Theorem cleanup_frame odir ofile iwd sd ff w :
  let rp := Path.join (cwd w) (Path.join sd ("partition_" +:+ Path.basename ff)) in
  let op := Path.join (cwd w) (Path.join odir ofile) in
  let sp := Path.join (Path.join (cwd w) iwd) sd in
  let w' := snd (Gcm._exit_and_cleanup_scratch odir ofile iwd sd ff w) in
  (forall x, x <> op -> x <> Path.join op (Path.basename rp) -> Path.under sp x = false ->
             files (fs w') !! x = files (fs w) !! x)
  /\ (forall x, OS.is_dir (fs w') x = true -> OS.is_dir (fs w) x = true)
  /\ (forall x, OS.is_dir (fs w) x = true -> x <> sp -> Path.under sp x = false ->
                OS.is_dir (fs w') x = true).
Proof.
  intros rp op sp w'.
  assert (exists f1 f2,
             fs w' = f2
             /\ (f1 = fs w
                 \/ exists c d, f1 = OS.write_file (fs w) d c
                                /\ (d = op \/ d = Path.join op (Path.basename rp)))
             /\ (f2 = f1
                 \/ f2 = mkFS (filter (fun x => x <> sp /\ Path.under sp x = false) (dirs f1))
                              (filter (fun kv => Path.under sp (fst kv) = false) (files f1))))
    as (f1 & f2 & Hw & H1 & H2).
  { subst w'. unfold Gcm._exit_and_cleanup_scratch, bind at 1, log at 1. cbv beta iota.
    rewrite (bind_ok _ _ _ _ _ (path_exists_eq _ _)). cbn [fs cwd].
    set (w0 := mkWorld (fs w) (cwd w) (rng_pos w)
                 (trace w ++ [Call "_exit_and_cleanup_scratch"])).
    destruct (OS.exists_ (fs w) _).
    - destruct (copy_cases (Path.join sd ("partition_" +:+ Path.basename ff))
                  (Path.join odir ofile) w0) as (r & f & Hc & Hf).
      unfold w0 in Hf. cbn [fs cwd rng_pos trace] in Hf. fold rp op in Hf.
      unfold bind at 1. rewrite Hc. destruct r as [[]|e].
      + destruct (restore_cases iwd sd (mkWorld f (cwd w0) (rng_pos w0) (trace w0)))
          as (r' & f' & c' & Hr & Hf').
        unfold w0 in Hf'. cbn [fs cwd rng_pos trace] in Hf'. fold sp in Hf'. rewrite Hr.
        exists f, f'. cbn [snd fs]. auto.
      + exists f, f. cbn [snd fs]. auto.
    - unfold bind at 1, print, log at 1. cbv beta iota.
      destruct (restore_cases iwd sd
                  (mkWorld (fs w0) (cwd w0) (rng_pos w0)
                     (trace w0 ++ [Print "Error encountered, no result exists"])))
        as (r' & f' & c' & Hr & Hf').
      unfold w0 in Hf'. cbn [fs cwd rng_pos trace] in Hf'. fold sp in Hf'. rewrite Hr.
      exists (fs w), f'. cbn [snd fs]. auto. }
  rewrite Hw. clear Hw.
  assert (dirs f1 = dirs (fs w)) as Hd1.
  { destruct H1 as [->|(c & d & -> & _)]; reflexivity. }
  assert (forall x, x <> op -> x <> Path.join op (Path.basename rp) ->
                    files f1 !! x = files (fs w) !! x) as Hf1.
  { intros x Hx1 Hx2. destruct H1 as [->|(c & d & -> & Hd)]; [reflexivity|].
    cbn [OS.write_file files]. apply lookup_insert_ne. destruct Hd; congruence. }
  split; [|split].
  - intros x Hx1 Hx2 Hu. destruct H2 as [->| ->]; [auto|]. cbn [files].
    rewrite <- (Hf1 x Hx1 Hx2).
    destruct (files f1 !! x) as [c|] eqn:E.
    + apply map_lookup_filter_Some_2; [exact E|exact Hu].
    + apply map_lookup_filter_None_2. left. exact E.
  - intros x. unfold OS.is_dir. rewrite !bool_decide_eq_true, <- Hd1.
    destruct H2 as [->| ->]; [auto|]. cbn [dirs]. rewrite elem_of_filter. tauto.
  - intros x. unfold OS.is_dir. rewrite !bool_decide_eq_true, <- Hd1.
    intros Hx Hne Hu. destruct H2 as [->| ->]; [auto|]. cbn [dirs].
    rewrite elem_of_filter. auto.
Qed.

(** *** More on the pipeline controller *)

Lemma join_abs a b : Path.is_abs b = true -> Path.join a b = b.
Proof. intros H. unfold Path.join. rewrite H. reflexivity. Qed.

Lemma invoke_cwd argv check w :
  cwd (snd (subprocess_context (subprocess_run argv check) w)) = cwd w.
Proof.
  rewrite invoke_spec. destruct (exec argv (cwd w) (fs w)) as [[code| | |] f];
    [destruct (check && negb (Z.eqb code 0))|..]; reflexivity.
Qed.

Lemma invoker_cwd fn argv check w :
  cwd (snd (bind (log (Call fn))
              (fun _ => subprocess_context (subprocess_run argv check)) w)) = cwd w.
Proof. unfold bind at 1, log at 1. cbv beta iota. rewrite invoke_cwd. reflexivity. Qed.

Lemma run_format_script_cwd name sep w :
  cwd (snd (run_format_script name sep w)) = cwd w.
Proof.
  unfold Gcm.run_format_script.
  rewrite <- (bind_assoc (log (Call "run_format_script")) _
                (fun _ => lift (Gcm.format_names name)) w).
  pose proof (invoker_cwd "run_format_script"
                ["python"; Path.join source_dir "format_edgelist.py"; name; "--sep";
                 or_default sep "space"] false w) as H.
  unfold bind at 1.
  destruct (bind (log (Call "run_format_script")) _ w) as [[[]|e] w']; exact H.
Qed.

Lemma setup_cwd iwd input w sd sf w1 :
  _setup_and_enter_scratch iwd input w = (Ok (sd, sf), w1) ->
  cwd w1 = Path.join (cwd w) sd
  /\ OS.is_dir (fs w1) (Path.join (cwd w) sd) = true
  /\ exists sfx, sd = Path.join iwd ("gcm_cache_" +:+ sfx).
Proof.
  intros Hs.
  destruct (setup_steps _ _ _ _ _ _ Hs) as (sfx & wa & wb & wc & Hg & Hsd & _ & Hm & Hc & Hd).
  apply generate_frame in Hg. cbn [fs cwd rng_pos trace] in Hg. subst wa.
  apply makedirs_inv in Hm as [_ ->]. cbn [fs cwd rng_pos trace] in *.
  apply copy_inv in Hc. cbn [fs cwd rng_pos trace] in Hc. destruct Hc as (c & _ & _ & ->).
  apply chdir_inv in Hd as [Hd ->]. cbn [fs cwd rng_pos trace] in *.
  split; [reflexivity|]. split; [|eauto].
  clear Hs Hd. unfold OS.is_dir. apply bool_decide_eq_true. cbn [dirs OS.write_file].
  set_solver.
Qed.

(** From an absolute working directory the scratch directory is an
    absolute path, and the stages up to the clustering run inside it. *)
Lemma staged_abs input w sd sf w1 :
  staged input w sd sf w1 -> Path.is_abs (cwd w) = true ->
  Path.is_abs sd = true /\ cwd w1 = sd.
Proof.
  intros [_ Hs] Ha. apply setup_cwd in Hs as (Hc & _ & sfx & Hsd).
  assert (Path.is_abs sd = true) as Habs.
  { rewrite Hsd, is_abs_join; [exact Ha| |reflexivity].
    intros E. rewrite E in Ha. discriminate Ha. }
  split; [exact Habs|]. rewrite Hc. apply join_abs, Habs.
Qed.

Lemma formatted_abs input sep w sd ff kf w2 :
  formatted input sep w sd ff kf w2 -> Path.is_abs (cwd w) = true ->
  Path.is_abs sd = true /\ cwd w2 = sd.
Proof.
  intros (sf & w1 & Hst & Hf) Ha. destruct (staged_abs _ _ _ _ _ Hst Ha) as [Habs Hc].
  split; [exact Habs|].
  pose proof (run_format_script_cwd (Path.basename sf) sep w1) as H.
  rewrite Hf in H. cbn [snd] in H. congruence.
Qed.

Lemma clustered_abs input chi seed sep w sd ff kf w4 :
  clustered input chi seed sep w sd ff kf w4 -> Path.is_abs (cwd w) = true ->
  Path.is_abs sd = true /\ cwd w4 = sd.
Proof.
  intros (w3 & (w2 & Hf & Hw) & Hc) Ha.
  destruct (formatted_abs _ _ _ _ _ _ _ Hf Ha) as [Habs H2].
  split; [exact Habs|].
  pose proof (invoker_cwd "run_work_script"
                ["bash"; Path.join source_dir "work.sh"; Path.basename ff] true w2) as H3.
  unfold Gcm.run_work_script in Hw. rewrite Hw in H3. cbn [snd] in H3.
  pose proof (invoker_cwd "run_clustering"
                (clustering_argv chi seed (Path.basename ff)) true w3) as H4.
  unfold Gcm.run_clustering in Hc. rewrite Hc in H4. cbn [snd] in H4.
  congruence.
Qed.

(** The cleanup step, when nothing stands in its way. *)
Lemma cleanup_ok odir ofile iwd sd ff w :
  let rp := Path.join (cwd w) (Path.join sd ("partition_" +:+ Path.basename ff)) in
  let op := Path.join (cwd w) (Path.join odir ofile) in
  let home := Path.join (cwd w) iwd in
  let sp := Path.join home sd in
  OS.is_dir (fs w) home = true ->
  (OS.is_file (fs w) sp = true -> OS.is_dir (fs w) sp = true) ->
  OS.is_dir (fs w) rp = false ->
  (OS.is_file (fs w) rp = true ->
   OS.is_dir (fs w) op = false /\ OS.check_writable (fs w) op = Ok tt /\
   op <> rp /\ op <> sp) ->
  exists f,
    Gcm._exit_and_cleanup_scratch odir ofile iwd sd ff w
    = (Ok tt,
       mkWorld f home (rng_pos w)
         (trace w ++ Call cleanup_fn
            :: (if OS.is_file (fs w) rp then []
                else [Print "Error encountered, no result exists"])))
    /\ OS.is_dir f sp = false
    /\ (OS.is_dir (fs w) sp = true ->
        forall x, Path.under sp x = true -> OS.is_dir f x = false /\ files f !! x = None)
    /\ (OS.is_file (fs w) rp = true -> Path.under sp op = false ->
        files f !! op = files (fs w) !! rp)
    /\ (forall x, (OS.is_file (fs w) rp = true -> x <> op) -> Path.under sp x = false ->
                  files f !! x = files (fs w) !! x).
Proof.
  intros rp op home sp Hhome Hsd Hrp Hout.
  unfold Gcm._exit_and_cleanup_scratch, bind at 1, log at 1. cbv beta iota.
  rewrite (bind_ok _ _ _ _ _ (path_exists_eq _ _)). cbn [fs cwd].
  fold rp. unfold OS.exists_ at 1. rewrite Hrp. cbn [orb].
  destruct (OS.is_file (fs w) rp) eqn:Hf.
  - destruct (Hout eq_refl) as (Ho1 & Ho2 & Ho3 & Ho4).
    destruct (copy_ok (Path.join sd ("partition_" +:+ Path.basename ff))
                (Path.join odir ofile)
                (mkWorld (fs w) (cwd w) (rng_pos w) (trace w ++ [Call cleanup_fn])))
      as (c & Hc & Hcp); try assumption.
    cbn [fs cwd] in Hc. fold rp in Hc.
    rewrite (bind_ok _ _ _ _ _ Hcp). cbn [fs cwd rng_pos trace]. fold op.
    erewrite bind_ok by (apply chdir_ok; exact Hhome). cbn [fs cwd rng_pos trace]. fold home.
    rewrite (bind_ok _ _ _ _ _ (path_exists_eq _ _)). cbn [fs cwd]. fold sp.
    unfold OS.exists_.
    change (OS.is_dir (OS.write_file (fs w) op c) sp) with (OS.is_dir (fs w) sp).
    rewrite (is_file_write_other _ _ _ _ (not_eq_sym Ho4)).
    destruct (OS.is_dir (fs w) sp) eqn:Hd.
    + cbn [orb].
      destruct (rmtree_ok sd (mkWorld (OS.write_file (fs w) op c) home (rng_pos w)
                                (trace w ++ [Call cleanup_fn]))) as (f & Hr & H1 & H2 & H3).
      { exact Hd. }
      unfold OS.resolve in H1, H2, H3; cbn [cwd fs] in H1, H2, H3. fold sp in H1, H2, H3.
      exists f. split; [exact Hr|]. split; [exact H1|]. split; [intros _; exact H2|].
      split.
      * intros _ Ho5. rewrite (H3 _ Ho5). cbn [OS.write_file files].
        rewrite lookup_insert_eq. symmetry. exact Hc.
      * intros x Hx Hu. specialize (Hx eq_refl). rewrite (H3 _ Hu).
        cbn [OS.write_file files]. apply lookup_insert_ne. congruence.
    + destruct (OS.is_file (fs w) sp) eqn:Hfs; [specialize (Hsd eq_refl); discriminate|].
      cbn [orb]. unfold ret. eexists. split; [reflexivity|].
      split; [exact Hd|]. split; [discriminate|]. cbn [OS.write_file files]. split.
      * intros _ _. rewrite lookup_insert_eq. symmetry. exact Hc.
      * intros x Hx _. specialize (Hx eq_refl). apply lookup_insert_ne. congruence.
  - unfold bind at 1, print, log at 1. cbv beta iota.
    erewrite bind_ok by (apply chdir_ok; exact Hhome). cbn [fs cwd rng_pos trace]. fold home.
    rewrite (bind_ok _ _ _ _ _ (path_exists_eq _ _)). cbn [fs cwd]. fold sp.
    unfold OS.exists_. rewrite <- app_assoc. cbn [app].
    destruct (OS.is_dir (fs w) sp) eqn:Hd.
    + cbn [orb].
      destruct (rmtree_ok sd (mkWorld (fs w) home (rng_pos w)
                  (trace w ++ [Call cleanup_fn;
                               Print "Error encountered, no result exists"])))
        as (f & Hr & H1 & H2 & H3).
      { exact Hd. }
      unfold OS.resolve in H1, H2, H3; cbn [cwd fs] in H1, H2, H3. fold sp in H1, H2, H3.
      exists f. split; [exact Hr|].
      split; [exact H1|]. split; [intros _; exact H2|].
      split; [discriminate|]. intros x _ Hu. apply H3, Hu.
    + destruct (OS.is_file (fs w) sp) eqn:Hfs; [specialize (Hsd eq_refl); discriminate|].
      cbn [orb]. unfold ret. eexists.
      split; [reflexivity|]. split; [exact Hd|]. split; [discriminate|].
      split; [discriminate|reflexivity].
Qed.

Lemma gcm_try_bound input chi seed sep w l r wt sd ff :
  OS.is_dir (fs w) (cwd w) = true ->
  gcm_try (cwd w) input chi seed sep w = (l, r, wt) ->
  Gcm.scratch_directory l = Some sd -> Gcm.formatted_file l = Some ff ->
  exists kf w2,
    formatted input sep w sd ff kf w2
    /\ bind (run_work_script (Path.basename ff))
         (fun _ => bind (run_clustering (Path.basename ff) chi seed)
            (fun _ => Gcm.remap_partition_results kf ff)) w2 = (r, wt).
Proof.
  intros Hd. unfold Gcm.gcm_try.
  destruct (_setup_and_enter_scratch (cwd w) input w) as [[[sd' sf]|e] w1] eqn:Hs;
    [|intros [= <- _ _]; discriminate].
  destruct (run_format_script (Path.basename sf) sep w1) as [[[ff' kf]|e] w2] eqn:Hf;
    [|intros [= <- _ _] _; discriminate].
  destruct (bind _ _ w2) as [r' w3] eqn:Hr.
  intros [= <- <- <-]. cbn. intros [= <-] [= <-].
  exists kf, w2. split; [|exact Hr]. exists sf, w1. split; [split; assumption|exact Hf].
Qed.

Lemma result_path_abs sd ff c :
  Path.is_abs sd = true ->
  Path.join c (Path.join sd ("partition_" +:+ Path.basename ff))
  = Path.join sd ("partition_" +:+ Path.basename ff).
Proof.
  intros Ha. apply join_abs. rewrite is_abs_join; [exact Ha| |reflexivity].
  intros E. rewrite E in Ha. discriminate Ha.
Qed.

(** X15.  The guarantee of the [finally] block, with its conditions.  Let
    a run start in an absolute working directory and reach the end of its
    [try] suite with [scratch_directory] and [formatted_file] bound.  If
    the original working directory still exists, the scratch path is a
    directory or nothing, the result path is not a directory and, when a
    result file is there, the output path accepts it and lies outside the
    scratch directory, then [gcm] ends as its [try] suite did, with the
    working directory restored, the scratch directory and all below it
    removed, and the cleanup step entered exactly once. *)
Theorem gcm_cleanup_guarantee input chi seed odir ofile sep w l r wt sd ff :
  let rp := Path.join sd ("partition_" +:+ Path.basename ff) in
  let op := Path.join (cwd wt)
              (Path.join (or_default odir (cwd w))
                 (or_default ofile "clustering_output.txt")) in
  OS.is_dir (fs w) (cwd w) = true ->
  Path.is_abs (cwd w) = true ->
  gcm_try (cwd w) input chi seed sep w = (l, r, wt) ->
  Gcm.scratch_directory l = Some sd ->
  Gcm.formatted_file l = Some ff ->
  OS.is_dir (fs wt) (cwd w) = true ->
  (OS.is_file (fs wt) sd = true -> OS.is_dir (fs wt) sd = true) ->
  OS.is_dir (fs wt) rp = false ->
  (OS.is_file (fs wt) rp = true ->
   OS.is_dir (fs wt) op = false /\ OS.check_writable (fs wt) op = Ok tt /\
   op <> rp /\ op <> sd /\ Path.under sd op = false) ->
  exists wf,
    gcm input chi seed odir ofile sep w = (r, wf)
    /\ cwd wf = cwd w
    /\ OS.is_dir (fs wf) sd = false
    /\ (OS.is_dir (fs wt) sd = true ->
        forall x, Path.under sd x = true ->
                  OS.is_dir (fs wf) x = false /\ files (fs wf) !! x = None)
    /\ (OS.is_file (fs wt) rp = true -> files (fs wf) !! op = files (fs wt) !! rp)
    /\ calls cleanup_fn (trace wf) = S (calls cleanup_fn (trace w)).
Proof.
  intros rp op Hd Habs Ht Hsd Hff Hhome Hdir Hrp Hout.
  destruct (gcm_try_bound _ _ _ _ _ _ _ _ _ _ Hd Ht Hsd Hff) as (kf & w2 & Hf & Hr).
  destruct (formatted_abs _ _ _ _ _ _ _ Hf Habs) as [Hsabs _].
  pose proof (gcm_formatted_cleanup_once input chi seed odir ofile sep _ _ _ _ _ Hf) as Hcalls.
  rewrite (gcm_formatted _ chi seed odir ofile _ _ _ _ _ _ Hf) in Hcalls |- *.
  rewrite Hr in Hcalls |- *.
  pose proof (join_abs (cwd wt) (cwd w) Habs) as E1.
  pose proof (join_abs (cwd w) sd Hsabs) as E2.
  pose proof (result_path_abs sd ff (cwd wt) Hsabs) as E3.
  destruct (cleanup_ok (or_default odir (cwd w)) (or_default ofile "clustering_output.txt")
              (cwd w) sd ff wt) as (f & Hc & H1 & H2 & H3 & _).
  - rewrite E1. exact Hhome.
  - rewrite E1, E2. exact Hdir.
  - rewrite E3. exact Hrp.
  - rewrite E3, E1, E2. intros H. destruct (Hout H) as (? & ? & ? & ? & ?). auto.
  - rewrite E1 in Hc, H1, H2, H3. rewrite E2 in H1, H2, H3. rewrite E3 in Hc, H3.
    rewrite Hc in Hcalls |- *. cbn [finish snd] in Hcalls |- *.
    eexists. split; [reflexivity|]. cbn [fs cwd trace] in Hcalls |- *.
    split; [reflexivity|]. split; [exact H1|]. split; [exact H2|]. split; [|exact Hcalls].
    intros H. apply H3; [exact H|]. destruct (Hout H) as (_ & _ & _ & _ & Hu). exact Hu.
Qed.

(** *** The order of the stages *)

Lemma called_app a b : called (a ++ b) = called a ++ called b.
Proof. apply omap_app. Qed.

Lemma called_noncall evs : Forall noncall evs -> called evs = [].
Proof.
  induction 1 as [|e evs He _ IH]; [reflexivity|].
  destruct e; [contradiction He|exact IH..].
Qed.

Lemma enters_one {A} fn (rest : M A) w :
  emits noncall rest ->
  exists evs,
    trace (snd (bind (log (Call fn)) (fun _ => rest) w)) = trace w ++ evs
    /\ called evs = [fn].
Proof.
  intros H. unfold bind at 1, log at 1. cbv beta iota.
  destruct (H (mkWorld (fs w) (cwd w) (rng_pos w) (trace w ++ [Call fn]))) as (evs & E & F).
  exists (Call fn :: evs). rewrite E. cbn [trace]. rewrite <- app_assoc.
  split; [reflexivity|].
  change (called (Call fn :: evs)) with (fn :: called evs).
  rewrite (called_noncall _ F). reflexivity.
Qed.

Lemma enters_setup iwd input w :
  exists evs,
    trace (snd (_setup_and_enter_scratch iwd input w)) = trace w ++ evs
    /\ called evs = ["_setup_and_enter_scratch"].
Proof. eexists. split; [apply setup_trace|reflexivity]. Qed.

Lemma enters_format name sep w :
  exists evs,
    trace (snd (run_format_script name sep w)) = trace w ++ evs
    /\ called evs = ["run_format_script"].
Proof.
  apply enters_one. apply emits_bind; [|intros _; apply emits_lift].
  apply emits_invoke; intros; exact I.
Qed.

Lemma enters_work name w :
  exists evs,
    trace (snd (run_work_script name w)) = trace w ++ evs
    /\ called evs = ["run_work_script"].
Proof. apply enters_one, emits_invoke; intros; exact I. Qed.

Lemma enters_clustering name chi seed w :
  exists evs,
    trace (snd (run_clustering name chi seed w)) = trace w ++ evs
    /\ called evs = ["run_clustering"].
Proof. apply enters_one, emits_invoke; intros; exact I. Qed.

Lemma enters_remap kf ff w :
  exists evs,
    trace (snd (Gcm.remap_partition_results kf ff w)) = trace w ++ evs
    /\ called evs = ["remap_partition_results"].
Proof. eexists. split; [apply remap_trace|reflexivity]. Qed.

Lemma enters_cleanup odir ofile iwd sd ff w :
  exists evs,
    trace (snd (Gcm._exit_and_cleanup_scratch odir ofile iwd sd ff w)) = trace w ++ evs
    /\ called evs = [cleanup_fn].
Proof.
  apply enters_one.
  apply emits_bind; [auto with emits|intros found].
  apply emits_bind; [destruct found; auto with emits|intros _].
  apply emits_bind; [auto with emits|intros _].
  apply emits_bind; [auto with emits|intros found'].
  destruct found'; auto with emits.
Qed.

Lemma enters_then w w1 w2 e1 e2 n1 n2 :
  trace w1 = trace w ++ e1 -> called e1 = n1 ->
  trace w2 = trace w1 ++ e2 -> called e2 = n2 ->
  trace w2 = trace w ++ (e1 ++ e2) /\ called (e1 ++ e2) = n1 ++ n2.
Proof.
  intros E1 C1 E2 C2. rewrite E2, E1, app_assoc, called_app, C1, C2. auto.
Qed.

(** X16.  The functions a run of [gcm] enters, in order, are fixed by how
    far its [try] suite gets: none when [os.getcwd] fails; the staging
    alone when it raises; the staging and the formatting, and no cleanup,
    when [run_format_script] raises; and once [run_format_script] has
    returned, the stages up to the first one that raises (the first
    three when [run_work_script] raises, the first four when
    [run_clustering] raises, all five otherwise, however the remap ends),
    followed by the cleanup step.  So the cleanup step is entered exactly
    when [run_format_script] has returned, no stage is skipped or
    repeated, and nothing is entered after the cleanup step. *)
Theorem gcm_stage_order input chi seed odir ofile sep w :
  exists evs,
    trace (snd (gcm input chi seed odir ofile sep w)) = trace w ++ evs
    /\ called evs =
       if OS.is_dir (fs w) (cwd w) then
         match _setup_and_enter_scratch (cwd w) input w with
         | (Raise _, _) => take 1 stages
         | (Ok (_, sf), w1) =>
             match run_format_script (Path.basename sf) sep w1 with
             | (Raise _, _) => take 2 stages
             | (Ok (ff, _), w2) =>
                 match run_work_script (Path.basename ff) w2 with
                 | (Raise _, _) => take 3 stages ++ [cleanup_fn]
                 | (Ok _, w3) =>
                     match run_clustering (Path.basename ff) chi seed w3 with
                     | (Raise _, _) => take 4 stages ++ [cleanup_fn]
                     | (Ok _, _) => stages ++ [cleanup_fn]
                     end
                 end
             end
         end
       else [].
Proof.
  unfold Gcm.gcm, bind at 1, OS.getcwd.
  destruct (OS.is_dir (fs w) (cwd w)) eqn:Hd.
  2: { exists []. rewrite app_nil_r. split; reflexivity. }
  unfold Gcm.gcm_try.
  destruct (enters_setup (cwd w) input w) as (e1 & E1 & C1).
  destruct (_setup_and_enter_scratch (cwd w) input w) as [[[sd sf]|e] w1]; cbn [snd] in E1.
  2: { exists e1. split; [exact E1|exact C1]. }
  destruct (enters_format (Path.basename sf) sep w1) as (e2 & E2 & C2).
  destruct (run_format_script (Path.basename sf) sep w1) as [[[ff kf]|e] w2]; cbn [snd] in E2.
  2: { destruct (enters_then _ _ _ _ _ _ _ E1 C1 E2 C2) as [E C].
       exists (e1 ++ e2). split; [exact E|exact C]. }
  destruct (enters_then _ _ _ _ _ _ _ E1 C1 E2 C2) as [E12 C12]. clear E1 C1 E2 C2.
  unfold bind at 1.
  destruct (enters_work (Path.basename ff) w2) as (e3 & E3 & C3).
  destruct (run_work_script (Path.basename ff) w2) as [[[]|e] w3]; cbn [snd] in E3.
  2: { destruct (enters_then _ _ _ _ _ _ _ E12 C12 E3 C3) as [E C].
       rewrite snd_finish. cbn [Gcm.gcm_finally Gcm.scratch_directory Gcm.formatted_file].
       destruct (enters_cleanup (or_default odir (cwd w))
                   (or_default ofile "clustering_output.txt") (cwd w) sd ff w3)
         as (ec & Ec & Cc).
       destruct (enters_then _ _ _ _ _ _ _ E C Ec Cc) as [E' C'].
       eexists. split; [exact E'|exact C']. }
  destruct (enters_then _ _ _ _ _ _ _ E12 C12 E3 C3) as [E123 C123]. clear E12 C12 E3 C3.
  unfold bind at 1.
  destruct (enters_clustering (Path.basename ff) chi seed w3) as (e4 & E4 & C4).
  destruct (run_clustering (Path.basename ff) chi seed w3) as [[[]|e] w4]; cbn [snd] in E4.
  2: { destruct (enters_then _ _ _ _ _ _ _ E123 C123 E4 C4) as [E C].
       rewrite snd_finish. cbn [Gcm.gcm_finally Gcm.scratch_directory Gcm.formatted_file].
       destruct (enters_cleanup (or_default odir (cwd w))
                   (or_default ofile "clustering_output.txt") (cwd w) sd ff w4)
         as (ec & Ec & Cc).
       destruct (enters_then _ _ _ _ _ _ _ E C Ec Cc) as [E' C'].
       eexists. split; [exact E'|exact C']. }
  destruct (enters_then _ _ _ _ _ _ _ E123 C123 E4 C4) as [E1234 C1234].
  clear E123 C123 E4 C4.
  destruct (enters_remap kf ff w4) as (e5 & E5 & C5).
  destruct (Gcm.remap_partition_results kf ff w4) as [r w5]; cbn [snd] in E5.
  destruct (enters_then _ _ _ _ _ _ _ E1234 C1234 E5 C5) as [E C].
  rewrite snd_finish. cbn [Gcm.gcm_finally Gcm.scratch_directory Gcm.formatted_file].
  destruct (enters_cleanup (or_default odir (cwd w))
              (or_default ofile "clustering_output.txt") (cwd w) sd ff w5)
    as (ec & Ec & Cc).
  destruct (enters_then _ _ _ _ _ _ _ E C Ec Cc) as [E' C'].
  eexists. split; [exact E'|exact C'].
Qed.

(** *** Whole runs *)

Lemma remap_no_result kf ff w :
  OS.exists_ (fs w) (Path.join (cwd w) ("partition_" +:+ Path.basename ff)) = false ->
  Gcm.remap_partition_results kf ff w
  = (Raise FileNotFoundError, after w (fs w) [Call "remap_partition_results"]).
Proof.
  intros H. unfold Gcm.remap_partition_results, bind at 1, log at 1. cbv beta iota.
  unfold bind at 1, OS.open_read, OS.resolve. cbn [fs cwd].
  rewrite (read_file_missing _ _ H). reflexivity.
Qed.

Lemma gcm_clustered input chi seed odir ofile sep w sd ff kf w4 :
  clustered input chi seed sep w sd ff kf w4 ->
  gcm input chi seed odir ofile sep w =
    let '(r, w5) := Gcm.remap_partition_results kf ff w4 in
    finish r (Gcm._exit_and_cleanup_scratch (or_default odir (cwd w))
                (or_default ofile "clustering_output.txt") (cwd w) sd ff w5).
Proof.
  intros (w3 & (w2 & Hf & Hw) & Hc).
  rewrite (gcm_formatted _ _ _ _ _ _ _ _ _ _ _ Hf).
  rewrite (bind_ok _ _ _ _ _ Hw), (bind_ok _ _ _ _ _ Hc). reflexivity.
Qed.

Lemma is_file_write_same f p c : OS.is_file f p = true -> OS.is_file (OS.write_file f p c) p = true.
Proof.
  unfold OS.is_file, OS.write_file. cbn [files]. intros H.
  apply andb_true_iff in H as [_ ->]. rewrite lookup_insert_eq.
  rewrite bool_decide_eq_true_2 by eauto. reflexivity.
Qed.

Lemma is_file_write_existing f p c x :
  OS.is_file f p = true -> OS.is_file (OS.write_file f p c) x = OS.is_file f x.
Proof.
  intros H. destruct (decide (x = p)) as [->|Hne].
  - rewrite H. apply is_file_write_same, H.
  - apply is_file_write_other, Hne.
Qed.

Lemma check_writable_write_existing f p c x :
  OS.is_file f p = true ->
  OS.check_writable (OS.write_file f p c) x = OS.check_writable f x.
Proof.
  intros H. unfold OS.check_writable.
  rewrite !(is_file_write_existing f p c _ H). reflexivity.
Qed.

(** X17.  A run whose clustering step has returned without leaving an
    assignment file: the remap raises [FileNotFoundError], the cleanup step
    prints that no result exists and publishes nothing, restores the
    working directory and removes the scratch directory, and the
    [FileNotFoundError] leaves [gcm]. *)
Theorem gcm_without_result input chi seed odir ofile sep w sd ff kf w4 :
  clustered input chi seed sep w sd ff kf w4 ->
  Path.is_abs (cwd w) = true ->
  OS.exists_ (fs w4) (Path.join sd ("partition_" +:+ Path.basename ff)) = false ->
  OS.is_dir (fs w4) (cwd w) = true ->
  OS.is_dir (fs w4) sd = true ->
  exists f,
    gcm input chi seed odir ofile sep w
    = (Raise FileNotFoundError,
       mkWorld f (cwd w) (rng_pos w4)
         (trace w4 ++ [Call "remap_partition_results"; Call cleanup_fn;
                       Print "Error encountered, no result exists"]))
    /\ OS.is_dir f sd = false
    /\ (forall x, Path.under sd x = true -> OS.is_dir f x = false /\ files f !! x = None)
    /\ (forall x, Path.under sd x = false -> files f !! x = files (fs w4) !! x).
Proof.
  intros Hcl Habs Hno Hhome Hdir.
  destruct (clustered_abs _ _ _ _ _ _ _ _ _ Hcl Habs) as [Hsabs Hc4].
  rewrite (gcm_clustered _ _ _ odir ofile _ _ _ _ _ _ Hcl).
  rewrite remap_no_result by (rewrite Hc4; exact Hno).
  pose proof (join_abs sd (cwd w) Habs) as E1.
  pose proof (join_abs (cwd w) sd Hsabs) as E2.
  pose proof (result_path_abs sd ff sd Hsabs) as E3.
  apply orb_false_elim in Hno as [Hnd Hnf].
  destruct (cleanup_ok (or_default odir (cwd w)) (or_default ofile "clustering_output.txt")
              (cwd w) sd ff (after w4 (fs w4) [Call "remap_partition_results"]))
    as (f & Hc & H1 & H2 & _ & H4); cbn [after fs cwd rng_pos trace] in *.
  - rewrite Hc4, E1. exact Hhome.
  - rewrite Hc4, E1, E2. intros _. exact Hdir.
  - rewrite Hc4, E3. exact Hnd.
  - rewrite Hc4, E3, Hnf. discriminate.
  - rewrite Hc4, E1, E2, E3 in *. rewrite Hnf in Hc. rewrite Hc. cbn [finish].
    exists f. rewrite <- app_assoc. split; [reflexivity|].
    split; [exact H1|]. split; [exact (H2 Hdir)|].
    intros x Hx. apply H4; [rewrite Hnf; discriminate|exact Hx].
Qed.

(** A run whose remap succeeds and whose cleanup meets no obstacle. *)
Lemma gcm_completes input chi seed odir ofile sep w sd ff kf w4 ptext ktext vs m :
  let rp := Path.join sd ("partition_" +:+ Path.basename ff) in
  let op := Path.join sd (Path.join (or_default odir (cwd w))
                            (or_default ofile "clustering_output.txt")) in
  clustered input chi seed sep w sd ff kf w4 ->
  Path.is_abs (cwd w) = true ->
  OS.read_file (fs w4) rp = Ok ptext ->
  labels_of (Py.lines (Py.universal_newlines ptext)) vs ->
  OS.read_file (fs w4) (Path.join sd kf) = Ok ktext ->
  Gcm.load_mappings (Py.lines (Py.universal_newlines ktext)) ∅ = Ok m ->
  (forall i, 1 <= i <= Z.of_nat (length vs) -> is_Some (m !! i)) ->
  OS.is_dir (fs w4) (cwd w) = true ->
  OS.is_dir (fs w4) sd = true ->
  OS.is_dir (fs w4) op = false ->
  OS.check_writable (fs w4) op = Ok tt ->
  op <> rp ->
  exists f,
    gcm input chi seed odir ofile sep w
    = (Ok tt,
       mkWorld f (cwd w) (rng_pos w4)
         (trace w4 ++ [Call "remap_partition_results"; Call cleanup_fn]))
    /\ OS.is_dir f sd = false
    /\ (forall x, Path.under sd x = true -> OS.is_dir f x = false /\ files f !! x = None)
    /\ (Path.under sd op = false -> files f !! op = Some (remapped_text m 1 vs))
    /\ (forall x, x <> op -> x <> rp -> Path.under sd x = false ->
                  files f !! x = files (fs w4) !! x).
Proof.
  intros rp op Hcl Habs Hp Hl Hk Hm Hall Hhome Hdir Hod How Hne.
  destruct (clustered_abs _ _ _ _ _ _ _ _ _ Hcl Habs) as [Hsabs Hc4].
  rewrite (gcm_clustered _ _ _ odir ofile _ _ _ _ _ _ Hcl).
  rewrite (remap_all_known kf ff w4 ptext ktext vs m)
    by (rewrite ?Hc4; assumption).
  rewrite Hc4. fold rp.
  pose proof (join_abs sd (cwd w) Habs) as E1.
  pose proof (join_abs (cwd w) sd Hsabs) as E2.
  pose proof (result_path_abs sd ff sd Hsabs) as E3. fold rp in E3.
  destruct (read_file_ok _ _ _ Hp) as (Hrd & Hrf & _).
  pose proof (is_file_write_same (fs w4) rp (remapped_text m 1 vs) Hrf) as Hrf'.
  destruct (cleanup_ok (or_default odir (cwd w)) (or_default ofile "clustering_output.txt")
              (cwd w) sd ff
              (after w4 (OS.write_file (fs w4) rp (remapped_text m 1 vs))
                 [Call "remap_partition_results"]))
    as (f & Hc & H1 & H2 & H3 & H4); cbn [after fs cwd rng_pos trace] in *.
  - rewrite Hc4, E1. exact Hhome.
  - rewrite Hc4, E1, E2. intros _. exact Hdir.
  - rewrite Hc4. fold rp. rewrite E3. exact Hrd.
  - rewrite Hc4. fold rp op. rewrite E1, E2, E3. intros _.
    split; [exact Hod|]. split; [|split; [exact Hne|]].
    + rewrite check_writable_write_existing by exact Hrf. exact How.
    + intros E. rewrite E in Hod. unfold OS.is_dir in Hod, Hdir.
      cbn [OS.write_file dirs] in Hod. congruence.
  - rewrite Hc4 in Hc, H1, H2, H3, H4. fold rp op in Hc, H2, H3, H4.
    rewrite E1 in Hc, H1, H2, H3, H4. rewrite E2 in H1, H2, H3, H4.
    rewrite E3 in Hc, H3, H4. rewrite Hrf' in Hc, H3, H4.
    rewrite Hc. cbn [finish]. exists f. rewrite <- app_assoc. split; [reflexivity|].
    split; [exact H1|]. split; [exact (H2 Hdir)|]. split.
    + intros Hu. rewrite (H3 eq_refl Hu). cbn [OS.write_file files].
      apply lookup_insert_eq.
    + intros x Hxo Hxr Hu. rewrite (H4 x (fun _ => Hxo) Hu). cbn [OS.write_file files].
      apply lookup_insert_ne. congruence.
Qed.

(** X18.  A whole run that succeeds.  After a clustering that left an
    assignment file of integers and a key file covering the Dense IDs, with
    the scratch directory and the original working directory still there
    and an output path outside the scratch directory that accepts a file,
    [gcm] returns normally: the output file holds the remapped assignment
    (label of Dense ID i, a space, cluster of line i), the working
    directory is the original one, the scratch directory and all below it
    are gone, no other file outside it has changed, and after the
    clustering only the remap and the cleanup step were entered. *)
Theorem gcm_publishes_remapped_result
  input chi seed odir ofile sep w sd ff kf w4 ptext ktext vs m :
  let rp := Path.join sd ("partition_" +:+ Path.basename ff) in
  let op := Path.join sd (Path.join (or_default odir (cwd w))
                            (or_default ofile "clustering_output.txt")) in
  clustered input chi seed sep w sd ff kf w4 ->
  Path.is_abs (cwd w) = true ->
  OS.read_file (fs w4) rp = Ok ptext ->
  labels_of (Py.lines (Py.universal_newlines ptext)) vs ->
  OS.read_file (fs w4) (Path.join sd kf) = Ok ktext ->
  Gcm.load_mappings (Py.lines (Py.universal_newlines ktext)) ∅ = Ok m ->
  (forall i, 1 <= i <= Z.of_nat (length vs) -> is_Some (m !! i)) ->
  OS.is_dir (fs w4) (cwd w) = true ->
  OS.is_dir (fs w4) sd = true ->
  OS.is_dir (fs w4) op = false ->
  OS.check_writable (fs w4) op = Ok tt ->
  op <> rp ->
  Path.under sd op = false ->
  exists wf,
    gcm input chi seed odir ofile sep w = (Ok tt, wf)
    /\ cwd wf = cwd w
    /\ trace wf = trace w4 ++ [Call "remap_partition_results"; Call cleanup_fn]
    /\ files (fs wf) !! op = Some (remapped_text m 1 vs)
    /\ OS.is_dir (fs wf) sd = false
    /\ (forall x, Path.under sd x = true ->
                  OS.is_dir (fs wf) x = false /\ files (fs wf) !! x = None)
    /\ (forall x, x <> op -> x <> rp -> Path.under sd x = false ->
                  files (fs wf) !! x = files (fs w4) !! x).
Proof.
  intros rp op Hcl Habs Hp Hl Hk Hm Hall Hhome Hdir Hod How Hne Hu.
  destruct (gcm_completes input chi seed odir ofile sep w sd ff kf w4 ptext ktext vs m
              Hcl Habs Hp Hl Hk Hm Hall Hhome Hdir Hod How Hne)
    as (f & Hg & H1 & H2 & H3 & H4).
  eexists. split; [exact Hg|]. cbn [fs cwd trace].
  split; [reflexivity|]. split; [reflexivity|]. split; [exact (H3 Hu)|].
  split; [exact H1|]. split; [exact H2|exact H4].
Qed.

(** X19.  An output path that resolves below the scratch directory, as a
    relative [output_dir] does because the cleanup step resolves it while
    the scratch directory is still the working directory: the run returns
    normally, yet the result copied there is removed with the scratch
    directory, the output file does not exist afterwards, and no file
    outside the scratch directory has changed. *)
Theorem gcm_relative_output_is_lost
  input chi seed odir ofile sep w sd ff kf w4 ptext ktext vs m :
  let rp := Path.join sd ("partition_" +:+ Path.basename ff) in
  let op := Path.join sd (Path.join (or_default odir (cwd w))
                            (or_default ofile "clustering_output.txt")) in
  clustered input chi seed sep w sd ff kf w4 ->
  Path.is_abs (cwd w) = true ->
  OS.read_file (fs w4) rp = Ok ptext ->
  labels_of (Py.lines (Py.universal_newlines ptext)) vs ->
  OS.read_file (fs w4) (Path.join sd kf) = Ok ktext ->
  Gcm.load_mappings (Py.lines (Py.universal_newlines ktext)) ∅ = Ok m ->
  (forall i, 1 <= i <= Z.of_nat (length vs) -> is_Some (m !! i)) ->
  OS.is_dir (fs w4) (cwd w) = true ->
  OS.is_dir (fs w4) sd = true ->
  OS.is_dir (fs w4) op = false ->
  OS.check_writable (fs w4) op = Ok tt ->
  op <> rp ->
  Path.under sd op = true ->
  exists wf,
    gcm input chi seed odir ofile sep w = (Ok tt, wf)
    /\ cwd wf = cwd w
    /\ files (fs wf) !! op = None
    /\ (forall x, x <> rp -> Path.under sd x = false ->
                  files (fs wf) !! x = files (fs w4) !! x).
Proof.
  intros rp op Hcl Habs Hp Hl Hk Hm Hall Hhome Hdir Hod How Hne Hu.
  destruct (gcm_completes input chi seed odir ofile sep w sd ff kf w4 ptext ktext vs m
              Hcl Habs Hp Hl Hk Hm Hall Hhome Hdir Hod How Hne)
    as (f & Hg & H1 & H2 & H3 & H4).
  eexists. split; [exact Hg|]. cbn [fs cwd].
  split; [reflexivity|]. split; [apply (H2 _ Hu)|].
  intros x Hxr Hx. apply H4; [|exact Hxr|exact Hx].
  intros E. rewrite E in Hx. unfold op in Hu. rewrite Hu in Hx. discriminate Hx.
Qed.

(** *** External failures and the end of the run *)

Lemma invoker_returns fn argv check w :
  fst (exec argv (cwd w) (fs w)) <> Denied ->
  exists w',
    bind (log (Call fn)) (fun _ => subprocess_context (subprocess_run argv check)) w
    = (Ok tt, w').
Proof.
  intros H. unfold bind at 1, log at 1. cbv beta iota. rewrite invoke_spec.
  cbn [fs cwd] in *.
  destruct (exec argv (cwd w) (fs w)) as [[code| | |] f];
    [destruct (check && negb (Z.eqb code 0))|..];
    cbn [fst] in H; try congruence; eexists; reflexivity.
Qed.

Lemma staged_clustered input chi seed sep w sd sf w1 :
  staged input w sd sf w1 ->
  (forall argv c f, fst (exec argv c f) <> Denied) ->
  exists ff kf w4, clustered input chi seed sep w sd ff kf w4.
Proof.
  intros Hst Hnd.
  destruct (staged_formatted input sep w sd sf w1 Hst Hnd) as (ff & kf & w2 & Hf).
  destruct (invoker_returns "run_work_script"
              ["bash"; Path.join source_dir "work.sh"; Path.basename ff] true w2)
    as (w3 & Hw); [apply Hnd|].
  destruct (invoker_returns "run_clustering"
              (clustering_argv chi seed (Path.basename ff)) true w3)
    as (w4 & Hc); [apply Hnd|].
  exists ff, kf, w4, w3. split; [|exact Hc]. exists w2. split; [exact Hf|exact Hw].
Qed.

(** C8, as the code has it.  At every external step the three kinds of
    failure that [subprocess_context] names (executable not found,
    non-zero exit of a checked step, timeout) end inside the invoker: the
    guarded invocation, and with it [run_work_script] and
    [run_clustering], returns normally after printing one diagnostic, and
    [run_format_script] goes on to return the two file names.  A run that
    was staged and whose external steps end in no other way goes through
    all its stages and enters the cleanup step exactly once.  The run is
    not thereby kept from ending with an exception: the stages after a
    failed step still run, and when the clustering step has returned
    without an assignment file on disk, the remap raises
    [FileNotFoundError], and [gcm] ends with it (or with the exception of
    the cleanup step, should that raise): [gcm] raises. *)
Theorem external_failures_are_caught input chi seed odir ofile sep w sd sf w1 :
  staged input w sd sf w1 ->
  (forall argv c f, fst (exec argv c f) <> Denied) ->
  (forall argv check w' e,
     Gcm.failure_kind (fst (exec argv (cwd w') (fs w'))) check = Some e ->
     exists f,
       subprocess_context (subprocess_run argv check) w'
       = (Ok tt, after w' f [Spawn argv check; Print (diagnostic e)]))
  /\ (forall name w' e,
        let argv := ["bash"; Path.join source_dir "work.sh"; name] in
        Gcm.failure_kind (fst (exec argv (cwd w') (fs w'))) true = Some e ->
        exists f,
          run_work_script name w'
          = (Ok tt, after w' f [Call "run_work_script"; Spawn argv true;
                                Print (diagnostic e)]))
  /\ (forall name chi' seed' w' e,
        let argv := clustering_argv chi' seed' name in
        Gcm.failure_kind (fst (exec argv (cwd w') (fs w'))) true = Some e ->
        exists f,
          run_clustering name chi' seed' w'
          = (Ok tt, after w' f [Call "run_clustering"; Spawn argv true;
                                Print (diagnostic e)]))
  /\ (forall name sep' w' e,
        let argv := ["python"; Path.join source_dir "format_edgelist.py"; name;
                     "--sep"; or_default sep' "space"] in
        Gcm.failure_kind (fst (exec argv (cwd w') (fs w'))) false = Some e ->
        exists f,
          run_format_script name sep' w'
          = (Gcm.format_names name,
             after w' f [Call "run_format_script"; Spawn argv false;
                         Print (diagnostic e)]))
  /\ calls cleanup_fn (trace (snd (gcm input chi seed odir ofile sep w)))
     = S (calls cleanup_fn (trace w))
  /\ (exists ff kf w4, clustered input chi seed sep w sd ff kf w4)
  /\ (forall ff kf w4,
        clustered input chi seed sep w sd ff kf w4 ->
        OS.exists_ (fs w4) (Path.join (cwd w4) ("partition_" +:+ Path.basename ff))
        = false ->
        gcm input chi seed odir ofile sep w
        = finish (Raise FileNotFoundError)
            (Gcm._exit_and_cleanup_scratch (or_default odir (cwd w))
               (or_default ofile "clustering_output.txt") (cwd w) sd ff
               (after w4 (fs w4) [Call "remap_partition_results"]))
        /\ exists e, fst (gcm input chi seed odir ofile sep w) = Raise e).
Proof.
  intros Hst Hnd.
  split; [|split; [|split; [|split; [|split; [|split]]]]].
  - intros argv check w' e. apply invoke_caught.
  - intros name w' e argv. apply invoker_caught.
  - intros name chi' seed' w' e argv. apply invoker_caught.
  - intros name sep' w' e argv H. unfold Gcm.run_format_script.
    destruct (invoker_caught "run_format_script" argv false w' e H) as (f & Hf).
    exists f. subst argv.
    rewrite <- (bind_assoc (log (Call "run_format_script")) _
                  (fun _ => lift (Gcm.format_names name)) w').
    rewrite (bind_ok _ _ _ _ _ Hf). reflexivity.
  - destruct (staged_formatted input sep w sd sf w1 Hst Hnd) as (ff & kf & w2 & Hf).
    eapply gcm_formatted_cleanup_once, Hf.
  - apply (staged_clustered input chi seed sep w sd sf w1 Hst Hnd).
  - intros ff kf w4 Hcl Hno.
    rewrite (gcm_clustered _ _ _ odir ofile _ _ _ _ _ _ Hcl).
    rewrite (remap_no_result _ _ _ Hno). split; [reflexivity|].
    destruct (Gcm._exit_and_cleanup_scratch _ _ _ _ _ _) as [[[]|e] wf]; cbn [finish fst];
      eexists; reflexivity.
Qed.

End ScriptFacts.

(** ** The theorems at work on concrete runs *)

(** The run of "missing.txt": the scratch directory is made, the copy of
    the input fails, and [gcm] raises [UnboundLocalError]. *)
Lemma gcm_staging_failure_unbound_witness :
  fst (Demo.gcm (Demo.exec Demo.key3 (Some Demo.part3) 0) "missing.txt" None)
  = Raise (UnboundLocalError "scratch_directory").
Proof.
  destruct (gcm_staging_failure_unbound "/opt/gcm" (Demo.exec Demo.key3 (Some Demo.part3) 0)
              Demo.draw Z Demo.str_float Demo.str_exc "missing.txt" 0 12345 None None None
              Demo.w0 FileNotFoundError
              (snd (Gcm._setup_and_enter_scratch Demo.draw "/home/u" "missing.txt" Demo.w0)))
    as (H & _).
  - vm_compute. reflexivity.
  - vm_compute. reflexivity.
  - unfold Demo.gcm. rewrite H. reflexivity.
Defined.

Ltac by_running := vm_compute; reflexivity.

Ltac demo_labels :=
  unfold labels_of;
  repeat (constructor; [by_running|]); constructor.

Ltac demo_staged := split; by_running.

Ltac demo_formatted :=
  exists Demo.sf, Demo.w1; split; [demo_staged|by_running].

Ltac demo_prepared ex :=
  exists (Demo.w2 ex); split; [demo_formatted|by_running].

Ltac demo_clustered ex :=
  exists (Demo.w3 ex); split; [demo_prepared ex|by_running].


(** A run in which every external program is missing: each invoker prints
    its diagnostic and returns, the cleanup step is entered once, and
    [gcm] ends with an exception. *)
Lemma external_failures_are_caught_witness :
  calls cleanup_fn (trace (snd (Demo.gcm Demo.exec_missing "graph.txt" None))) = 1%nat
  /\ exists e, fst (Demo.gcm Demo.exec_missing "graph.txt" None) = Raise e.
Proof.
  destruct (external_failures_are_caught "/opt/gcm" Demo.exec_missing Demo.draw Z
              Demo.str_float Demo.str_exc "graph.txt" 0 12345 None None None
              Demo.w0 Demo.sd Demo.sf Demo.w1) as (_ & _ & _ & _ & H & _ & Hr).
  - demo_staged.
  - intros argv c f. discriminate.
  - split; [exact H|].
    destruct (Hr Demo.ff Demo.kf (Demo.w4 Demo.exec_missing)) as [_ He].
    + demo_clustered Demo.exec_missing.
    + by_running.
    + exact He.
Defined.

(** A run in which the clustering binary exits with status 1 and writes
    nothing: [run_clustering] returns normally and the remap stage is
    entered. *)
Lemma nonzero_clustering_exit_continues_witness :
  Gcm.run_clustering "/opt/gcm" (Demo.exec Demo.key3 None 1) Z Demo.str_float
    Demo.str_exc "graph_formatted.txt" 0 12345 (Demo.w3 (Demo.exec Demo.key3 None 1))
  = (Ok tt, Demo.w4 (Demo.exec Demo.key3 None 1))
  /\ exists post,
       trace (snd (Demo.gcm (Demo.exec Demo.key3 None 1) "graph.txt" None))
       = trace (Demo.w4 (Demo.exec Demo.key3 None 1))
         ++ Call "remap_partition_results" :: Call cleanup_fn :: post.
Proof.
  apply (nonzero_clustering_exit_continues "/opt/gcm" (Demo.exec Demo.key3 None 1)
           Demo.draw Z Demo.str_float Demo.str_exc "graph.txt" 0 12345 None None None
           Demo.w0 Demo.sd Demo.ff Demo.kf (Demo.w3 (Demo.exec Demo.key3 None 1)) 1
           (fs (Demo.w3 (Demo.exec Demo.key3 None 1)))).
  - demo_prepared (Demo.exec Demo.key3 None 1).
  - by_running.
  - discriminate.
Defined.

(** A run whose key file holds the line "onlyonefield": the remap stage
    raises [ValueError], the cleanup step is entered once, and the error
    leaves [gcm]. *)
Lemma remap_failure_still_cleans_up_witness :
  fst (Demo.gcm (Demo.exec "onlyonefield" (Some Demo.part3) 0) "graph.txt" None)
  = Raise ValueError
  /\ calls cleanup_fn
       (trace (snd (Demo.gcm (Demo.exec "onlyonefield" (Some Demo.part3) 0)
                      "graph.txt" None))) = 1%nat.
Proof.
  destruct (remap_failure_still_cleans_up "/opt/gcm"
              (Demo.exec "onlyonefield" (Some Demo.part3) 0)
              Demo.draw Z Demo.str_float Demo.str_exc "graph.txt" 0 12345 None None None
              Demo.w0 Demo.sd Demo.ff Demo.kf
              (Demo.w4 (Demo.exec "onlyonefield" (Some Demo.part3) 0)) ValueError
              (Demo.w5 (Demo.exec "onlyonefield" (Some Demo.part3) 0)))
    as (H1 & H2 & _).
  - demo_clustered (Demo.exec "onlyonefield" (Some Demo.part3) 0).
  - by_running.
  - split; [|exact H2]. unfold Demo.gcm. rewrite H1. by_running.
Defined.

(** The scratch directory after a clustering that wrote "0", "1", "0",
    with the key file "10 1", "20 2", "30 3": the remap writes "10 0",
    "20 1", "30 0". *)
Lemma remap_rewrites_in_dense_id_order_witness :
  Gcm.remap_partition_results Demo.kf Demo.ff (Demo.w4 Demo.good)
  = (Ok tt,
     after (Demo.w4 Demo.good)
       (OS.write_file (fs (Demo.w4 Demo.good)) Demo.result_path
          ("10 0" +:+ nl +:+ "20 1" +:+ nl +:+ "30 0" +:+ nl))
       [Call "remap_partition_results"]).
Proof.
  apply (remap_rewrites_in_dense_id_order Demo.kf Demo.ff (Demo.w4 Demo.good)
           Demo.part3 Demo.key3 [0; 1; 0] Demo.m3).
  - by_running.
  - demo_labels.
  - by_running.
  - by_running.
  - intros i Hi. cbn [length] in Hi.
    assert (i = 1 \/ i = 2 \/ i = 3) as [ -> | [ -> | -> ] ] by (clear - Hi; lia);
      eexists; by_running.
Defined.

(** The key file "onlyonefield": loading fails and the remap raises
    [ValueError] with the file system untouched. *)
Lemma key_store_load_fails_iff_witness :
  Gcm.remap_partition_results Demo.kf Demo.ff
    (Demo.w4 (Demo.exec "onlyonefield" (Some Demo.part3) 0))
  = (Raise ValueError,
     after (Demo.w4 (Demo.exec "onlyonefield" (Some Demo.part3) 0))
       (fs (Demo.w4 (Demo.exec "onlyonefield" (Some Demo.part3) 0)))
       [Call "remap_partition_results"]).
Proof.
  destruct (key_store_load_fails_iff Demo.kf Demo.ff
              (Demo.w4 (Demo.exec "onlyonefield" (Some Demo.part3) 0))
              Demo.part3 "onlyonefield" [0; 1; 0]) as (_ & _ & _ & H).
  - by_running.
  - demo_labels.
  - by_running.
  - apply H. left. intros (a & b & za & zb & Hs & _). vm_compute in Hs. discriminate Hs.
Defined.

(** Four lines in the assignment file, three entries in the key store:
    the remap raises [KeyError] for Dense ID 4. *)
Lemma remap_unknown_dense_id_witness :
  fst (Gcm.remap_partition_results Demo.kf Demo.ff
         (Demo.w4 (Demo.exec Demo.key3 (Some Demo.part4) 0)))
  = Raise (KeyError 4).
Proof.
  destruct (remap_unknown_dense_id Demo.kf Demo.ff
              (Demo.w4 (Demo.exec Demo.key3 (Some Demo.part4) 0))
              Demo.part4 Demo.key3 [0; 1; 0; 1] Demo.m3) as (H & _).
  - by_running.
  - demo_labels.
  - by_running.
  - by_running.
  - destruct H as (k & Hk & Hn & _ & Heq).
    + exists 4. split; [cbn; lia|by_running].
    + cbn [length] in Hk.
      assert (k = 1 \/ k = 2 \/ k = 3 \/ k = 4) as [ -> | [ -> | [ -> | -> ] ] ]
        by (clear - Hk; lia);
        try (vm_compute in Hn; discriminate Hn).
      rewrite Heq. reflexivity.
Defined.

(** The cleanup step after a complete run, and after a run whose
    clustering wrote nothing. *)
Lemma exit_and_cleanup_publishes_witness :
  (exists w',
     Gcm._exit_and_cleanup_scratch "/out" "clustering_output.txt" "/home/u" Demo.sd
       Demo.ff (Demo.w5 Demo.good) = (Ok tt, w')
     /\ cwd w' = "/home/u" /\ OS.is_dir (fs w') Demo.sd = false
     /\ files (fs w') !! "/out/clustering_output.txt"
        = Some ("10 0" +:+ nl +:+ "20 1" +:+ nl +:+ "30 0" +:+ nl))
  /\ (exists w',
        Gcm._exit_and_cleanup_scratch "/out" "clustering_output.txt" "/home/u" Demo.sd
          Demo.ff (Demo.w5 (Demo.exec Demo.key3 None 1)) = (Ok tt, w')
        /\ cwd w' = "/home/u" /\ OS.is_dir (fs w') Demo.sd = false
        /\ trace w' = trace (Demo.w5 (Demo.exec Demo.key3 None 1))
                      ++ [Call cleanup_fn; Print "Error encountered, no result exists"]).
Proof.
  split.
  - destruct (exit_and_cleanup_publishes "/out" "clustering_output.txt" "/home/u" Demo.sd
                Demo.ff (Demo.w5 Demo.good)) as (w' & H1 & H2 & H3 & _ & H5).
    + by_running.
    + intros _. by_running.
    + by_running.
    + intros _. split; [by_running|]. split; [by_running|].
      split; [vm_compute; intros H; discriminate H|].
      split; [vm_compute; intros H; discriminate H|by_running].
    + exists w'. split; [exact H1|]. split; [rewrite H2; by_running|].
      split; [exact H3|].
      assert (OS.is_file (fs (Demo.w5 Demo.good)) Demo.result_path = true) as E by by_running.
      assert (Path.join (cwd (Demo.w5 Demo.good))
                (Path.join Demo.sd ("partition_" +:+ Path.basename Demo.ff)) = Demo.result_path)
        as E1 by by_running.
      assert (Path.join (cwd (Demo.w5 Demo.good)) (Path.join "/out" "clustering_output.txt")
              = "/out/clustering_output.txt") as E2 by by_running.
      rewrite E1, E2, E in H5. destruct H5 as [_ H5].
      rewrite H5. by_running.
  - destruct (exit_and_cleanup_publishes "/out" "clustering_output.txt" "/home/u" Demo.sd
                Demo.ff (Demo.w5 (Demo.exec Demo.key3 None 1)))
      as (w' & H1 & H2 & H3 & _ & H5).
    + by_running.
    + intros _. by_running.
    + by_running.
    + intros H. vm_compute in H. discriminate H.
    + exists w'. split; [exact H1|]. split; [rewrite H2; by_running|].
      split; [exact H3|].
      assert (Path.join (cwd (Demo.w5 (Demo.exec Demo.key3 None 1)))
                (Path.join Demo.sd ("partition_" +:+ Path.basename Demo.ff)) = Demo.result_path)
        as E1 by by_running.
      assert (OS.is_file (fs (Demo.w5 (Demo.exec Demo.key3 None 1))) Demo.result_path = false)
        as E by by_running.
      rewrite E1, E in H5. destruct H5 as [H5 _]. exact H5.
Defined.

(** ** Where the code departs from the specification *)

(** C1.  The specification asks that every run in which staging succeeds
    ends with the working directory restored and the scratch directory
    removed.  On a complete run whose output directory "/missing" does
    not exist the code does not: staging succeeds, all stages return, the
    cleanup step is entered once, its [shutil.copy] raises
    [FileNotFoundError] before [os.chdir] and [shutil.rmtree] are reached,
    and [gcm] returns to its caller with the working directory still the
    scratch directory and the scratch directory still on disk. *)
Theorem publish_failure_leaves_scratch :
  Gcm.staged Demo.draw "graph.txt" Demo.w0 Demo.sd Demo.sf Demo.w1
  /\ OS.is_dir (fs Demo.w0) "/missing" = false
  /\ fst (Demo.gcm Demo.good "graph.txt" (Some "/missing")) = Raise FileNotFoundError
  /\ calls cleanup_fn (trace (snd (Demo.gcm Demo.good "graph.txt" (Some "/missing"))))
     = 1%nat
  /\ cwd (snd (Demo.gcm Demo.good "graph.txt" (Some "/missing"))) = Demo.sd
  /\ OS.is_dir (fs (snd (Demo.gcm Demo.good "graph.txt" (Some "/missing")))) Demo.sd
     = true.
Proof.
  split; [demo_staged|]. repeat (split; [by_running|]). by_running.
Qed.

(** C2 as stated fails: with the key file "A 1", "B 2", "C 3" (the key
    store 1 to A, 2 to B, 3 to C) and the assignment "0", "1", "0", the
    remap raises [ValueError] at [int("A")] and leaves the assignment file
    as it was, instead of writing "A 0", "B 1", "C 0". *)
Lemma remap_letter_labels_counterexample :
  OS.read_file (fs (Demo.w4 Demo.letters)) (Path.join (cwd (Demo.w4 Demo.letters)) Demo.kf)
  = Ok Demo.keyABC
  /\ OS.read_file (fs (Demo.w4 Demo.letters)) Demo.result_path = Ok Demo.part3
  /\ Gcm.remap_partition_results Demo.kf Demo.ff (Demo.w4 Demo.letters)
     = (Raise ValueError,
        after (Demo.w4 Demo.letters) (fs (Demo.w4 Demo.letters))
          [Call "remap_partition_results"])
  /\ files (fs (snd (Gcm.remap_partition_results Demo.kf Demo.ff (Demo.w4 Demo.letters))))
       !! Demo.result_path
     <> Some ("A 0" +:+ nl +:+ "B 1" +:+ nl +:+ "C 0" +:+ nl).
Proof.
  repeat (split; [by_running|]). vm_compute. intros H. discriminate H.
Qed.

(** C3 as stated fails: the line "A 1" splits into exactly two tokens and
    its second token is the integer 1, yet loading the key store raises
    [ValueError], because the label is passed to [int] as well. *)
Lemma key_store_label_counterexample :
  Py.split ("A 1" +:+ nl) = ["A"; "1"]
  /\ Py.int "1" = Some 1
  /\ Gcm.load_mappings ["A 1" +:+ nl] ∅ = Raise ValueError.
Proof. repeat split; by_running. Qed.

(** C5 as stated fails: in the run whose key file is "onlyonefield" the
    remap stage is reached and raises [ValueError], the error leaves
    [gcm], and yet the cleanup step has run: it was entered once, the
    working directory is restored and the scratch directory is gone. *)
Lemma remap_failure_cleanup_counterexample :
  Gcm.clustered "/opt/gcm" Demo.bad_key Demo.draw Z Demo.str_float Demo.str_exc
    "graph.txt" 0 12345 None Demo.w0 Demo.sd Demo.ff Demo.kf (Demo.w4 Demo.bad_key)
  /\ fst (Gcm.remap_partition_results Demo.kf Demo.ff (Demo.w4 Demo.bad_key))
     = Raise ValueError
  /\ fst (Demo.gcm Demo.bad_key "graph.txt" None) = Raise ValueError
  /\ calls cleanup_fn (trace (snd (Demo.gcm Demo.bad_key "graph.txt" None))) = 1%nat
  /\ cwd (snd (Demo.gcm Demo.bad_key "graph.txt" None)) = "/home/u"
  /\ OS.is_dir (fs (snd (Demo.gcm Demo.bad_key "graph.txt" None))) Demo.sd = false.
Proof.
  split; [demo_clustered Demo.bad_key|]. repeat (split; [by_running|]). by_running.
Qed.

(** C7 as stated fails: in the run whose clustering binary exits with
    status 1, [run_clustering] returns and the remap stage is entered
    afterwards. *)
Lemma nonzero_exit_remap_counterexample :
  Gcm.prepared "/opt/gcm" Demo.failing Demo.draw Demo.str_exc
    "graph.txt" None Demo.w0 Demo.sd Demo.ff Demo.kf (Demo.w3 Demo.failing)
  /\ fst (Demo.failing
            ["/opt/gcm/a.out"; "2"; "5"; "2"; "12345"; "0.0"; "graph_formatted.txt"]
            (cwd (Demo.w3 Demo.failing)) (fs (Demo.w3 Demo.failing)))
     = Exited 1
  /\ calls "remap_partition_results" (trace (Demo.w4 Demo.failing)) = 0%nat
  /\ calls "remap_partition_results"
       (trace (snd (Demo.gcm Demo.failing "graph.txt" None))) = 1%nat.
Proof.
  split; [demo_prepared Demo.failing|]. repeat (split; [by_running|]). by_running.
Qed.

(** C8 as stated fails: in the run in which every external program is
    missing, each of the three external steps fails with "executable not
    found", each failure is caught and its invoker returns, the run goes
    through all its stages and the cleanup step, and yet [gcm] ends with
    an uncaught [FileNotFoundError], raised when the remap opens the
    assignment file that no step has written. *)
Lemma external_failure_ends_run_counterexample :
  (forall argv c f, fst (Demo.exec_missing argv c f) = NotFound)
  /\ Gcm.clustered "/opt/gcm" Demo.exec_missing Demo.draw Z Demo.str_float Demo.str_exc
       "graph.txt" 0 12345 None Demo.w0 Demo.sd Demo.ff Demo.kf
       (Demo.w4 Demo.exec_missing)
  /\ calls cleanup_fn (trace (snd (Demo.gcm Demo.exec_missing "graph.txt" None))) = 1%nat
  /\ fst (Demo.gcm Demo.exec_missing "graph.txt" None) = Raise FileNotFoundError.
Proof.
  split; [reflexivity|]. split; [demo_clustered Demo.exec_missing|].
  split; by_running.
Qed.


(** ** Further concrete runs *)

(** Staging "graph.txt" from "/home/u": the working directory becomes the
    new scratch directory and one function was entered. *)
Lemma setup_postconditions_witness :
  cwd Demo.w1 = Path.join (cwd Demo.w0) Demo.sd
  /\ trace Demo.w1 = trace Demo.w0 ++ [Call "_setup_and_enter_scratch"].
Proof.
  destruct (setup_postconditions Demo.draw "/home/u" "graph.txt" Demo.w0 Demo.sd Demo.sf
              Demo.w1) as (sfx & c & _ & _ & _ & _ & _ & Hc & _ & _ & _ & _ & Ht).
  - by_running.
  - by_running.
  - split; [exact Hc|exact Ht].
Defined.

(** A run that starts with "/home/u/gcm_cache_aaaa" on disk. *)
Lemma gcm_scratch_collision_witness :
  Gcm.gcm "/opt/gcm" Demo.good Demo.draw Z Demo.str_float Demo.str_exc
    "graph.txt" 0 12345 None None None Cases.w_taken
  = (Raise (UnboundLocalError "scratch_directory"),
     snd (Gcm.generate_random_string Demo.draw 4
            (after Cases.w_taken (fs Cases.w_taken) [Call "_setup_and_enter_scratch"]))).
Proof.
  destruct (gcm_scratch_collision "/opt/gcm" Demo.good Demo.draw Z Demo.str_float
              Demo.str_exc "graph.txt" 0 12345 None None None Cases.w_taken "aaaa"
              (snd (Gcm.generate_random_string Demo.draw 4
                      (after Cases.w_taken (fs Cases.w_taken)
                         [Call "_setup_and_enter_scratch"]))))
    as (_ & H & _).
  - by_running.
  - by_running.
  - by_running.
  - exact H.
Defined.

(** The run of "missing.txt": the scratch directory stays behind. *)
Lemma gcm_missing_input_leaves_scratch_witness :
  exists w',
    Demo.gcm Demo.good "missing.txt" None
    = (Raise (UnboundLocalError "scratch_directory"), w')
    /\ OS.is_dir (fs w') Demo.sd = true.
Proof.
  destruct (gcm_missing_input_leaves_scratch "/opt/gcm" Demo.good Demo.draw Z Demo.str_float
              Demo.str_exc "missing.txt" 0 12345 None None None Demo.w0 "aaaa"
              (snd (Gcm.generate_random_string Demo.draw 4
                      (after Demo.w0 (fs Demo.w0) [Call "_setup_and_enter_scratch"]))))
    as (w' & H1 & H2 & _).
  - by_running.
  - by_running.
  - by_running.
  - by_running.
  - by_running.
  - exists w'. split; [exact H1|].
    assert (Path.join (cwd Demo.w0) (Path.join (cwd Demo.w0) ("gcm_cache_" +:+ "aaaa"))
            = Demo.sd) as E by by_running.
    rewrite E in H2. exact H2.
Defined.

(** A run whose formatter may not be executed. *)
Lemma gcm_formatter_denied_skips_cleanup_witness :
  fst (Demo.gcm Cases.denied "graph.txt" None) = Raise (UnboundLocalError "formatted_file")
  /\ calls cleanup_fn (trace (snd (Demo.gcm Cases.denied "graph.txt" None))) = 0%nat.
Proof.
  destruct (gcm_formatter_denied_skips_cleanup "/opt/gcm" Cases.denied Demo.draw Z
              Demo.str_float Demo.str_exc "graph.txt" 0 12345 None None None
              Demo.w0 Demo.sd Demo.sf Demo.w1) as (H1 & H2).
  - demo_staged.
  - by_running.
  - unfold Demo.gcm. split; [rewrite H1; reflexivity|exact H2].
Defined.

(** The remap after a clustering that wrote nothing. *)
Lemma remap_missing_file_witness :
  Gcm.remap_partition_results Demo.kf Demo.ff (Demo.w4 Demo.failing)
  = (Raise FileNotFoundError,
     after (Demo.w4 Demo.failing) (fs (Demo.w4 Demo.failing))
       [Call "remap_partition_results"]).
Proof.
  apply (remap_missing_file Demo.kf Demo.ff (Demo.w4 Demo.failing)).
  left. by_running.
Defined.

(** The remap of the assignment "0", "x". *)
Lemma remap_bad_assignment_line_witness :
  Gcm.remap_partition_results Demo.kf Demo.ff (Demo.w4 Cases.garbled)
  = (Raise ValueError,
     after (Demo.w4 Cases.garbled) (fs (Demo.w4 Cases.garbled))
       [Call "remap_partition_results"]).
Proof.
  apply (remap_bad_assignment_line Demo.kf Demo.ff (Demo.w4 Cases.garbled)
           ("0" +:+ nl +:+ "x" +:+ nl)).
  - by_running.
  - assert (Py.lines (Py.universal_newlines ("0" +:+ nl +:+ "x" +:+ nl))
            = ["0" +:+ nl; "x" +:+ nl]) as E by by_running.
    rewrite E. apply Exists_cons_tl, Exists_cons_hd. by_running.
Defined.

(** The key file "10 1", "99 1": Dense ID 1 gets the label 99. *)
Lemma key_store_last_line_wins_witness :
  Gcm.load_mappings Cases.key_twice ∅ = Ok (<[1 := 99]> ∅)
  /\ (<[1 := 99]> ∅ : gmap Z Z) !! 1 = last_label Cases.key_twice 1
  /\ last_label Cases.key_twice 1 = Some 99.
Proof.
  assert (Gcm.load_mappings Cases.key_twice ∅ = Ok (<[1 := 99]> ∅)) as H by by_running.
  split; [exact H|]. split; [|by_running].
  exact (key_store_last_line_wins Cases.key_twice (<[1 := 99]> ∅) 1 H).
Defined.

(** A second remap of the complete run's assignment file. *)
Lemma remap_twice_fails_witness :
  fst (Gcm.remap_partition_results Demo.kf Demo.ff (Demo.w5 Demo.good)) = Raise ValueError.
Proof.
  destruct (remap_twice_fails Demo.kf Demo.ff (Demo.w4 Demo.good)
              Demo.part3 Demo.key3 [0; 1; 0] Demo.m3) as [H1 H2].
  - by_running.
  - demo_labels.
  - by_running.
  - by_running.
  - intros i Hi. cbn [length] in Hi.
    assert (i = 1 \/ i = 2 \/ i = 3) as [ -> | [ -> | -> ] ] by (clear - Hi; lia);
      eexists; by_running.
  - intros H. discriminate H.
  - unfold Demo.w5. rewrite H1. cbn [snd]. rewrite H2. reflexivity.
Defined.

(** A formatter that exits with status 3. *)
Lemma formatter_exit_status_ignored_witness :
  fst (Gcm.run_format_script "/opt/gcm" Cases.sloppy Demo.str_exc "graph.txt" None Demo.w1)
  = Ok ("graph_formatted.txt", "graph_key.txt").
Proof.
  rewrite (formatter_exit_status_ignored "/opt/gcm" Cases.sloppy Demo.str_exc "graph.txt"
             None Demo.w1 3
             (snd (Demo.good ["python"] (cwd Demo.w1) (fs Demo.w1)))).
  - by_running.
  - by_running.
Defined.

(** The names of the run on "graph.txt". *)
Lemma run_file_names_distinct_witness :
  String.length "graph_formatted.txt" = (String.length "graph.txt" + 10)%nat
  /\ "graph_formatted.txt" <> "graph_key.txt".
Proof.
  destruct (run_file_names_distinct "graph.txt" "graph_formatted.txt" "graph_key.txt")
    as (H1 & _ & _ & _ & _ & _ & H2 & _).
  - by_running.
  - by_running.
  - split; [exact H1|exact H2].
Defined.

(** The complete run with the output directory "/out": the [finally]
    block restores "/home/u" and removes the scratch directory. *)
Lemma gcm_cleanup_guarantee_witness :
  exists wf,
    Demo.gcm Demo.good "graph.txt" (Some "/out") = (Ok tt, wf)
    /\ cwd wf = cwd Demo.w0
    /\ OS.is_dir (fs wf) Demo.sd = false.
Proof.
  destruct (gcm_cleanup_guarantee "/opt/gcm" Demo.good Demo.draw Z Demo.str_float
              Demo.str_exc "graph.txt" 0 12345 (Some "/out") None None Demo.w0
              (Gcm.mkLocals (Some Demo.sd) (Some Demo.sf) (Some Demo.ff) (Some Demo.kf))
              (Ok tt) (Demo.w5 Demo.good) Demo.sd Demo.ff)
    as (wf & H1 & H2 & H3 & _).
  - by_running.
  - by_running.
  - by_running.
  - reflexivity.
  - reflexivity.
  - by_running.
  - intros _. by_running.
  - by_running.
  - intros _. split; [by_running|]. split; [by_running|].
    split; [vm_compute; intros H; discriminate H|].
    split; [vm_compute; intros H; discriminate H|by_running].
  - exists wf. split; [exact H1|]. split; [exact H2|exact H3].
Defined.

(** The run whose clustering exits with status 1 and writes nothing. *)
Lemma gcm_without_result_witness :
  fst (Demo.gcm Demo.failing "graph.txt" None) = Raise FileNotFoundError.
Proof.
  destruct (gcm_without_result "/opt/gcm" Demo.failing Demo.draw Z Demo.str_float
              Demo.str_exc "graph.txt" 0 12345 None None None Demo.w0 Demo.sd Demo.ff
              Demo.kf (Demo.w4 Demo.failing)) as (f & H & _).
  - demo_clustered Demo.failing.
  - by_running.
  - by_running.
  - by_running.
  - by_running.
  - unfold Demo.gcm. rewrite H. reflexivity.
Defined.

(** The complete run with the output directory "/out". *)
Lemma gcm_publishes_remapped_result_witness :
  exists wf,
    Demo.gcm Demo.good "graph.txt" (Some "/out") = (Ok tt, wf)
    /\ files (fs wf) !! "/out/clustering_output.txt"
       = Some ("10 0" +:+ nl +:+ "20 1" +:+ nl +:+ "30 0" +:+ nl).
Proof.
  destruct (gcm_publishes_remapped_result "/opt/gcm" Demo.good Demo.draw Z Demo.str_float
              Demo.str_exc "graph.txt" 0 12345 (Some "/out") None None Demo.w0 Demo.sd
              Demo.ff Demo.kf (Demo.w4 Demo.good) Demo.part3 Demo.key3 [0; 1; 0] Demo.m3)
    as (wf & H1 & _ & _ & H2 & _).
  - demo_clustered Demo.good.
  - by_running.
  - by_running.
  - demo_labels.
  - by_running.
  - by_running.
  - intros i Hi. cbn [length] in Hi.
    assert (i = 1 \/ i = 2 \/ i = 3) as [ -> | [ -> | -> ] ] by (clear - Hi; lia);
      eexists; by_running.
  - by_running.
  - by_running.
  - by_running.
  - by_running.
  - vm_compute. intros H. discriminate H.
  - by_running.
  - exists wf. split; [exact H1|].
    assert (Path.join Demo.sd
              (Path.join (or_default (Some "/out") (cwd Demo.w0))
                 (or_default None "clustering_output.txt"))
            = "/out/clustering_output.txt") as E1 by by_running.
    assert (remapped_text Demo.m3 1 [0; 1; 0]
            = "10 0" +:+ nl +:+ "20 1" +:+ nl +:+ "30 0" +:+ nl) as E2 by by_running.
    rewrite E1, E2 in H2. exact H2.
Defined.

(** The complete run with the output directory given as the empty
    string: the run returns normally and leaves no output file. *)
Lemma gcm_relative_output_is_lost_witness :
  exists wf,
    Demo.gcm Demo.good "graph.txt" (Some "") = (Ok tt, wf)
    /\ files (fs wf) !! "/home/u/gcm_cache_aaaa/clustering_output.txt" = None
    /\ files (fs wf) !! "/home/u/clustering_output.txt" = None.
Proof.
  destruct (gcm_relative_output_is_lost "/opt/gcm" Demo.good Demo.draw Z Demo.str_float
              Demo.str_exc "graph.txt" 0 12345 (Some "") None None Demo.w0 Demo.sd
              Demo.ff Demo.kf (Demo.w4 Demo.good) Demo.part3 Demo.key3 [0; 1; 0] Demo.m3)
    as (wf & H1 & _ & H2 & H3).
  - demo_clustered Demo.good.
  - by_running.
  - by_running.
  - demo_labels.
  - by_running.
  - by_running.
  - intros i Hi. cbn [length] in Hi.
    assert (i = 1 \/ i = 2 \/ i = 3) as [ -> | [ -> | -> ] ] by (clear - Hi; lia);
      eexists; by_running.
  - by_running.
  - by_running.
  - by_running.
  - by_running.
  - vm_compute. intros H. discriminate H.
  - by_running.
  - exists wf. split; [exact H1|].
    assert (Path.join Demo.sd
              (Path.join (or_default (Some "") (cwd Demo.w0))
                 (or_default None "clustering_output.txt"))
            = "/home/u/gcm_cache_aaaa/clustering_output.txt") as E1 by by_running.
    rewrite E1 in H2. split; [exact H2|].
    rewrite (H3 "/home/u/clustering_output.txt").
    + by_running.
    + vm_compute. intros H. discriminate H.
    + by_running.
Defined.
